(** * Pellet Sales Management System: query builder, validation and
      aggregation logic, embedded from [advanced_search_system.py],
      [data_processor.py] and [sales_entry.py]. *)

From Stdlib Require Import ZArith QArith Qround Qabs Qpower Lia Lqa.
From Stdlib Require Import String Ascii List Permutation Sorted DecimalString.
From stdpp Require Import base option gmap strings list.

Local Open Scope Z_scope.

(** ** Python strings

    A [str] is modelled by a Rocq [string]; literals with accents are their
    UTF-8 bytes.  Only the operations the program uses are defined. *)
Module PyStr.

(** [sep.join(parts)] *)
Fixpoint join (sep : string) (parts : list string) : string :=
  match parts with
  | [] => ""
  | [p] => p
  | p :: rest => p +:+ sep +:+ join sep rest
  end.

(** The characters [str.strip()] removes, restricted to the ASCII range:
    tab, line feed, vertical tab, form feed, carriage return, the four
    separators 0x1c-0x1f and the space.  [str.strip()] also removes the
    white space beyond ASCII (U+0085, U+00A0, U+2003, U+3000, ...): the
    [strip] below is [str.strip()] on text that has none of these at
    its ends.  The query builder and the search window do not use it:
    they take the interpreter's function as a parameter, and [strip]
    only instantiates it in examples on ASCII text. *)
Definition is_space (c : ascii) : bool :=
  let n := nat_of_ascii c in
  ((9 <=? n)%nat && (n <=? 13)%nat)
  || ((28 <=? n)%nat && (n <=? 31)%nat)
  || (n =? 32)%nat.

Fixpoint lstrip (s : string) : string :=
  match s with
  | EmptyString => EmptyString
  | String c rest => if is_space c then lstrip rest else s
  end.

(** [rstrip] keeps a character when it is not a space or when something
    survives to its right. *)
Fixpoint rstrip (s : string) : string :=
  match s with
  | EmptyString => EmptyString
  | String c rest =>
      match rstrip rest with
      | EmptyString => if is_space c then EmptyString else String c EmptyString
      | kept => String c kept
      end
  end.

Definition strip (s : string) : string := rstrip (lstrip s).

(** [s.startswith(p)] *)
Fixpoint startswith (p s : string) : bool :=
  match p, s with
  | EmptyString, _ => true
  | String a p', String b s' => if Ascii.eqb a b then startswith p' s' else false
  | String _ _, EmptyString => false
  end.

(** [k in s] for two strings: [k] occurs as a contiguous substring. *)
Fixpoint contains (k s : string) : bool :=
  startswith k s ||
  match s with
  | EmptyString => false
  | String _ s' => contains k s'
  end.

(** ASCII letters only; the program's keyword list is ASCII.
    [str.upper()] also maps letters beyond ASCII (the long s to S, the
    dotless i to I), so it finds a keyword wherever [upper] does and in
    a few texts more. *)
Definition upper_ascii (c : ascii) : ascii :=
  let n := nat_of_ascii c in
  if ((97 <=? n)%nat && (n <=? 122)%nat)%bool then ascii_of_nat (n - 32) else c.

Fixpoint upper (s : string) : string :=
  match s with
  | EmptyString => EmptyString
  | String c rest => String (upper_ascii c) (upper rest)
  end.

(** Truthiness of a string: non-empty. *)
Definition truthy (s : string) : bool :=
  match s with EmptyString => false | _ => true end.

End PyStr.

(** ** Exceptions

    A computation that may raise returns a [result]; [try_except] is a
    [try: ... except Exception: ...] block. *)
Module PyExn.

Inductive exn :=
| MySQLError            (* mysql.connector.Error *)
| InvalidOperation      (* decimal: conversion of a non-number, 0/0 *)
| DivisionByZero        (* decimal: x/0 *)
| TypeError
| ValueError
| OverflowError
| OtherException (name : string).

Inductive result (A : Type) :=
| Ok (a : A)
| Raise (e : exn).
Arguments Ok {A} a.
Arguments Raise {A} e.

Definition bind {A B} (r : result A) (k : A -> result B) : result B :=
  match r with
  | Ok a => k a
  | Raise e => Raise e
  end.

Definition try_except {A} (body : result A) (handler : exn -> result A) : result A :=
  match body with
  | Ok a => Ok a
  | Raise e => handler e
  end.

Definition raises {A} (r : result A) : Prop := exists e, r = Raise e.

(** Sequencing, written [x ← c; k] below: the first exception wins. *)
#[global] Instance result_ret : MRet result := fun A a => Ok a.
#[global] Instance result_bind : MBind result := fun A B k r => bind r k.

End PyExn.


(** ** [datetime.date] *)
Module PyDate.

Record date := mkdate { year : Z; month : Z; day : Z }.

#[global] Instance date_eq_dec : EqDecision date.
Proof. solve_decision. Defined.

(** Dates compare as the tuples (year, month, day). *)
Definition ltb (a b : date) : bool :=
  (year a <? year b)
  || ((year a =? year b) &&
      ((month a <? month b) || ((month a =? month b) && (day a <? day b)))).

Definition gtb (a b : date) : bool := ltb b a.

Definition is_leap (y : Z) : bool :=
  ((y mod 4 =? 0) && (negb (y mod 100 =? 0) || (y mod 400 =? 0))).

(** Days before January 1st of year [y] (proleptic Gregorian). *)
Definition days_before_year (y : Z) : Z :=
  let p := y - 1 in p * 365 + p / 4 - p / 100 + p / 400.

Definition days_in_month (y m : Z) : Z :=
  if m =? 2 then (if is_leap y then 29 else 28)
  else if (m =? 4) || (m =? 6) || (m =? 9) || (m =? 11) then 30
  else 31.

Fixpoint days_before_month_aux (y : Z) (n : nat) : Z :=
  match n with
  | O => 0
  | S k => days_before_month_aux y k + days_in_month y (Z.of_nat (S k))
  end.

(** Days of year [y] before the first of month [m]. *)
Definition days_before_month (y m : Z) : Z :=
  days_before_month_aux y (Z.to_nat (m - 1)).

Definition toordinal (d : date) : Z :=
  days_before_year (year d) + days_before_month (year d) (month d) + day d.

(** [(a - b).days] *)
Definition sub_days (a b : date) : Z := toordinal a - toordinal b.

Definition valid (d : date) : Prop :=
  1 <= year d <= 9999 /\ 1 <= month d <= 12 /\
  1 <= day d <= days_in_month (year d) (month d).

Definition validb (d : date) : bool :=
  (1 <=? year d) && (year d <=? 9999) && (1 <=? month d) && (month d <=? 12)
  && (1 <=? day d) && (day d <=? days_in_month (year d) (month d)).

(** [date(y, m, d)] raises [ValueError] outside the calendar. *)
Definition make_date (y m d : Z) : PyExn.result date :=
  if validb (mkdate y m d) then PyExn.Ok (mkdate y m d)
  else PyExn.Raise PyExn.ValueError.

(** [d - timedelta(days=1)] for a date after 0001-01-01. *)
Definition minus_one_day (d : date) : date :=
  if 1 <? day d then mkdate (year d) (month d) (day d - 1)
  else if 1 <? month d
       then mkdate (year d) (month d - 1) (days_in_month (year d) (month d - 1))
       else mkdate (year d - 1) 12 31.

(** [str(d)], the ISO form [YYYY-MM-DD] with zero padding. *)
Definition digit (n : Z) : ascii := ascii_of_nat (48 + Z.to_nat (n mod 10)).

Definition zfill2 (n : Z) : string :=
  String (digit (n / 10)) (String (digit n) EmptyString).

Definition zfill4 (n : Z) : string :=
  String (digit (n / 1000)) (String (digit (n / 100))
    (String (digit (n / 10)) (String (digit n) EmptyString))).

Definition isoformat (d : date) : string :=
  zfill4 (year d) +:+ "-" +:+ zfill2 (month d) +:+ "-" +:+ zfill2 (day d).

(** [delta.seconds] of a [timedelta] of [us] microseconds: the seconds
    left after whole days are taken out, between 0 and 86399. *)
Definition timedelta_seconds (us : Z) : Z := (us / 1000000) mod 86400.

End PyDate.

(** ** [DatabaseQueryBuilder] of [advanced_search_system.py] *)
Module QueryBuilder.
Import PyStr PyDate.

(** A value bound to a [%s] placeholder. *)
Inductive param :=
| PDate (d : date)
| PStr (s : string).

(** The filter dictionary: a missing date key is [None], a missing list
    key is the empty list, a missing document number is the empty
    string, as [filters.get] gives them. *)
Record filters := mkfilters {
  start_date : option date;
  end_date : option date;
  branches : list string;
  document_types : list string;
  products : list string;
  document_number : string
}.

Definition base_query : string :=
"
            SELECT VentaID, Articulo, PuntoVenta, Fecha, TipoDocumento, 
                   NumeroDocumento, Unidad, KilosTotales, ValorUnitario, 
                   Descuento, Neto, IVA, Total, NetoPorKG, Pago, 
                   NumeroComprobante, MedioPago
            FROM VentasDiarias
        ".

(** [', '.join(['%s'] * n)] *)
Definition placeholders (n : nat) : string := join ", " (repeat "%s" n).

(** The two lists the function grows: [conditions] and [parameters]. *)
Definition acc : Type := list string * list param.

(** [conditions.append(c); parameters.extend(ps)] *)
Definition push (c : string) (ps : list param) (a : acc) : acc :=
  (a.1 ++ [c], a.2 ++ ps).

(** Date range: both dates must be truthy, and a [date] always is. *)
Definition add_dates (f : filters) (a : acc) : acc :=
  match start_date f, end_date f with
  | Some s, Some e =>
      if decide (s = e) then push "Fecha = %s" [PDate s] a
      else push "Fecha BETWEEN %s AND %s" [PDate s; PDate e] a
  | _, _ => a
  end.

(** [f"{column} IN ({placeholders})"] with one placeholder per value. *)
Definition in_condition (column : string) (values : list string) : string :=
  column +:+ " IN (" +:+ placeholders (length values) +:+ ")".

Definition nonempty {A} (l : list A) : bool :=
  match l with [] => false | _ => true end.

Definition add_branches (f : filters) (a : acc) : acc :=
  let branches := branches f in
  if nonempty branches && (0 <? length branches)%nat
  then push (in_condition "PuntoVenta" branches) (map PStr branches) a
  else a.

(** ["Todo" in l] *)
Definition has_todo (l : list string) : bool := bool_decide ("Todo" ∈ l).

Definition add_doc_types (f : filters) (a : acc) : acc :=
  let doc_types := document_types f in
  if nonempty doc_types && (0 <? length doc_types)%nat && negb (has_todo doc_types)
  then push (in_condition "TipoDocumento" doc_types) (map PStr doc_types) a
  else a.

Definition add_products (f : filters) (a : acc) : acc :=
  let products := products f in
  if nonempty products && (0 <? length products)%nat && negb (has_todo products)
  then push (in_condition "Articulo" products) (map PStr products) a
  else a.

Section WithLibrary.
(** [str.strip] is the interpreter's: it removes the white space of
    Unicode at both ends. The definitions take it as it is, whatever
    characters it counts as white space. *)
Variable str_strip : string -> string.

Definition add_doc_number (f : filters) (a : acc) : acc :=
  let doc_number := str_strip (document_number f) in
  if truthy doc_number then push "NumeroDocumento = %s" [PStr doc_number] a
  else a.

(** The state of the two lists when the final query is assembled. *)
Definition collect (f : filters) : acc :=
  add_doc_number f (add_products f (add_doc_types f (add_branches f
    (add_dates f ([], []))))).

Definition conditions (f : filters) : list string := (collect f).1.
Definition parameters (f : filters) : list param := (collect f).2.

Definition where_clause (f : filters) : string :=
  if nonempty (conditions f) then join " AND " (conditions f) else "1=1".

(** Returns [(final_query, tuple(parameters))].  None of the operations
    above can raise on a filter dictionary of this type, so the
    [except] fallback is not reached. *)
Definition build_search_query (f : filters) : string * list param :=
  (base_query +:+ " WHERE " +:+ where_clause f
     +:+ " ORDER BY Fecha DESC, VentaID DESC",
   parameters f).

(** *** What the SQL text may depend on *)

(** The shape the specification speaks of: which filters are present and
    how long the lists are. *)
Definition claimed_shape (f : filters) : bool * bool * nat * nat * nat * bool :=
  (bool_decide (is_Some (start_date f)), bool_decide (is_Some (end_date f)),
   length (branches f), length (document_types f), length (products f),
   truthy (str_strip (document_number f))).

(** How the date filter enters the query. *)
Inductive date_mode := NoDates | SameDay | DateRange.

Definition date_mode_of (f : filters) : date_mode :=
  match start_date f, end_date f with
  | Some s, Some e => if decide (s = e) then SameDay else DateRange
  | _, _ => NoDates
  end.

(** The shape the code looks at: besides presence and lengths, whether
    the two dates coincide and whether a list holds the "Todo" entry. *)
Record query_shape := mkshape {
  sh_dates : date_mode;
  sh_branches : nat;
  sh_doc_types : nat;
  sh_doc_types_todo : bool;
  sh_products : nat;
  sh_products_todo : bool;
  sh_doc_number : bool
}.

Definition shape_of (f : filters) : query_shape :=
  mkshape (date_mode_of f) (length (branches f))
    (length (document_types f)) (has_todo (document_types f))
    (length (products f)) (has_todo (products f))
    (truthy (str_strip (document_number f))).

(** The SQL text written from a shape alone. *)
Definition conditions_of_shape (sh : query_shape) : list string :=
  (match sh_dates sh with
   | NoDates => []
   | SameDay => ["Fecha = %s"]
   | DateRange => ["Fecha BETWEEN %s AND %s"]
   end)
  ++ (if (0 <? sh_branches sh)%nat
      then ["PuntoVenta IN (" +:+ placeholders (sh_branches sh) +:+ ")"] else [])
  ++ (if (0 <? sh_doc_types sh)%nat && negb (sh_doc_types_todo sh)
      then ["TipoDocumento IN (" +:+ placeholders (sh_doc_types sh) +:+ ")"] else [])
  ++ (if (0 <? sh_products sh)%nat && negb (sh_products_todo sh)
      then ["Articulo IN (" +:+ placeholders (sh_products sh) +:+ ")"] else [])
  ++ (if sh_doc_number sh then ["NumeroDocumento = %s"] else []).

Definition sql_of_shape (sh : query_shape) : string :=
  base_query +:+ " WHERE "
    +:+ (if nonempty (conditions_of_shape sh)
         then join " AND " (conditions_of_shape sh) else "1=1")
    +:+ " ORDER BY Fecha DESC, VentaID DESC".

(** Two filter dictionaries of the same claimed shape. *)
Definition filters_todo : filters :=
  mkfilters None None [] ["Todo"] [] "".
Definition filters_factura : filters :=
  mkfilters None None [] ["Factura"] [] "".

Definition no_filters : filters := mkfilters None None [] [] [] "".

(** No filter is active: a date is missing, no branch is chosen, the
    document-type and product lists are empty or hold "Todo", and the
    document number is blank. *)
Definition inactive (f : filters) : Prop :=
  (start_date f = None \/ end_date f = None) /\
  branches f = [] /\
  (document_types f = [] \/ "Todo" ∈ document_types f) /\
  (products f = [] \/ "Todo" ∈ products f) /\
  str_strip (document_number f) = "".

Definition with_document_types (f : filters) (l : list string) : filters :=
  mkfilters (start_date f) (end_date f) (branches f) l (products f)
    (document_number f).

Definition with_products (f : filters) (l : list string) : filters :=
  mkfilters (start_date f) (end_date f) (branches f) (document_types f) l
    (document_number f).

End WithLibrary.

End QueryBuilder.

(** ** Rounding to a fixed number of significant digits

    Both number systems of the program round the exact result of an
    operation to [p] significant digits in radix [beta], ties to even:
    [decimal] with [beta = 10] and the context precision, [float] with
    [beta = 2] and 53 bits.  Values are rationals; the exponent is not
    bounded here. *)
Module Rounding.
Local Open Scope Q_scope.

(** Number of radix-[beta] digits of a positive integer. *)
Fixpoint digits_aux (fuel : nat) (beta n : Z) : Z :=
  match fuel with
  | O => 0
  | S fuel' =>
      if (n <=? 0)%Z then 0%Z else (1 + digits_aux fuel' beta (n / beta))%Z
  end.

Definition digits (beta n : Z) : Z :=
  digits_aux (S (Z.to_nat (Z.log2 n))) beta n.

(** [ilog beta x] is the exponent of the leading digit of [x > 0]:
    [beta ^ ilog <= x < beta ^ (ilog + 1)]. *)
Definition ilog (beta : Z) (x : Q) : Z :=
  let k := (digits beta (Qnum x) - digits beta (Zpos (Qden x)))%Z in
  if Qle_bool (inject_Z beta ^ k) x then k else (k - 1)%Z.

(** Nearest integer, ties to the even one. *)
Definition round_half_even (x : Q) : Z :=
  let f := Qfloor x in
  match Qcompare (x - inject_Z f) (1 # 2) with
  | Lt => f
  | Gt => (f + 1)%Z
  | Eq => if Z.even f then f else (f + 1)%Z
  end.

(** The unit in the last of [p] significant digits of [x <> 0]. *)
Definition ulp (beta p : Z) (x : Q) : Q :=
  inject_Z beta ^ (ilog beta (Qabs x) - (p - 1)).

Definition round_sig (beta p : Z) (x : Q) : Q :=
  if Qeq_bool x 0 then 0
  else Qred (inject_Z (round_half_even (x / ulp beta p x)) * ulp beta p x).

End Rounding.

(** ** [decimal.Decimal] under [getcontext().prec = 10] *)
Module PyDecimal.
Import PyExn.
Local Open Scope Q_scope.

(** [getcontext().prec = 10] at the top of [data_processor.py]. *)
Definition prec : Z := 10.

(** A finite [Decimal] is the rational it denotes.  The context rounds
    to [prec] significant digits, ties to even; its exponent limits
    (Emax = 999999, Emin = -999999) are not modelled, so that the
    arithmetic below is the context's on results of a magnitude between
    1E-999999 and 1E+1000000: beyond, the context raises [Overflow];
    below, it rounds to fewer digits. *)
Definition round (x : Q) : Q := Rounding.round_sig 10 prec x.

Definition add (x y : Q) : Q := round (x + y).
Definition sub (x y : Q) : Q := round (x - y).
Definition mul (x y : Q) : Q := round (x * y).

(** Division traps a zero divisor: [DivisionByZero], or
    [InvalidOperation] for 0/0. *)
Definition div (x y : Q) : result Q :=
  if Qeq_bool y 0
  then Raise (if Qeq_bool x 0 then InvalidOperation else DivisionByZero)
  else Ok (round (x / y)).

(** A number the program handles with [+=]: a Python [int] or a
    [Decimal]. *)
Inductive num :=
| Int (z : Z)
| Dec (q : Q).

(** [Decimal(str(n))]: exact. *)
Definition to_decimal (n : num) : Q :=
  match n with
  | Int z => inject_Z z
  | Dec q => q
  end.

(** [a + b]: integers add exactly; as soon as one operand is a
    [Decimal] the other is converted and the sum is rounded. *)
Definition num_add (a b : num) : num :=
  match a, b with
  | Int x, Int y => Int (x + y)
  | _, _ => Dec (add (to_decimal a) (to_decimal b))
  end.

(** [int(n)]: truncation toward zero. *)
Definition to_int (n : num) : Z :=
  match n with
  | Int z => z
  | Dec q => Z.quot (Qnum q) (Zpos (Qden q))
  end.

(** Equality of values, as [==] compares two numbers. *)
Definition num_eq (a b : num) : Prop := to_decimal a == to_decimal b.

End PyDecimal.

(** ** [float] (binary64) *)
Module PyFloat.
Import PyExn.
Local Open Scope Q_scope.

Definition round (x : Q) : Q := Rounding.round_sig 2 53 x.

(** The float a decimal literal denotes. *)
Definition literal (x : Q) : Q := round x.

(** [float(n)] for an [int]: the nearest float, [OverflowError] when it
    is out of range. *)
Definition of_int (n : Z) : result Q :=
  let r := round (inject_Z n) in
  if Qle_bool (inject_Z 2 ^ 1024) (Qabs r) then Raise OverflowError else Ok r.

Definition mul (x y : Q) : Q := round (x * y).
Definition div (x y : Q) : Q := round (x / y).

End PyFloat.

(** ** [SalesDataProcessor] of [data_processor.py] *)
Module Processor.
Import PyStr PyDate PyExn PyDecimal.
Local Open Scope Q_scope.

(** *** Configuration set by [__init__] *)

Definition cache_timeout : Z := 300.
Definition business_start_date : date := mkdate 2024 4 1.
Definition iva_rate : Q := 119 # 100.

Record categories := mkcategories {
  PRODUCT_ORDER : list string;
  PRODUCT_UNIT : gmap string string;
  PELLET_PRODUCTS : list string;
  VACAM_PRODUCTS : list string;
  SALES_TYPE_MAP : gmap string string
}.

(** *** The branch structure

    [{'osorno': {...}, 'union': {...}}], each branch holding the two
    fixed keys "Pellet (venta local)" and "Pellet (venta distribuidor)",
    each of those the four running totals. *)
Record totals := mktotals {
  cantidad : num;
  toneladas : num;
  total_neto : Q;
  total_bruto : Q
}.

Record branch_sales := mkbranch_sales {
  venta_local : totals;
  venta_distribuidor : totals
}.

Record branch_data := mkbranch_data {
  osorno_data : branch_sales;
  union_data : branch_sales
}.

(** ["cantidad": 0, "toneladas": 0, "total_neto": Decimal('0'),
    "total_bruto": Decimal('0')] *)
Definition zero_totals : totals := mktotals (Int 0) (Int 0) 0 0.

Definition _get_empty_branch_data : branch_data :=
  let empty_structure := mkbranch_sales zero_totals zero_totals in
  mkbranch_data empty_structure empty_structure.

(** *** Rows of the grouped query

    A column is [None] when the SQL aggregate is NULL. *)
Record row := mkrow {
  PuntoVenta : string;
  Articulo : string;
  total_kilos : option num;
  total_cantidad : option num;
  total_total : option num;
  row_total_neto : option num
}.

(** [Decimal(str(v))]: [str(None)] is not a number. *)
Definition decimal_of_str (v : option num) : result Q :=
  match v with
  | Some n => Ok (to_decimal n)
  | None => Raise InvalidOperation
  end.

(** [acc += v]: adding [None] to a number is a [TypeError]. *)
Definition iadd (acc : num) (v : option num) : result num :=
  match v with
  | Some n => Ok (num_add acc n)
  | None => Raise TypeError
  end.

Definition _get_sales_type (cats : categories) (product : string) : string :=
  default "Unknown" (SALES_TYPE_MAP cats !! product).

Inductive product_key :=
| PelletLocal          (* "Pellet (venta local)" *)
| PelletDistribuidor.  (* "Pellet (venta distribuidor)" *)

Definition product_key_of (sales_type : string) : option product_key :=
  if String.eqb sales_type "Local" then Some PelletLocal
  else if String.eqb sales_type "Distribuidor" then Some PelletDistribuidor
  else None.

(** The four [+=] on one bucket. *)
Definition add_to_totals (t : totals) (quantity : option num) (tons neto total : Q)
  : result totals :=
  c ← iadd (cantidad t) quantity;
  Ok (mktotals c
        (num_add (toneladas t) (Dec tons))
        (add (total_neto t) neto)
        (add (total_bruto t) total)).

Definition add_to_sales (s : branch_sales) (k : product_key)
    (quantity : option num) (tons neto total : Q) : result branch_sales :=
  match k with
  | PelletLocal =>
      t ← add_to_totals (venta_local s) quantity tons neto total;
      Ok (mkbranch_sales t (venta_distribuidor s))
  | PelletDistribuidor =>
      t ← add_to_totals (venta_distribuidor s) quantity tons neto total;
      Ok (mkbranch_sales (venta_local s) t)
  end.

(** The body of the loop over the records, the same text in
    [_process_branch_sales_data] and [_aggregate_monthly_data]. *)
Definition aggregate_record (cats : categories) (data : branch_data) (record : row)
  : result branch_data :=
  let branch := PuntoVenta record in
  let product := Articulo record in
  let kilos := total_kilos record in
  let quantity := total_cantidad record in
  total ← decimal_of_str (total_total record);
  neto ← decimal_of_str (row_total_neto record);
  kilos_dec ← decimal_of_str kilos;
  tons ← div kilos_dec 1000;
  let sales_type := _get_sales_type cats product in
  match product_key_of sales_type with
  | None => Ok data
  | Some key =>
      if String.eqb branch "Osorno" then
        s ← add_to_sales (osorno_data data) key quantity tons neto total;
        Ok (mkbranch_data s (union_data data))
      else if String.eqb branch "La Unión" then
        s ← add_to_sales (union_data data) key quantity tons neto total;
        Ok (mkbranch_data (osorno_data data) s)
      else Ok data
  end.

Fixpoint aggregate_records (cats : categories) (data : branch_data) (rows : list row)
  : result branch_data :=
  match rows with
  | [] => Ok data
  | record :: rest =>
      data' ← aggregate_record cats data record;
      aggregate_records cats data' rest
  end.

Definition _aggregate_monthly_data (cats : categories) (monthly_data : list row)
    (data : branch_data) : result branch_data :=
  aggregate_records cats data monthly_data.

Definition _process_branch_sales_data (cats : categories) (raw_data : list row)
  : result branch_data :=
  aggregate_records cats _get_empty_branch_data raw_data.

(** *** The database

    What one [conectar()] / [execute] / [fetchall] round gives for a
    query and its parameters: no connection, the rows, or an
    exception. *)
Inductive db_reply :=
| NoConnection
| Rows (rows : list row)
| DbRaises (e : exn).

Definition database : Type := string -> list date -> db_reply.

Definition _execute_query (db : database) (query : string) (params : list date)
  : result (list row) :=
  try_except
    (match db query params with
     | NoConnection => Ok []
     | Rows results => Ok results
     | DbRaises e => Raise e
     end)
    (fun e =>
       match e with
       | MySQLError => Ok []
       | _ => Ok []
       end).

(** *** The cache *)

(** Time stamps are [datetime.now()] values in microseconds. *)
Definition datetime : Type := Z.

Record processor := mkprocessor {
  exchange_rate : Q;
  data_cache : gmap string branch_data;
  last_cache_update : gmap string datetime;
  product_categories : categories
}.

Definition _is_cache_valid (now : datetime) (self : processor) (cache_key : string)
  : bool :=
  match data_cache self !! cache_key with
  | None => false
  | Some _ =>
      match last_cache_update self !! cache_key with
      | None => false
      | Some stamp =>
          let time_elapsed := timedelta_seconds (now - stamp) in
          (time_elapsed <? cache_timeout)%Z
      end
  end.

(** [self.data_cache[cache_key]] *)
Definition cache_get (self : processor) (cache_key : string) : result branch_data :=
  match data_cache self !! cache_key with
  | Some v => Ok v
  | None => Raise (OtherException "KeyError")
  end.

Definition cache_put (self : processor) (cache_key : string) (v : branch_data)
    (now : datetime) : processor :=
  mkprocessor (exchange_rate self)
    (<[cache_key := v]> (data_cache self))
    (<[cache_key := now]> (last_cache_update self))
    (product_categories self).

Definition branch_sales_key (start_date end_date : date) : string :=
  "branch_sales_" +:+ isoformat start_date +:+ "_" +:+ isoformat end_date.

Definition branch_sales_query (query_condition : string) : string :=
"
                SELECT PuntoVenta, Articulo, SUM(KilosTotales) AS total_kilos, 
                       SUM(Unidad) AS total_cantidad, SUM(Total) AS total_total, 
                       SUM(Neto) AS total_neto
                FROM VentasDiarias
                WHERE " +:+ query_condition +:+ "
                GROUP BY PuntoVenta, Articulo
            ".

(** The statements of the [try] block up to the processed data. *)
Definition branch_sales_body (db : database) (self : processor)
    (start_date end_date : date) : result branch_data :=
  let '(query_condition, query_params) :=
    if decide (start_date = end_date)
    then ("Fecha = %s"%string, [start_date])
    else ("Fecha BETWEEN %s AND %s"%string, [start_date; end_date]) in
  raw_data ← _execute_query db (branch_sales_query query_condition) query_params;
  _process_branch_sales_data (product_categories self) raw_data.

(** The two clock readings are the one in [_is_cache_valid] and the one
    stored with a fresh result. *)
Definition get_sales_by_branch_data (db : database) (now_check now_store : datetime)
    (self : processor) (start_date end_date : date)
  : result branch_data * processor :=
  let cache_key := branch_sales_key start_date end_date in
  if _is_cache_valid now_check self cache_key then
    (cache_get self cache_key, self)
  else
    match branch_sales_body db self start_date end_date with
    | Ok processed_data =>
        (Ok processed_data, cache_put self cache_key processed_data now_store)
    | Raise _ => (Ok _get_empty_branch_data, self)
    end.

(** *** Monthly aggregation *)

Definition monthly_key (start_date end_date : date) : string :=
  "monthly_branch_sales_" +:+ isoformat start_date +:+ "_" +:+ isoformat end_date.

Definition monthly_query : string :=
"
            SELECT PuntoVenta, Articulo, SUM(KilosTotales) AS total_kilos, 
                   SUM(Unidad) AS total_cantidad, SUM(Total) AS total_total, 
                   SUM(Neto) AS total_neto
            FROM VentasDiarias
            WHERE Fecha BETWEEN %s AND %s
            GROUP BY PuntoVenta, Articulo
        ".

Definition _get_monthly_data (db : database) (month_start month_end : date)
  : result (list row) :=
  _execute_query db monthly_query [month_start; month_end].

(** The first and last day of month [month] of [current_year], as the
    loop body computes them. *)
Definition month_bounds (current_year month : Z) : result (date * date) :=
  month_start ← make_date current_year month 1;
  month_end ←
    (if (month =? 12)%Z
     then d ← make_date (current_year + 1) 1 1; Ok (minus_one_day d)
     else d ← make_date current_year (month + 1) 1; Ok (minus_one_day d));
  Ok (month_start, month_end).

(** The loop over [range(start_month, end_month + 1)]; [current_year] is
    never reassigned. *)
Fixpoint monthly_loop (db : database) (cats : categories)
    (current_year end_year : Z) (months : list Z) (data : branch_data)
  : result branch_data :=
  match months with
  | [] => Ok data
  | month :: rest =>
      if negb (current_year =? end_year)%Z && (12 <? month)%Z then Ok data
      else
        '(month_start, month_end) ← month_bounds current_year month;
        monthly_data ← _get_monthly_data db month_start month_end;
        data' ← _aggregate_monthly_data cats monthly_data data;
        monthly_loop db cats current_year end_year rest data'
  end.

(** [range(a, b)] *)
Definition range (a b : Z) : list Z := seqZ a (b - a).

(** The statements of the [try] block up to [result]. *)
Definition monthly_body (db : database) (self : processor)
    (start_date end_date : date) : result branch_data :=
  let start_month := month start_date in
  let start_year := year start_date in
  let end_month := month end_date in
  let end_year := year end_date in
  monthly_loop db (product_categories self) start_year end_year
    (range start_month (end_month + 1)) _get_empty_branch_data.

Definition get_monthly_sales_by_branch_data (db : database)
    (now_check now_store : datetime) (self : processor) (start_date end_date : date)
  : result branch_data * processor :=
  let cache_key := monthly_key start_date end_date in
  if _is_cache_valid now_check self cache_key then
    (cache_get self cache_key, self)
  else
    match monthly_body db self start_date end_date with
    | Ok result => (Ok result, cache_put self cache_key result now_store)
    | Raise _ => (Ok _get_empty_branch_data, self)
    end.

(** *** Buckets and contributions

    The vocabulary of the aggregation properties: the bucket a row falls
    in, and what the row adds to it. *)
Inductive branch :=
| Osorno
| LaUnion.

#[global] Instance branch_eq_dec : EqDecision branch.
Proof. solve_decision. Defined.

#[global] Instance product_key_eq_dec : EqDecision product_key.
Proof. solve_decision. Defined.

Definition branch_of (name : string) : option branch :=
  if String.eqb name "Osorno" then Some Osorno
  else if String.eqb name "La Unión" then Some LaUnion
  else None.

Definition bucket (data : branch_data) (b : branch) (k : product_key) : totals :=
  let sales := match b with Osorno => osorno_data data | LaUnion => union_data data end in
  match k with
  | PelletLocal => venta_local sales
  | PelletDistribuidor => venta_distribuidor sales
  end.

(** The bucket of a row: its branch and the sales type of its product;
    [None] for a row the loop skips. *)
Definition row_bucket (cats : categories) (r : row) : option (branch * product_key) :=
  match product_key_of (_get_sales_type cats (Articulo r)), branch_of (PuntoVenta r) with
  | Some k, Some b => Some (b, k)
  | _, _ => None
  end.

(** What one row adds: its quantity, its kilos divided by 1000, its neto
    and its total. *)
Record contribution := mkcontribution {
  c_quantity : num;
  c_tons : Q;
  c_neto : Q;
  c_total : Q
}.

Definition contribution_of (r : row) : option contribution :=
  match total_cantidad r, total_kilos r, row_total_neto r, total_total r with
  | Some quantity, Some kilos, Some neto, Some total =>
      Some (mkcontribution quantity (round (to_decimal kilos / 1000))
              (to_decimal neto) (to_decimal total))
  | _, _, _, _ => None
  end.

Definition add_contribution (t : totals) (c : contribution) : totals :=
  mktotals (num_add (cantidad t) (c_quantity c))
    (num_add (toneladas t) (Dec (c_tons c)))
    (add (total_neto t) (c_neto c))
    (add (total_bruto t) (c_total c)).

(** The contributions of the rows of one bucket, in the order of the
    rows. *)
Definition bucket_contributions (cats : categories) (b : branch) (k : product_key)
    (rows : list row) : list contribution :=
  omap (fun r => if decide (row_bucket cats r = Some (b, k))
                 then contribution_of r else None) rows.

Definition Qsum (xs : list Q) : Q := fold_right Qplus 0 xs.

(** The exact, unrounded totals of a list of contributions. *)
Definition exact_quantity (cs : list contribution) : Q :=
  Qsum (map (fun c => to_decimal (c_quantity c)) cs).
Definition exact_tons (cs : list contribution) : Q := Qsum (map c_tons cs).
Definition exact_neto (cs : list contribution) : Q := Qsum (map c_neto cs).
Definition exact_total (cs : list contribution) : Q := Qsum (map c_total cs).

(** [x] is a multiple of [10^q]. *)
Definition on_grid (q : Z) (x : Q) : Prop :=
  exists m : Z, x == inject_Z m * inject_Z 10 ^ q.

(** The numbers [xs] share the quantum [10^q] and the sum of their
    magnitudes has at most [prec] digits above it: no partial sum, in any
    order, needs rounding. *)
Definition fits (q : Z) (xs : list Q) : Prop :=
  Forall (on_grid q) xs /\ Qsum (map Qabs xs) < inject_Z 10 ^ (prec + q).

(** Every column of the row holds a number. *)
Definition complete (r : row) : Prop := is_Some (contribution_of r).

(** Equality of two buckets as values. *)
Definition totals_eq (t1 t2 : totals) : Prop :=
  num_eq (cantidad t1) (cantidad t2) /\ num_eq (toneladas t1) (toneladas t2) /\
  total_neto t1 == total_neto t2 /\ total_bruto t1 == total_bruto t2.

(** What the theorem assumes of the rows: every column holds a number,
    and in each of the four columns the contributions fit. *)
Definition rows_fit (qc qt qn qb : Z) (rows : list row) : Prop :=
  Forall complete rows /\
  fits qc (map (fun c => to_decimal (c_quantity c)) (omap contribution_of rows)) /\
  fits qt (map c_tons (omap contribution_of rows)) /\
  fits qn (map c_neto (omap contribution_of rows)) /\
  fits qb (map c_total (omap contribution_of rows)).

(** The four totals of a bucket are the exact sums of its
    contributions. *)
Definition is_exact (t : totals) (cs : list contribution) : Prop :=
  to_decimal (cantidad t) == exact_quantity cs /\
  to_decimal (toneladas t) == exact_tons cs /\
  total_neto t == exact_neto cs /\
  total_bruto t == exact_total cs.

(** The same conditions as a test that can be run on given rows. *)
Definition on_gridb (q : Z) (x : Q) : bool :=
  Pos.eqb (Qden (Qred (x / inject_Z 10 ^ q))) 1.

Definition fitsb (q : Z) (xs : list Q) : bool :=
  forallb (on_gridb q) xs &&
  match Qcompare (Qsum (map Qabs xs)) (inject_Z 10 ^ (prec + q)) with
  | Lt => true
  | _ => false
  end.

Definition rows_fitb (qc qt qn qb : Z) (rows : list row) : bool :=
  forallb (fun r => match contribution_of r with Some _ => true | None => false end) rows
  && fitsb qc (map (fun c => to_decimal (c_quantity c)) (omap contribution_of rows))
  && fitsb qt (map c_tons (omap contribution_of rows))
  && fitsb qn (map c_neto (omap contribution_of rows))
  && fitsb qb (map c_total (omap contribution_of rows)).

Definition sample_rows : list row :=
  [mkrow "Osorno" "Pellet Bolsa 15 Kg (Retiro)" (Some (Int 150)) (Some (Int 10))
     (Some (Int 85000)) (Some (Dec (7142857 # 100)));
   mkrow "La Unión" "Pellet Bolsa 15 Kg (Retiro)" (Some (Int 30)) (Some (Int 2))
     (Some (Int 17000)) (Some (Dec (1428571 # 100)));
   mkrow "Osorno" "Pellet Bolsa 15 Kg (Retiro)" (Some (Dec (455 # 10))) (Some (Int 3))
     (Some (Int 25500)) (Some (Dec (2142857 # 100)))].

(** A product table with one local product. *)
Definition demo_categories : categories :=
  mkcategories ["Pellet Bolsa 15 Kg (Retiro)"]
    {[ "Pellet Bolsa 15 Kg (Retiro)"%string := "bolsas"%string ]}
    ["Pellet Bolsa 15 Kg (Retiro)"] []
    {[ "Pellet Bolsa 15 Kg (Retiro)"%string := "Local"%string ]}.

Definition demo_row (neto : Q) : row :=
  mkrow "Osorno" "Pellet Bolsa 15 Kg (Retiro)" (Some (Int 15)) (Some (Int 1))
    (Some (Dec neto)) (Some (Dec neto)).

(** A row whose total is NULL: processing it raises. *)
Definition null_total_row : row :=
  mkrow "Osorno" "Pellet Bolsa 15 Kg (Retiro)" (Some (Int 15)) (Some (Int 1)) None
    (Some (Int 8500)).

(** [clear_cache] *)
Definition clear_cache (self : processor) : processor :=
  mkprocessor (exchange_rate self) ∅ ∅ (product_categories self).

(** The processors a program can hold: a fresh one, and the ones left by
    the cached queries and by [clear_cache], called on calendar dates. *)
Inductive reachable : processor -> Prop :=
| reach_init exchange_rate cats :
    reachable (mkprocessor exchange_rate ∅ ∅ cats)
| reach_branch db now_check now_store self s e :
    reachable self -> valid s -> valid e ->
    reachable (get_sales_by_branch_data db now_check now_store self s e).2
| reach_monthly db now_check now_store self s e :
    reachable self -> valid s -> valid e ->
    reachable (get_monthly_sales_by_branch_data db now_check now_store self s e).2
| reach_clear self :
    reachable self -> reachable (clear_cache self).

(** The processors a program reaches from [p] by cached queries, for
    any dates, made in the 300 seconds after the time [stored], with no
    [clear_cache] among them. *)
Inductive calls_within (stored : datetime) : processor -> processor -> Prop :=
| no_call p :
    calls_within stored p p
| branch_call db (now_check now_store : datetime) p q s e :
    calls_within stored p q ->
    (0 <= now_check - stored < 300 * 1000000)%Z ->
    calls_within stored p (get_sales_by_branch_data db now_check now_store q s e).2
| monthly_call db (now_check now_store : datetime) p q s e :
    calls_within stored p q ->
    (0 <= now_check - stored < 300 * 1000000)%Z ->
    calls_within stored p
      (get_monthly_sales_by_branch_data db now_check now_store q s e).2.


(** The months the loop is expected to visit: [months] of year [y], one
    query and one aggregation each, with no exit test. *)
Fixpoint aggregate_months (db : database) (cats : categories) (y : Z)
    (months : list Z) (data : branch_data) : result branch_data :=
  match months with
  | [] => Ok data
  | m :: rest =>
      '(month_start, month_end) ← month_bounds y m;
      monthly_data ← _get_monthly_data db month_start month_end;
      data' ← _aggregate_monthly_data cats monthly_data data;
      aggregate_months db cats y rest data'
  end.

(** *** Daily product summary

    The summary is a [dict] in insertion order: an association list
    without repeated keys. *)
Module DailySummary.

Fixpoint dict_get {V} (k : string) (d : list (string * V)) : option V :=
  match d with
  | [] => None
  | (k', v) :: rest => if String.eqb k k' then Some v else dict_get k rest
  end.

(** [d[k] = v]: replaces the value of an existing key in place,
    otherwise appends. *)
Fixpoint dict_set {V} (k : string) (v : V) (d : list (string * V))
  : list (string * V) :=
  match d with
  | [] => [(k, v)]
  | (k', v') :: rest =>
      if String.eqb k k' then (k', v) :: rest else (k', v') :: dict_set k v rest
  end.

(** A raw record; [kilos] is [None] when the key is missing, the other
    two when the value is [None]. *)
Record record := mkrecord {
  producto : string;
  raw_cantidad : option num;
  raw_total : option num;
  raw_kilos : option num
}.

(** One value of the summary; the last three keys are added by the
    second loop. *)
Record entry := mkentry {
  cantidad : Z;
  total_bruto : Q;
  kilos : num;
  unit : string;
  total_neto : option Q;
  total_dolares : option Q;
  toneladas : option Q
}.

Definition summary : Type := list (string * entry).

Definition new_entry (kilos0 : num) (unit : string) : entry :=
  mkentry 0 0 kilos0 unit None None None.

(** [int(v)] and [Decimal(str(v))] on a possibly-[None] value. *)
Definition int_of (v : option num) : result Z :=
  match v with
  | Some n => Ok (to_int n)
  | None => Raise TypeError
  end.

(** The three [+=] of the first loop. *)
Definition accumulate (quantity : Z) (total : Q) (kilos_in : num) (e : entry) : entry :=
  mkentry (cantidad e + quantity)%Z (add (total_bruto e) total)
    (num_add (kilos e) kilos_in) (unit e)
    (total_neto e) (total_dolares e) (toneladas e).

Definition add_record (cats : categories) (s : summary) (r : record)
  : result summary :=
  let product := producto r in
  quantity ← int_of (raw_cantidad r);
  total ← decimal_of_str (raw_total r);
  let kilos_in := default (Int (quantity * 15)) (raw_kilos r) in
  let unit := default "units"%string (PRODUCT_UNIT cats !! product) in
  let e := default (new_entry (Int 0) unit) (dict_get product s) in
  Ok (dict_set product (accumulate quantity total kilos_in e) s).

Fixpoint add_records (cats : categories) (s : summary) (raw_data : list record)
  : result summary :=
  match raw_data with
  | [] => Ok s
  | r :: rest => s' ← add_record cats s r; add_records cats s' rest
  end.

(** The derived keys of one entry: [total_neto], [total_dolares],
    [toneladas], in that order. *)
Definition financial_metrics (rate : Q) (e : entry) : result entry :=
  neto ← div (total_bruto e) iva_rate;
  dolares ← div (total_bruto e) rate;
  tons ← div (to_decimal (kilos e)) 1000;
  Ok (mkentry (cantidad e) (total_bruto e) (kilos e) (unit e)
        (Some neto) (Some dolares) (Some tons)).

Fixpoint all_financial_metrics (rate : Q) (s : summary) : result summary :=
  match s with
  | [] => Ok []
  | (product, data) :: rest =>
      data' ← financial_metrics rate data;
      rest' ← all_financial_metrics rate rest;
      Ok ((product, data') :: rest')
  end.

(** The loop of [_add_category_totals] over one product list. *)
Definition category_total (unit0 : string) (names : list string) (s : summary) : entry :=
  fold_left
    (fun acc product =>
       match dict_get product s with
       | Some e =>
           mkentry (cantidad acc + cantidad e)%Z
             (add (total_bruto acc) (total_bruto e))
             (Dec (add (to_decimal (kilos acc)) (to_decimal (kilos e))))
             (unit acc) None None None
       | None => acc
       end)
    names (new_entry (Dec 0) unit0).

Definition add_category (rate : Q) (name unit : string) (names : list string)
    (s : summary) : result summary :=
  let total := category_total unit names s in
  if (0 <? cantidad total)%Z
  then total' ← financial_metrics rate total; Ok (dict_set name total' s)
  else Ok s.

Definition _add_category_totals (rate : Q) (cats : categories) (s : summary)
  : result summary :=
  s1 ← add_category rate "Total Pellet" "bolsas" (PELLET_PRODUCTS cats) s;
  add_category rate "Total Vacam" "total" (VACAM_PRODUCTS cats) s1.

Definition process_daily_sales_summary (self : processor) (raw_data : list record)
  : summary :=
  let body :=
    s ← add_records (product_categories self) [] raw_data;
    s ← all_financial_metrics (exchange_rate self) s;
    _add_category_totals (exchange_rate self) (product_categories self) s in
  match body with
  | Ok s => s
  | Raise _ => []
  end.

(** *** Vocabulary of the summary properties *)

(** What the first loop reads from a record: quantity, total and kilos
    (15 per unit when the key is missing); [None] when a conversion
    raises. *)
Definition record_values (r : record) : option (Z * Q * num) :=
  match raw_cantidad r, raw_total r with
  | Some c, Some t =>
      let quantity := to_int c in
      Some (quantity, to_decimal t, default (Int (quantity * 15)) (raw_kilos r))
  | _, _ => None
  end.

(** The values of the records of one product, in the order of the
    records. *)
Definition product_values (product : string) (raw_data : list record)
  : list (Z * Q * num) :=
  omap (fun r => if decide (producto r = product) then record_values r else None)
    raw_data.

(** The accumulated quantity, gross total and kilos of a product: the
    successive [+=] over its records. *)
Definition product_cantidad (product : string) (raw_data : list record) : Z :=
  fold_left Z.add (map (fun v => v.1.1) (product_values product raw_data)) 0%Z.
Definition product_bruto (product : string) (raw_data : list record) : Q :=
  fold_left add (map (fun v => v.1.2) (product_values product raw_data)) 0.
Definition product_kilos (product : string) (raw_data : list record) : num :=
  fold_left num_add (map (fun v => v.2) (product_values product raw_data)) (Int 0).

(** The derived keys of an entry agree with its accumulators. *)
Definition derived (e : entry) : Prop :=
  toneladas e = Some (round (to_decimal (kilos e) / 1000)) /\
  total_neto e = Some (round (total_bruto e / (119 # 100))).

(** The entry a product starts from. *)
Definition fresh_entry (cats : categories) (product : string) : entry :=
  new_entry (Int 0) (default "units"%string (PRODUCT_UNIT cats !! product)).



Definition accumulate_values (vals : list (Z * Q * num)) (e : entry) : entry :=
  fold_left (fun e v => accumulate v.1.1 v.1.2 v.2 e) vals e.

Definition sample_records : list record :=
  [mkrecord "Pellet Bolsa 15 Kg (Retiro)" (Some (Int 2)) (Some (Int 17000)) None;
   mkrecord "Astillas" (Some (Int 1)) (Some (Int 2500)) (Some (Dec (25 # 10)));
   mkrecord "Pellet Bolsa 15 Kg (Retiro)" (Some (Int 3)) (Some (Int 25500))
     (Some (Int 45))].

End DailySummary.

(** *** Module-level utilities *)

Record metrics := mkmetrics { bruto : Q; neto : Q; iva : Q; usd : Q }.

Definition calculate_financial_metrics (amount exchange_rate iva_rate : Q) : metrics :=
  let body :=
    neto ← div amount iva_rate;
    let iva := mul neto (sub iva_rate 1) in
    usd_amount ← div amount exchange_rate;
    Ok (mkmetrics amount neto iva usd_amount) in
  match body with
  | Ok m => m
  | Raise _ => mkmetrics 0 0 0 0
  end.

(** [today] is [date.today()]. *)
Definition validate_date_range (today start_date end_date business_start : date)
  : bool :=
  if gtb start_date end_date then false
  else if ltb start_date business_start then false
  else if gtb end_date today then false
  else if (730 <? sub_days end_date start_date)%Z then false
  else true.

End Processor.

(** ** [validate_input] of [DatabaseQueryBuilder]

    [str.upper], [int] and [datetime.strptime] work on Unicode text; they
    are parameters of the model. *)
Module InputValidation.
Import PyStr.

Definition dangerous_keywords : list string :=
  ["DROP"; "DELETE"; "UPDATE"; "INSERT"; "EXEC"; "EXECUTE";
   "SCRIPT"; "UNION"; "SELECT"; "--"; "/*"; "*/"; ";"].

Section WithLibrary.
Variable str_upper : string -> string.
(** Whether [int(value)], respectively
    [datetime.strptime(value, '%Y-%m-%d')], returns (rather than
    raising [ValueError]). *)
Variable int_parses : string -> bool.
Variable strptime_parses : string -> bool.

Definition validate_input (value input_type : string) : bool :=
  if negb (truthy value) then true
  else
    let upper_value := str_upper value in
    if existsb (fun keyword => contains keyword upper_value) dangerous_keywords
    then false
    else if String.eqb input_type "number" then int_parses value
    else if String.eqb input_type "date" then strptime_parses value
    else true.
End WithLibrary.

End InputValidation.

(** ** [_calculate_financial_totals] of [sales_entry.py] *)
Module SalesEntry.
Import PyStr PyExn.
Local Open Scope Q_scope.

(** The widgets the function reads. *)
Record form := mkform {
  product_combo : string;
  payment_method_combo : string;
  document_type_combo : string;
  discount_edit : string;
  quantity_edit : string;
  total_weight_edit : string;
  product_pricing : gmap string Z
}.

(** What is handed to [_update_financial_display]. *)
Record display := mkdisplay { net : Q; tax : Q; total : Z }.

(** The tax computation on an integer gross total: the two float
    literals, the conversion of the integer, one division and one
    multiplication. *)
Definition tax_components (gross_total : Z) : result display :=
  gross ← PyFloat.of_int gross_total;
  let net_amount := PyFloat.div gross (PyFloat.literal (119 # 100)) in
  let tax_amount := PyFloat.mul net_amount (PyFloat.literal (19 # 100)) in
  Ok (mkdisplay net_amount tax_amount gross_total).

Section WithLibrary.
(** [int(text)]: [None] stands for [ValueError]. *)
Variable py_int : string -> option Z.
Variable isdigit : string -> bool.

(** [int(text) if text else 0] under [except ValueError: 0]. *)
Definition int_or_zero (text : string) : Z :=
  if truthy text then default 0%Z (py_int text) else 0%Z.

Definition _calculate_financial_totals (self : form) : result display :=
  let product := product_combo self in
  let payment_method := payment_method_combo self in
  let document_type := document_type_combo self in
  if String.eqb payment_method "FREE SAMPLE" then Ok (mkdisplay 0 0 0)
  else
    match product_pricing self !! product with
    | None => Ok (mkdisplay 0 0 0)
    | Some base_price =>
        let discount := int_or_zero (discount_edit self) in
        let final_unit_price := (base_price - discount)%Z in
        let quantity := int_or_zero (quantity_edit self) in
        gross_total ←
          (if contains "Bulk" product then
             weight ←
               (if isdigit (total_weight_edit self)
                then match py_int (total_weight_edit self) with
                     | Some w => Ok w
                     | None => Raise ValueError
                     end
                else Ok 0%Z);
             Ok (final_unit_price * weight)%Z
           else Ok (final_unit_price * quantity)%Z);
        let gross_total :=
          if String.eqb document_type "Credit Note" then (- Z.abs gross_total)%Z
          else if String.eqb document_type "Debit Note" then Z.abs gross_total
          else gross_total in
        tax_components gross_total
    end.
End WithLibrary.

End SalesEntry.

(** ** Placeholders of a query text *)
Module Placeholders.

(** Scanning for the two-character marker [%s]; [after_percent] tells
    whether the character just read was a percent sign. *)
Fixpoint scan (after_percent : bool) (s : string) : nat :=
  match s with
  | EmptyString => 0
  | String c rest =>
      (if after_percent && Ascii.eqb c "s" then 1 else 0)%nat
      + scan (Ascii.eqb c "%") rest
  end.

(** The scanner state after reading [s]. *)
Fixpoint state_after (after_percent : bool) (s : string) : bool :=
  match s with
  | EmptyString => after_percent
  | String c rest => state_after (Ascii.eqb c "%") rest
  end.

(** Number of [%s] markers in a query text. *)
Definition count_placeholders (s : string) : nat := scan false s.

(** Number of values a shape binds. *)
Definition parameter_count (sh : QueryBuilder.query_shape) : nat :=
  (match QueryBuilder.sh_dates sh with
   | QueryBuilder.NoDates => 0
   | QueryBuilder.SameDay => 1
   | QueryBuilder.DateRange => 2
   end
   + QueryBuilder.sh_branches sh
   + (if QueryBuilder.sh_doc_types_todo sh then 0 else QueryBuilder.sh_doc_types sh)
   + (if QueryBuilder.sh_products_todo sh then 0 else QueryBuilder.sh_products sh)
   + (if QueryBuilder.sh_doc_number sh then 1 else 0))%nat.

(** A condition that starts with a letter and ends outside a marker:
    the markers of a text joined from such conditions are the markers of
    its members. *)
Definition clean (c : string) : Prop :=
  state_after false c = false /\ scan true c = scan false c /\
  state_after true c = false.

End Placeholders.

(** ** Vocabulary of the further aggregation properties *)
Module Aggregation.
Import PyStr PyDate PyExn PyDecimal Processor.
Local Open Scope Q_scope.

(** The rows a query gives once [_execute_query] has swallowed the
    exceptions. *)
Definition query_rows (db : database) (query : string) (params : list date)
  : list row :=
  match _execute_query db query params with
  | Ok rows => rows
  | Raise _ => []
  end.

(** The rows of the months [months] of year [y], month after month. *)
Definition monthly_rows (db : database) (y : Z) (months : list Z) : list row :=
  concat (map (fun m => query_rows db monthly_query
                          [mkdate y m 1; mkdate y m (days_in_month y m)]) months).

(** A column that holds no negative number; a NULL holds none. *)
Definition nonneg_column (v : option num) : Prop :=
  match v with
  | Some n => 0 <= to_decimal n
  | None => True
  end.

(** A row none of whose four numeric columns is negative. *)
Definition nonneg_row (r : row) : Prop :=
  nonneg_column (total_cantidad r) /\ nonneg_column (total_kilos r) /\
  nonneg_column (row_total_neto r) /\ nonneg_column (total_total r).

Definition nonneg_totals (t : totals) : Prop :=
  0 <= to_decimal (cantidad t) /\ 0 <= to_decimal (toneladas t) /\
  0 <= total_neto t /\ 0 <= total_bruto t.

End Aggregation.

(** ** Vocabulary of the further summary properties *)
Module SummaryVocabulary.
Import PyStr PyExn PyDecimal Processor Processor.DailySummary.

(** The quantity the pellet total sums: the accumulated quantity of every
    name of [PELLET_PRODUCTS], a name listed twice counting twice. *)
Definition pellet_cantidad (cats : categories) (raw_data : list record) : Z :=
  fold_left Z.add (map (fun p => product_cantidad p raw_data) (PELLET_PRODUCTS cats)) 0%Z.

(** The keys a summary may hold. *)
Definition summary_key (raw_data : list record) (k : string) : Prop :=
  k = "Total Pellet"%string \/ k = "Total Vacam"%string \/
  exists r, r ∈ raw_data /\ producto r = k.

End SummaryVocabulary.

(** * Key performance indicators ([calculate_kpi_metrics]) *)
Module Kpi.
Import PyExn PyDecimal Processor Processor.DailySummary.
Local Open Scope Q_scope.

Section WithLibrary.
(** The floats, and [float(d)] of a [Decimal]. *)
Variable F : Type.
Variable float_of : Q -> F.

(** The dictionary returned; the two averages are keys that may be
    missing. *)
Record kpis := mkkpis {
  total_revenue_clp : F;
  total_revenue_usd : F;
  total_units_sold : Z;
  total_tons_sold : F;
  average_revenue_per_unit : option F;
  average_revenue_per_ton : option F;
  active_products : nat
}.

(** One turn of the loop over [data.items()]: the three [+=]. *)
Definition totals_step (acc : Q * Z * Q) (item : string * entry) : Q * Z * Q :=
  (add acc.1.1 (total_bruto item.2),
   (acc.1.2 + cantidad item.2)%Z,
   add acc.2 (default 0 (toneladas item.2))).

(** [None] is the empty dictionary of the [except] branch. *)
Definition calculate_kpi_metrics (self : processor) (data : summary) : option kpis :=
  let totals := fold_left totals_step data (0, 0%Z, 0) in
  let total_revenue := totals.1.1 in
  let total_units := totals.1.2 in
  let total_tons := totals.2 in
  let body :=
    usd ← div total_revenue (exchange_rate self);
    per_unit ←
      (if (0 <? total_units)%Z
       then q ← div total_revenue (inject_Z total_units); Ok (Some (float_of q))
       else Ok None);
    per_ton ←
      (if negb (Qle_bool total_tons 0)
       then q ← div total_revenue total_tons; Ok (Some (float_of q))
       else Ok None);
    Ok (mkkpis (float_of total_revenue) (float_of usd) total_units
          (float_of total_tons) per_unit per_ton
          (length (List.filter (fun item => (0 <? cantidad item.2)%Z) data))) in
  match body with
  | Ok k => Some k
  | Raise _ => None
  end.

End WithLibrary.

(** *** Vocabulary of the indicator properties *)

(** The units of the raw records: the sum of their quantities. *)
Definition raw_units (raw_data : list record) : Z :=
  fold_left Z.add (omap (fun r => v ← record_values r; Some v.1.1) raw_data) 0%Z.

(** The quantity a category total sums over a list of names. *)
Definition category_cantidad (names : list string) (raw_data : list record) : Z :=
  fold_left Z.add (map (fun p => product_cantidad p raw_data) names) 0%Z.

(** The sum of the quantities of the entries of a summary. *)
Definition sum_cantidad (s : summary) : Z :=
  foldr (fun item acc => (cantidad item.2 + acc)%Z) 0%Z s.

End Kpi.

(** * Business insights ([get_business_insights]) *)
Module Insights.
Import PyStr PyDecimal Processor.DailySummary.
Local Open Scope Q_scope.

Record insights := mkinsights {
  top_products : list string;
  revenue_leaders : list string;
  volume_leaders : list string;
  recommendations : list string;
  alerts : list string
}.

(** [sorted(items, key=..., reverse=True)]: descending, and stable, so
    that items of equal keys keep the order they came in. *)
Section Sorting.
Context {A K : Type} (key : A -> K) (lt : K -> K -> bool).

Fixpoint insert_desc (x : A) (l : list A) : list A :=
  match l with
  | [] => [x]
  | y :: rest =>
      if lt (key x) (key y) then y :: insert_desc x rest else x :: y :: rest
  end.

Definition sorted_desc (l : list A) : list A := foldr insert_desc [] l.

(** [x] may stand before [y]: its key is not below the key of [y]. *)
Definition before (x y : A) : Prop := lt (key x) (key y) = false.
End Sorting.

Definition Qlt_bool (a b : Q) : bool := negb (Qle_bool b a).

(** The products of the summary, the category totals left out. *)
Definition valid_products (data : summary) : summary :=
  List.filter (fun kv => negb (startswith "Total" kv.1)) data.

Definition alert (kv : string * entry) : list string :=
  if (cantidad kv.2 =? 0)%Z then ["No sales recorded for " +:+ kv.1]
  else if Qlt_bool (total_bruto kv.2) 0
       then ["Negative revenue detected for " +:+ kv.1]
       else [].

Section WithLibrary.
(** [sum(float(v) for v in values)]. *)
Variable float_sum : list Q -> Q.

Definition get_business_insights (data : summary) : insights :=
  let valid := valid_products data in
  match valid with
  | [] => mkinsights [] [] [] [] []
  | _ =>
      let revenue_sorted := sorted_desc (fun kv => total_bruto kv.2) Qlt_bool valid in
      let volume_sorted := sorted_desc (fun kv => cantidad kv.2) Z.ltb valid in
      let total_revenue := float_sum (map (fun kv => total_bruto kv.2) valid) in
      let recommendations :=
        if Qlt_bool 1000000 total_revenue
        then ["Strong sales performance - consider expanding inventory"]
        else if Qlt_bool total_revenue 100000
             then ["Low sales volume - review pricing and marketing strategies"]
             else [] in
      mkinsights [] (map fst (take 3 revenue_sorted)) (map fst (take 3 volume_sorted))
        recommendations (flat_map alert valid)
  end.
End WithLibrary.

(** Five products and a category total. *)
Definition sample_summary : summary :=
  [("Astillas", mkentry 4 10000 (Int 60) "units" None None None);
   ("Pellet Bolsa 15 Kg (Retiro)", mkentry 9 76500 (Int 135) "bolsas" None None None);
   ("Total Pellet", mkentry 9 76500 (Int 135) "bolsas" None None None);
   ("Aserrin", mkentry 1 2500 (Int 3) "units" None None None);
   ("Pellet Bolsa 15 Kg (Despacho)", mkentry 2 18000 (Int 30) "bolsas" None None None);
   ("Viruta", mkentry 7 700 (Int 21) "units" None None None)].

End Insights.

(** * The search window ([_validate_search_criteria], [_execute_search]) *)
Module SearchWindow.
Import PyStr PyDate QueryBuilder InputValidation.

(** The widgets and selections a search reads. *)
Record window := mkwindow {
  start_date_filter : date;
  end_date_filter : date;
  selected_branches : list string;
  selected_types : list string;
  selected_products : list string;
  document_input : string
}.

Section WithLibrary.
Variable str_strip : string -> string.
Variable str_upper : string -> string.
Variable int_parses : string -> bool.
Variable strptime_parses : string -> bool.
(** The answer to the "Large Date Range" question, asked with the
    number of days: [true] for Yes. *)
Variable reply_yes : Z -> bool.

Definition _validate_search_criteria (self : window) : bool :=
  let start_date := start_date_filter self in
  let end_date := end_date_filter self in
  if gtb start_date end_date then false
  else
    let date_diff := sub_days end_date start_date in
    if (365 <? date_diff)%Z && negb (reply_yes date_diff) then false
    else if negb (nonempty (selected_branches self)) then false
    else
      let doc_number := str_strip (document_input self) in
      if truthy doc_number
         && negb (validate_input str_upper int_parses strptime_parses
                    doc_number "number")
      then false
      else true.

(** The filter dictionary [_execute_search] builds. *)
Definition search_filters (self : window) : filters :=
  mkfilters (Some (start_date_filter self)) (Some (end_date_filter self))
    (selected_branches self) (selected_types self) (selected_products self)
    (str_strip (document_input self)).

(** The query and the parameters [_execute_search] hands to
    [cursor.execute]; [None] when the validation stops the search. *)
Definition _execute_search (self : window) : option (string * list param) :=
  if negb (_validate_search_criteria self) then None
  else Some (build_search_query str_strip (search_filters self)).

End WithLibrary.

Definition sample_window : window :=
  mkwindow (mkdate 2026 10 1) (mkdate 2026 10 31) ["Osorno"; "La Union"]
    ["Todo"] [] " 1201 ".

(** A reader of digits for the examples: a non-empty string of decimal
    digits. *)
Definition digits_only (s : string) : bool :=
  truthy s
  && forallb (fun c => (48 <=? Z.of_N (N_of_ascii c))%Z && (Z.of_N (N_of_ascii c) <=? 57)%Z)
       (list_ascii_of_string s).

End SearchWindow.

(** * Saving a sale ([sales_entry.py]) *)
Module SalesRecord.
Import PyStr PyExn SalesEntry.
Local Open Scope Q_scope.

(** The form with the fields collected for a sale beside the widgets of
    the calculations; [date_edit] is the date as [toString] renders
    it. *)
Record sale_form := mksale_form {
  widgets : form;
  location_combo : string;
  date_edit : string;
  document_number_edit : string;
  receipt_number_edit : string;
  payment_type_combo : string
}.

(** The dictionary of [_collect_form_data]. *)
Record sale_data := mksale_data {
  product : string;
  location : string;
  date : string;
  document_type : string;
  document_number : string;
  quantity : Z;
  total_weight : Z;
  discount : Z;
  payment_method : string;
  receipt_number : string;
  payment_type : string
}.

(** The sixteen values bound to the [INSERT INTO DailySales]. *)
Record sale_row := mksale_row {
  Product : string;
  SalesLocation : string;
  Date : string;
  DocumentType : string;
  DocumentNumber : string;
  Quantity : Z;
  TotalWeight : Z;
  UnitPrice : Z;
  Discount : Z;
  NetAmount : Q;
  TaxAmount : Q;
  TotalAmount : Z;
  NetPerKG : Q;
  PaymentMethod : string;
  ReceiptNumber : string;
  PaymentType : string
}.

(** The prices set when loading them from the database fails. *)
Definition fallback_pricing : gmap string Z :=
  {[ "Pellet Bag 15kg (Retail)" := 8500%Z;
     "Pellet Bag 15kg (Delivery)" := 9000%Z;
     "Pellet Bag 15kg (Wholesale)" := 7500%Z;
     "Sawdust Sanitary 3kg" := 2500%Z ]}.

(** A quotient of floats down to the subnormal range: below [2^-1022]
    the result is a multiple of [2^-1074]. *)
Definition float_quotient (x y : Q) : Q :=
  let q := x / y in
  if Qle_bool (inject_Z 2 ^ (-1022)) (Qabs q) then PyFloat.round q
  else inject_Z (Rounding.round_half_even (q * inject_Z 2 ^ 1074))
       * inject_Z 2 ^ (-1074).

(** The values [_save_sale_to_database] binds to the [INSERT]: what it
    computes before [cursor.execute]. An exception raised on the way is
    no [mysql.connector.Error] and propagates. *)
Definition _save_sale_to_database (self : form) (sale : sale_data)
  : result sale_row :=
  let unit_price := default 0%Z (product_pricing self !! product sale) in
  let gross_total :=
    if contains "Bulk" (product sale)
    then ((unit_price - discount sale) * total_weight sale)%Z
    else ((unit_price - discount sale) * quantity sale)%Z in
  gross ← PyFloat.of_int gross_total;
  let net_amount := PyFloat.div gross (PyFloat.literal (119 # 100)) in
  let tax_amount := PyFloat.mul net_amount (PyFloat.literal (19 # 100)) in
  net_per_kg ←
    (if (total_weight sale =? 0)%Z then Ok 0
     else weight ← PyFloat.of_int (total_weight sale);
          Ok (float_quotient net_amount weight));
  let credit := String.eqb (document_type sale) "Credit Note" in
  Ok (mksale_row (product sale) (location sale) (date sale)
        (document_type sale) (document_number sale)
        (if credit then - Z.abs (quantity sale) else quantity sale)%Z
        (if credit then - Z.abs (total_weight sale) else total_weight sale)%Z
        unit_price (discount sale)
        (if credit then - Qabs net_amount else net_amount)
        (if credit then - Qabs tax_amount else tax_amount)
        (if credit then - Z.abs gross_total else gross_total)%Z
        net_per_kg
        (payment_method sale) (receipt_number sale) (payment_type sale)).

Section WithLibrary.
(** [int(text)]: [None] stands for [ValueError]. *)
Variable py_int : string -> option Z.
Variable isdigit : string -> bool.
(** The answer of the database to [_is_document_unique]. *)
Variable _is_document_unique : string -> string -> bool.

Definition int_of_text (text : string) : result Z :=
  match py_int text with
  | Some n => Ok n
  | None => Raise ValueError
  end.

Definition _validate_form_data (self : sale_form) : bool :=
  let text := quantity_edit (widgets self) in
  if negb (truthy text) || negb (isdigit text) then false
  else
    let document_number := document_number_edit self in
    let document_type := document_type_combo (widgets self) in
    if negb (String.eqb document_number "0")
       && negb (_is_document_unique document_type document_number)
    then false
    else true.

Definition _collect_form_data (self : sale_form) : result sale_data :=
  let w := widgets self in
  quantity ← int_of_text (quantity_edit w);
  total_weight ← int_of_text (total_weight_edit w);
  discount ←
    (if truthy (discount_edit w) then int_of_text (discount_edit w) else Ok 0%Z);
  Ok (mksale_data (product_combo w) (location_combo self) (date_edit self)
        (document_type_combo w) (document_number_edit self)
        quantity total_weight discount
        (payment_method_combo w) (receipt_number_edit self)
        (payment_type_combo self)).

(** The weight [_calculate_totals] writes into the weight field (as its
    [str]). *)
Definition _calculate_totals (self : form) : Z :=
  let product := product_combo self in
  let quantity_text := quantity_edit self in
  let quantity :=
    if isdigit quantity_text then default 0%Z (py_int quantity_text) else 0%Z in
  let total_weight :=
    if contains "15 Kg" product then (15 * quantity)%Z
    else if contains "3 kg" product then (3 * quantity)%Z
    else 0%Z in
  if String.eqb (document_type_combo self) "Credit Note"
  then (- Z.abs total_weight)%Z
  else total_weight.

(** The price [_update_pricing] hands to [_format_currency] for the
    unit price label; [None] where it writes the fixed text
    ["Unit Price: $0.00"]. *)
Definition _update_pricing (self : form) : option Z :=
  if String.eqb (payment_method_combo self) "FREE SAMPLE" then None
  else
    match product_pricing self !! product_combo self with
    | Some base_price =>
        let discount_text := strip (discount_edit self) in
        let discount :=
          if truthy discount_text then default 0%Z (py_int discount_text)
          else 0%Z in
        if String.eqb (document_type_combo self) "Credit Note"
        then Some (base_price + discount)%Z
        else Some (base_price - discount)%Z
    | None => None
    end.

End WithLibrary.

(** A reader of plain decimal digits, for the examples. *)
Fixpoint digits_value (acc : Z) (s : string) : option Z :=
  match s with
  | EmptyString => Some acc
  | String c rest =>
      let n := Z.of_N (N_of_ascii c) in
      if ((48 <=? n) && (n <=? 57))%Z then digits_value (10 * acc + (n - 48)) rest
      else None
  end.

Definition read_int (s : string) : option Z :=
  match s with
  | EmptyString => None
  | _ => digits_value 0 s
  end.

Definition all_digits (s : string) : bool := bool_decide (is_Some (read_int s)).

Definition sample_form : sale_form :=
  mksale_form
    (mkform "Pellet Bag 15kg (Retail)" "Cash" "Credit Note" "500" "3" "0"
       fallback_pricing)
    "Osorno" "2026-11-04" "1201" "77" "Visa".

(** What [_collect_form_data] reads from [sample_form]. *)
Definition sample_sale : sale_data :=
  mksale_data "Pellet Bag 15kg (Retail)" "Osorno" "2026-11-04" "Credit Note" "1201"
    3 0 500 "Cash" "77" "Visa".

Definition free_sample_form : sale_form :=
  mksale_form
    (mkform "Sawdust Sanitary 3kg" "FREE SAMPLE" "Invoice" "" "2" "0"
       fallback_pricing)
    "Osorno" "2026-11-04" "1202" "78" "Cash".

Definition free_sample_sale : sale_data :=
  mksale_data "Sawdust Sanitary 3kg" "Osorno" "2026-11-04" "Invoice" "1202"
    2 0 0 "FREE SAMPLE" "78" "Cash".

End SalesRecord.

(** * Data validation report ([validate_data_integrity]) *)
Module Integrity.
Import PyExn.
Local Open Scope Q_scope.

(** The values a record holds: those of a row of the database and,
    where a whole summary is handed in as one record, a dictionary. *)
Inductive value :=
| VNone
| VInt (z : Z)
| VDec (q : Q)
| VStr (s : string)
| VDict.

Definition record : Type := gmap string value.

Record report := mkreport {
  is_valid : bool;
  issues : list string;
  warnings : list string;
  record_count : nat
}.

(** What escapes the inner handler and reaches [except Exception]: the
    [OverflowError] of [float] on an integer out of range and the
    [TypeError] of [v < 0] on a value that is not a number. *)
Inductive failure :=
| IntTooLarge (z : Z)
| Unordered (v : value).

Definition required_fields : list string :=
  ["PuntoVenta"; "Articulo"; "total_cantidad"; "total_total"].
Definition numeric_fields : list string :=
  ["total_cantidad"; "total_total"; "total_neto"].

(** [str(i)] of a list index. *)
Definition str_nat (i : nat) : string := NilZero.string_of_uint (Nat.to_uint i).

(** [is_valid], [issues] and [warnings] of the report under
    construction. *)
Definition state : Type := bool * list string * list string.

Inductive conversion :=
| Converts
| Caught                 (* ValueError or TypeError *)
| Escapes (f : failure).

Section WithLibrary.
(** Whether [float(s)] returns for a string. *)
Variable float_parses : string -> bool.
(** [str(e)] of the exception. *)
Variable str_failure : failure -> string.

(** [float(v)]. *)
Definition to_float (v : value) : conversion :=
  match v with
  | VNone => Caught
  | VInt z =>
      match PyFloat.of_int z with
      | Ok _ => Converts
      | Raise _ => Escapes (IntTooLarge z)
      end
  | VDec _ => Converts
  | VStr s => if float_parses s then Converts else Caught
  | VDict => Caught
  end.

(** [v < 0]. *)
Definition negative (v : value) : failure + bool :=
  match v with
  | VInt z => inr (z <? 0)%Z
  | VDec q => inr (negb (Qle_bool 0 q))
  | VNone | VStr _ | VDict => inl (Unordered v)
  end.

Definition check_required (i : nat) (r : record) (st : state) (field : string)
  : state :=
  match r !! field with
  | None | Some VNone =>
      (false,
       st.1.2 ++ ["Record " +:+ str_nat i +:+ ": Missing required field '"
                  +:+ field +:+ "'"],
       st.2)
  | Some _ => st
  end.

Definition check_numeric (i : nat) (r : record) (acc : failure + state)
    (field : string) : failure + state :=
  match acc with
  | inl f => inl f
  | inr st =>
      match r !! field with
      | None => inr st
      | Some v =>
          match to_float v with
          | Converts => inr st
          | Caught =>
              inr (false,
                   st.1.2 ++ ["Record " +:+ str_nat i
                              +:+ ": Invalid numeric value in field '"
                              +:+ field +:+ "'"],
                   st.2)
          | Escapes f => inl f
          end
      end
  end.

(** [if record.get(field, 0) < 0: warnings.append(text)]. *)
Definition check_negative (r : record) (field text : string) (st : state)
  : failure + state :=
  match negative (default (VInt 0) (r !! field)) with
  | inl f => inl f
  | inr true => inr (st.1.1, st.1.2, st.2 ++ [text])
  | inr false => inr st
  end.

(** The body of the loop for the record of index [i]. *)
Definition validate_record (i : nat) (r : record) (st : state) : failure + state :=
  let st := foldl (check_required i r) st required_fields in
  match foldl (check_numeric i r) (inr st) numeric_fields with
  | inl f => inl f
  | inr st =>
      match check_negative r "total_cantidad"
              ("Record " +:+ str_nat i +:+ ": Negative quantity detected") st with
      | inl f => inl f
      | inr st =>
          check_negative r "total_total"
            ("Record " +:+ str_nat i +:+ ": Negative total amount detected") st
      end
  end.

Fixpoint validate_records (i : nat) (data : list record) (st : state)
  : failure + state :=
  match data with
  | [] => inr st
  | r :: rest =>
      match validate_record i r st with
      | inl f => inl f
      | inr st => validate_records (S i) rest st
      end
  end.

Definition validate_data_integrity (data : list record) : report :=
  match validate_records 0 data (true, [], []) with
  | inr st => mkreport st.1.1 st.1.2 st.2 (length data)
  | inl f => mkreport false ["Validation error: " +:+ str_failure f] [] 0
  end.

(** *** Vocabulary of the report properties *)

(** A required field is given: the key is there and its value is not
    [None]. *)
Definition given (o : option value) : bool :=
  match o with
  | None | Some VNone => false
  | Some _ => true
  end.

(** A numeric field that is there converts to a float. *)
Definition converts (o : option value) : bool :=
  match o with
  | None => true
  | Some v => match to_float v with Converts => true | _ => false end
  end.

(** A compared field is missing or holds a number. *)
Definition ordered (o : option value) : bool :=
  match o with
  | None | Some (VInt _) | Some (VDec _) => true
  | Some VNone | Some (VStr _) | Some VDict => false
  end.

(** The same for a conversion that escapes the inner handler. *)
Definition in_range (o : option value) : bool :=
  match o with
  | Some v => match to_float v with Escapes _ => false | _ => true end
  | None => true
  end.

Definition record_ok (r : record) : bool :=
  forallb (fun field => given (r !! field)) required_fields
  && forallb (fun field => converts (r !! field)) numeric_fields
  && forallb (fun field => ordered (r !! field)) ["total_cantidad"; "total_total"]%string.

(** The records on which the loop body raises. *)
Definition record_fails (r : record) : bool :=
  negb (forallb (fun field => in_range (r !! field)) numeric_fields
        && forallb (fun field => ordered (r !! field))
             ["total_cantidad"; "total_total"]%string).

(** A summary handed in as a record: its keys are the product names,
    its values dictionaries. *)
Definition summary_record (data : Processor.DailySummary.summary) : record :=
  (list_to_map (map (fun kv => (kv.1, VDict)) data) : gmap string value).

(** The entry ['daily_validation'] (and ['monthly_validation']) of
    [create_summary_report]:
    [processor.validate_data_integrity([data]) if data else {}];
    [None] is the empty dictionary. *)
Definition data_quality_validation (data : Processor.DailySummary.summary)
  : option report :=
  match data with
  | [] => None
  | _ => Some (validate_data_integrity [summary_record data])
  end.

End WithLibrary.

(** The flag is up exactly when no issue has been written. *)
Definition in_step (st : state) : Prop := st.1.1 = true <-> st.1.2 = [].

Definition good_row : record :=
  {[ "PuntoVenta" := VStr "Osorno"; "Articulo" := VStr "Astillas";
     "total_cantidad" := VInt 3; "total_total" := VDec 7500 ]}.

(** A row whose quantity is [NULL]. *)
Definition null_quantity_row : record :=
  {[ "PuntoVenta" := VStr "Osorno"; "Articulo" := VStr "Astillas";
     "total_cantidad" := VNone; "total_total" := VDec 7500 ]}.

End Integrity.

(** * Properties *)

(** ** The query builder *)
Section QueryBuilderFacts.
Import PyStr PyDate QueryBuilder.
Variable str_strip : string -> string.

Lemma nonempty_length {A} (l : list A) : nonempty l = (0 <? length l)%nat.
Proof. by destruct l. Qed.

Lemma push_fst c ps (a : acc) : (push c ps a).1 = a.1 ++ [c].
Proof. done. Qed.

Lemma add_dates_fst f (a : acc) :
  (add_dates f a).1 =
  a.1 ++ match date_mode_of f with
         | NoDates => []
         | SameDay => ["Fecha = %s"%string]
         | DateRange => ["Fecha BETWEEN %s AND %s"%string]
         end.
Proof.
  unfold add_dates, date_mode_of.
  destruct (start_date f) as [s|], (end_date f) as [e|];
    try case_decide; simpl; by rewrite ?app_nil_r.
Qed.

Lemma add_branches_fst f (a : acc) :
  (add_branches f a).1 =
  a.1 ++ (if (0 <? length (branches f))%nat
          then ["PuntoVenta IN (" +:+ placeholders (length (branches f)) +:+ ")"]
          else []).
Proof.
  unfold add_branches. rewrite nonempty_length, andb_diag.
  destruct (0 <? length (branches f))%nat; simpl; by rewrite ?app_nil_r.
Qed.

Lemma add_doc_types_fst f (a : acc) :
  (add_doc_types f a).1 =
  a.1 ++ (if (0 <? length (document_types f))%nat && negb (has_todo (document_types f))
          then ["TipoDocumento IN (" +:+ placeholders (length (document_types f)) +:+ ")"]
          else []).
Proof.
  unfold add_doc_types. rewrite nonempty_length, andb_diag.
  destruct (_ && _); simpl; by rewrite ?app_nil_r.
Qed.

Lemma add_products_fst f (a : acc) :
  (add_products f a).1 =
  a.1 ++ (if (0 <? length (products f))%nat && negb (has_todo (products f))
          then ["Articulo IN (" +:+ placeholders (length (products f)) +:+ ")"]
          else []).
Proof.
  unfold add_products. rewrite nonempty_length, andb_diag.
  destruct (_ && _); simpl; by rewrite ?app_nil_r.
Qed.

Lemma add_doc_number_fst f (a : acc) :
  (add_doc_number str_strip f a).1 =
  a.1 ++ (if truthy (str_strip (document_number f))
          then ["NumeroDocumento = %s"%string] else []).
Proof.
  unfold add_doc_number.
  destruct (truthy _); simpl; by rewrite ?app_nil_r.
Qed.

(** The conditions are written from the shape of the filters. *)
Lemma conditions_shape f : conditions str_strip f = conditions_of_shape (shape_of str_strip f).
Proof.
  unfold conditions, collect, conditions_of_shape.
  rewrite add_doc_number_fst, add_products_fst, add_doc_types_fst,
    add_branches_fst, add_dates_fst.
  simpl. by rewrite <- !app_assoc.
Qed.

Lemma sql_shape f : (build_search_query str_strip f).1 = sql_of_shape (shape_of str_strip f).
Proof.
  unfold build_search_query, sql_of_shape, where_clause. simpl.
  by rewrite conditions_shape.
Qed.

(** C1 (amended): the SQL text returned by [build_search_query] is a
    function of the shape of the filters alone, where the shape records
    whether both dates are present and whether they coincide, the
    lengths of the three lists, whether the document-type and product
    lists hold "Todo", and whether the stripped document number is
    non-empty.  Two filter dictionaries of the same shape give the same
    text, whatever values they hold; the values only reach the
    parameter tuple.  This holds whatever [str.strip] removes. *)
Theorem sql_text_depends_on_shape_only f1 f2 :
  shape_of str_strip f1 = shape_of str_strip f2 ->
  (build_search_query str_strip f1).1 = (build_search_query str_strip f2).1 /\
  (build_search_query str_strip f1).1 = sql_of_shape (shape_of str_strip f1).
Proof.
  intros H.
  assert (E : forall f, (build_search_query str_strip f).1 = sql_of_shape (shape_of str_strip f)).
  { intros f. unfold build_search_query, sql_of_shape, where_clause.
    cbn [fst]. by rewrite conditions_shape. }
  split; [| apply E].
  rewrite (E f1), (E f2). by rewrite H.
Qed.

Lemma has_todo_true l : "Todo" ∈ l -> has_todo l = true.
Proof. intros H. unfold has_todo. by apply bool_decide_eq_true. Qed.

Lemma add_doc_types_todo f a : "Todo" ∈ document_types f -> add_doc_types f a = a.
Proof.
  intros H. unfold add_doc_types. rewrite (has_todo_true _ H).
  by rewrite andb_false_r.
Qed.

Lemma add_products_todo f a : "Todo" ∈ products f -> add_products f a = a.
Proof.
  intros H. unfold add_products. rewrite (has_todo_true _ H).
  by rewrite andb_false_r.
Qed.

Lemma inactive_collect f : inactive str_strip f -> collect str_strip f = ([], []).
Proof.
  intros (Hd & Hb & Ht & Hp & Hn). unfold collect.
  assert (E1 : add_dates f ([], []) = ([], [])).
  { unfold add_dates. destruct Hd as [-> | ->]; [done | by destruct (start_date f)]. }
  assert (E2 : forall a, add_branches f a = a).
  { intros a. unfold add_branches. by rewrite Hb. }
  assert (E3 : forall a, add_doc_types f a = a).
  { intros a. destruct Ht as [E | E]; [| by apply add_doc_types_todo].
    unfold add_doc_types. by rewrite E. }
  assert (E4 : forall a, add_products f a = a).
  { intros a. destruct Hp as [E | E]; [| by apply add_products_todo].
    unfold add_products. by rewrite E. }
  assert (E5 : forall a, add_doc_number str_strip f a = a).
  { intros a. unfold add_doc_number. by rewrite Hn. }
  by rewrite E5, E4, E3, E2, E1.
Qed.

(** C10: when "Todo" occurs anywhere in the document-type list, the
    document-type step appends no condition and no parameter, so the
    query is the one built from an empty document-type list, whatever
    else the list holds; the same holds for the product list; and with
    no active filter the WHERE clause is the always-true [1=1] and the
    parameter tuple is empty. *)
Theorem todo_entry_disables_filter f :
  ("Todo" ∈ document_types f ->
     (forall a, add_doc_types f a = a) /\
     build_search_query str_strip f = build_search_query str_strip (with_document_types f [])) /\
  ("Todo" ∈ products f ->
     (forall a, add_products f a = a) /\
     build_search_query str_strip f = build_search_query str_strip (with_products f [])) /\
  (inactive str_strip f ->
     build_search_query str_strip f =
     (base_query +:+ " WHERE 1=1 ORDER BY Fecha DESC, VentaID DESC", [])).
Proof.
  split; [| split].
  - intros H. split; [intros a; by apply add_doc_types_todo |].
    unfold build_search_query, where_clause, parameters, conditions, collect.
    rewrite (add_doc_types_todo f _ H). reflexivity.
  - intros H. split; [intros a; by apply add_products_todo |].
    unfold build_search_query, where_clause, parameters, conditions, collect.
    rewrite (add_products_todo f _ H). reflexivity.
  - intros H. unfold build_search_query, where_clause, parameters, conditions.
    by rewrite (inactive_collect f H).
Qed.

End QueryBuilderFacts.

(** C1, as stated, fails: presence and lengths do not fix the SQL text.
    A one-element document-type list gives a [TipoDocumento IN (%s)]
    condition for "Factura" and none for "Todo".  The document number
    of both is the empty string, which every [strip] leaves empty. *)
Lemma claimed_shape_does_not_fix_sql :
  QueryBuilder.claimed_shape PyStr.strip QueryBuilder.filters_todo
  = QueryBuilder.claimed_shape PyStr.strip QueryBuilder.filters_factura /\
  (QueryBuilder.build_search_query PyStr.strip QueryBuilder.filters_todo).1
  <> (QueryBuilder.build_search_query PyStr.strip QueryBuilder.filters_factura).1.
Proof. split; [reflexivity | by vm_compute]. Qed.

Lemma sql_text_depends_on_shape_only_witness :
  (QueryBuilder.build_search_query PyStr.strip
     (QueryBuilder.mkfilters (Some (PyDate.mkdate 2024 5 1)) (Some (PyDate.mkdate 2024 5 31))
        ["Osorno"] ["Factura"; "Boleta"] [] "1001")).1 =
  (QueryBuilder.build_search_query PyStr.strip
     (QueryBuilder.mkfilters (Some (PyDate.mkdate 2025 1 2)) (Some (PyDate.mkdate 2025 1 9))
        ["x' OR '1'='1"] ["a"; "b; DROP TABLE VentasDiarias"] [] " 7 ")).1.
Proof.
  refine (proj1 (sql_text_depends_on_shape_only PyStr.strip _ _ _)). reflexivity.
Defined.

Lemma todo_entry_disables_filter_witness :
  let f := QueryBuilder.mkfilters (Some (PyDate.mkdate 2024 5 1))
             (Some (PyDate.mkdate 2024 5 1)) ["Osorno"]
             ["Factura"; "Todo"] ["Todo"; "Pellet Bolsa 15 Kg (Retiro)"] "" in
  QueryBuilder.build_search_query PyStr.strip f
  = QueryBuilder.build_search_query PyStr.strip (QueryBuilder.with_document_types f []) /\
  QueryBuilder.build_search_query PyStr.strip f
  = QueryBuilder.build_search_query PyStr.strip (QueryBuilder.with_products f []) /\
  QueryBuilder.build_search_query PyStr.strip QueryBuilder.no_filters =
    (QueryBuilder.base_query +:+ " WHERE 1=1 ORDER BY Fecha DESC, VentaID DESC", []).
Proof.
  intros f.
  destruct (todo_entry_disables_filter PyStr.strip f) as (H1 & H2 & _).
  destruct (todo_entry_disables_filter PyStr.strip QueryBuilder.no_filters) as (_ & _ & H3).
  split; [| split].
  - apply H1. unfold f. simpl. repeat constructor.
  - apply H2. unfold f. simpl. repeat constructor.
  - apply H3. unfold QueryBuilder.inactive, QueryBuilder.no_filters. simpl. tauto.
Defined.

(** ** Date-range validation *)
Section DateRangeFacts.
Import PyDate Processor.

Lemma month_cases m :
  1 <= m <= 12 ->
  m = 1 \/ m = 2 \/ m = 3 \/ m = 4 \/ m = 5 \/ m = 6 \/
  m = 7 \/ m = 8 \/ m = 9 \/ m = 10 \/ m = 11 \/ m = 12.
Proof. lia. Qed.

Ltac each_month H :=
  apply month_cases in H;
  destruct H as [-> | [-> | [-> | [-> | [-> | [-> | [-> | [-> | [-> | [-> | [-> | ->]]]]]]]]]]].

(** Within one year the ordinal follows the order of (month, day). *)
Lemma same_year_order y m d m' d' :
  1 <= m <= 12 -> 1 <= m' <= 12 ->
  1 <= d <= days_in_month y m -> 1 <= d' <= days_in_month y m' ->
  (m < m' \/ (m = m' /\ d < d')) <->
  days_before_month y m + d < days_before_month y m' + d'.
Proof.
  intros Hm Hm'. unfold days_before_month.
  each_month Hm; each_month Hm';
    simpl; unfold days_in_month; simpl; destruct (is_leap y); lia.
Qed.

Lemma year_length y m d :
  1 <= m <= 12 -> 1 <= d <= days_in_month y m ->
  1 <= days_before_month y m + d <= (if is_leap y then 366 else 365).
Proof.
  intros Hm. unfold days_before_month.
  each_month Hm;
    simpl; unfold days_in_month; simpl; destruct (is_leap y); lia.
Qed.

Lemma days_before_next_year y :
  days_before_year (y + 1) = days_before_year y + (if is_leap y then 366 else 365).
Proof.
  unfold days_before_year, is_leap. replace (y + 1 - 1) with y by lia.
  destruct (Z.eqb_spec (y mod 4) 0), (Z.eqb_spec (y mod 100) 0),
    (Z.eqb_spec (y mod 400) 0); cbn [negb andb orb];
    Z.to_euclidean_division_equations; lia.
Qed.

Lemma days_before_year_mono y y' : y <= y' -> days_before_year y <= days_before_year y'.
Proof.
  unfold days_before_year. intros H. Z.to_euclidean_division_equations. lia.
Qed.

(** On calendar dates the tuple order is the order of the ordinals: the
    comparisons and the day difference used by the validation speak of
    the same time line. *)
Lemma ltb_toordinal a b :
  valid a -> valid b -> ltb a b = true <-> toordinal a < toordinal b.
Proof.
  intros (Hya & Hma & Hda) (Hyb & Hmb & Hdb). unfold ltb, toordinal.
  destruct a as [y m d], b as [y' m' d']. cbn [year month day] in *.
  rewrite orb_true_iff, andb_true_iff, orb_true_iff, andb_true_iff.
  rewrite !Z.ltb_lt, !Z.eqb_eq.
  destruct (Z.lt_trichotomy y y') as [Hlt | [-> | Hgt]].
  - pose proof (year_length y m d Hma Hda) as L.
    pose proof (year_length y' m' d' Hmb Hdb) as L'.
    pose proof (days_before_next_year y) as N.
    pose proof (days_before_year_mono (y + 1) y' ltac:(lia)) as M.
    split; [intros _ | intros _; by left]. destruct (is_leap y); lia.
  - pose proof (same_year_order y' m d m' d' Hma Hmb Hda Hdb) as S.
    split; [intros [H | [_ H]]; lia | intros H; right; split; [done |]; lia].
  - pose proof (year_length y m d Hma Hda) as L.
    pose proof (year_length y' m' d' Hmb Hdb) as L'.
    pose proof (days_before_next_year y') as N.
    pose proof (days_before_year_mono (y' + 1) y ltac:(lia)) as M.
    split; [intros [H | [H _]]; lia |]. destruct (is_leap y'); lia.
Qed.

(** The four tests in sequence are one disjunction. *)
Lemma validate_date_range_tests today start_date end_date business_start :
  validate_date_range today start_date end_date business_start =
  negb (gtb start_date end_date
        || ltb start_date business_start
        || gtb end_date today
        || (730 <? sub_days end_date start_date)).
Proof.
  unfold validate_date_range.
  destruct (gtb start_date end_date); [done |].
  destruct (ltb start_date business_start); [done |].
  destruct (gtb end_date today); [done |].
  by destruct (730 <? sub_days end_date start_date).
Qed.

(** C5: [validate_date_range] (with the default business start,
    2024-04-01) returns [False] exactly when the start date is after
    the end date, or the start date is before the business start, or
    the end date is after today, or the span exceeds 730 days; in every
    other case it returns [True]. *)
Theorem validate_date_range_rejects today start_date end_date :
  business_start_date = mkdate 2024 4 1 /\
  validate_date_range today start_date end_date business_start_date =
  negb (gtb start_date end_date
        || ltb start_date business_start_date
        || gtb end_date today
        || (730 <? sub_days end_date start_date)).
Proof.
  split; [reflexivity |]. unfold validate_date_range.
  destruct (gtb start_date end_date) eqn:Horder; [done |].
  destruct (ltb start_date business_start_date) eqn:Hstart; [done |].
  destruct (gtb end_date today) eqn:Hfuture; [done |].
  by destruct (730 <? sub_days end_date start_date).
Qed.

(** The same on the time line of ordinals, for calendar dates. *)
Lemma validate_date_range_ordinals today start_date end_date :
  valid today -> valid start_date -> valid end_date ->
  validate_date_range today start_date end_date business_start_date = true <->
  toordinal business_start_date <= toordinal start_date /\
  toordinal start_date <= toordinal end_date /\
  toordinal end_date <= toordinal today /\
  toordinal end_date - toordinal start_date <= 730.
Proof.
  intros Ht Hs He.
  assert (Hb : valid business_start_date) by (repeat split; vm_compute; discriminate).
  rewrite validate_date_range_tests.
  rewrite negb_true_iff, !orb_false_iff. unfold gtb, sub_days.
  rewrite <- !not_true_iff_false, Z.ltb_lt.
  rewrite (ltb_toordinal end_date start_date), (ltb_toordinal start_date business_start_date),
    (ltb_toordinal today end_date) by done.
  lia.
Qed.

Example validate_date_range_ok :
  validate_date_range (mkdate 2026 11 4) (mkdate 2024 12 1) (mkdate 2026 11 4)
    business_start_date = true.
Proof. reflexivity. Qed.

Example validate_date_range_span :
  sub_days (mkdate 2026 11 4) (mkdate 2024 11 3) = 731 /\
  validate_date_range (mkdate 2026 11 4) (mkdate 2024 11 3) (mkdate 2026 11 4)
    business_start_date = false.
Proof. split; reflexivity. Qed.

Example validate_date_range_early :
  validate_date_range (mkdate 2026 11 4) (mkdate 2024 3 31) (mkdate 2024 5 1)
    business_start_date = false.
Proof. reflexivity. Qed.

End DateRangeFacts.

(** ** Input validation *)
Section InputValidationFacts.
Import PyStr InputValidation.

Lemma append_cons c (s t : string) : String c s +:+ t = String c (s +:+ t).
Proof. reflexivity. Qed.

Lemma append_nil (t : string) : "" +:+ t = t.
Proof. reflexivity. Qed.

Lemma startswith_spec p s :
  startswith p s = true <-> exists post, s = p +:+ post.
Proof.
  revert s. induction p as [| a p IH]; intros s.
  - destruct s; simpl; split; try done; intros _; eexists; reflexivity.
  - destruct s as [| b s]; simpl.
    + split; [done | intros [post H]; discriminate].
    + destruct (Ascii.eqb_spec a b) as [-> | Hne].
      * rewrite IH. split; intros [post H]; exists post.
        -- by rewrite append_cons, H.
        -- rewrite append_cons in H. congruence.
      * split; [done | intros [post H]; rewrite append_cons in H; congruence].
Qed.

(** [contains k s] is the substring test. *)
Lemma contains_spec k s :
  contains k s = true <-> exists pre post, s = pre +:+ k +:+ post.
Proof.
  induction s as [| c s IH].
  - simpl. rewrite orb_false_r, startswith_spec. split.
    + intros [post H]. by exists ""%string, post.
    + intros (pre & post & H). destruct pre; [by exists post |]. discriminate.
  - cbn [contains]. rewrite orb_true_iff, startswith_spec, IH. split.
    + intros [[post H] | (pre & post & H)].
      * by exists ""%string, post.
      * exists (String c pre), post. by rewrite append_cons, H.
    + intros (pre & post & H). destruct pre as [| c' pre].
      * left. by exists post.
      * right. exists pre, post. rewrite append_cons in H. congruence.
Qed.

Variable str_upper : string -> string.
Variable int_parses strptime_parses : string -> bool.
Hypothesis str_upper_empty : str_upper "" = ""%string.

Lemma keywords_nonempty k : k ∈ dangerous_keywords -> k <> ""%string.
Proof.
  unfold dangerous_keywords. intros H ->.
  repeat (apply elem_of_cons in H as [H | H]; [discriminate |]).
  by apply elem_of_nil in H.
Qed.

(** C6: for every string and every input type, [validate_input] returns
    [False] as soon as the upper-cased value contains one of the
    keywords DROP, DELETE, UPDATE, INSERT, EXEC, EXECUTE, SCRIPT, UNION,
    SELECT, [--], [/*], [*/], [;] as a substring. *)
Theorem validate_input_rejects_keywords value input_type keyword pre post :
  keyword ∈ dangerous_keywords ->
  str_upper value = pre +:+ keyword +:+ post ->
  validate_input str_upper int_parses strptime_parses value input_type = false.
Proof.
  intros Hk Hsub. unfold validate_input.
  destruct value as [| c value]; cbn [truthy negb].
  - exfalso. rewrite str_upper_empty in Hsub.
    destruct pre; [| discriminate]. simpl in Hsub.
    destruct keyword; [| discriminate]. by apply (keywords_nonempty ""%string).
  - assert (E : existsb (fun k => contains k (str_upper (String c value)))
                  dangerous_keywords = true).
    { apply existsb_exists. exists keyword. split.
      - by apply list_elem_of_In.
      - apply contains_spec. by exists pre, post. }
    by rewrite E.
Qed.

End InputValidationFacts.

Lemma validate_input_rejects_keywords_witness :
  InputValidation.validate_input PyStr.upper (fun _ => true) (fun _ => true)
    "1; drop table VentasDiarias" "number" = false.
Proof.
  apply (validate_input_rejects_keywords PyStr.upper (fun _ => true) (fun _ => true)
           eq_refl "1; drop table VentasDiarias" "number" "DROP" "1; " " TABLE VENTASDIARIAS").
  - unfold InputValidation.dangerous_keywords. repeat constructor.
  - reflexivity.
Defined.

(** ** The result cache *)
Section CacheFacts.
Import PyStr PyDate PyExn PyDecimal Processor.

Lemma timedelta_seconds_range us : 0 <= timedelta_seconds us < 86400.
Proof. unfold timedelta_seconds. apply Z.mod_pos_bound. lia. Qed.

(** During the first day after an entry was stored, the entry is valid
    exactly while less than 300 seconds have elapsed. *)
Lemma cache_valid_first_day now self key v stamp :
  data_cache self !! key = Some v ->
  last_cache_update self !! key = Some stamp ->
  0 <= now - stamp < 86400 * 1000000 ->
  _is_cache_valid now self key = true <-> now - stamp < 300 * 1000000.
Proof.
  intros Hv Hs Hrange. unfold _is_cache_valid, timedelta_seconds, cache_timeout.
  rewrite Hv, Hs. rewrite Z.ltb_lt.
  rewrite Z.mod_small by (split; [apply Z.div_pos | apply Z.div_lt_upper_bound]; lia).
  split; intros H.
  - apply Z.nle_gt. intros Hle.
    assert (300 <= (now - stamp) / 1000000) by (apply Z.div_le_lower_bound; lia). lia.
  - apply Z.div_lt_upper_bound; lia.
Qed.

(** Only the seconds left after whole days are compared with the
    time-to-live: an entry whose age is between one day and one day plus
    300 seconds counts as valid. *)
Lemma cache_valid_after_a_day now self key v stamp :
  data_cache self !! key = Some v ->
  last_cache_update self !! key = Some stamp ->
  86400 * 1000000 <= now - stamp < (86400 + 300) * 1000000 ->
  _is_cache_valid now self key = true.
Proof.
  intros Hv Hs Hrange. unfold _is_cache_valid, timedelta_seconds, cache_timeout.
  rewrite Hv, Hs. rewrite Z.ltb_lt.
  assert (H1 : 86400 <= (now - stamp) / 1000000)
    by (apply Z.div_le_lower_bound; lia).
  assert (H2 : (now - stamp) / 1000000 < 86400 + 300)
    by (apply Z.div_lt_upper_bound; lia).
  replace ((now - stamp) / 1000000)
    with (((now - stamp) / 1000000 - 86400) + 1 * 86400) by lia.
  rewrite Z.mod_add by lia. rewrite Z.mod_small; lia.
Qed.

(** C4 (what the code does against the claim): a call made between one
    day and one day plus 300 seconds after the entry was stored, far
    beyond the 300-second time-to-live, still returns the stored entry
    without querying the database. *)
Theorem stale_entry_served_after_a_day db now_check now_store self s e v stamp :
  data_cache self !! branch_sales_key s e = Some v ->
  last_cache_update self !! branch_sales_key s e = Some stamp ->
  86400 * 1000000 <= now_check - stamp < (86400 + 300) * 1000000 ->
  get_sales_by_branch_data db now_check now_store self s e = (Ok v, self).
Proof.
  intros Hv Hs Hrange. unfold get_sales_by_branch_data.
  rewrite (cache_valid_after_a_day _ _ _ _ _ Hv Hs Hrange).
  unfold cache_get. by rewrite Hv.
Qed.

End CacheFacts.

Lemma stale_entry_served_after_a_day_witness :
  let key := Processor.branch_sales_key (PyDate.mkdate 2024 5 1) (PyDate.mkdate 2024 5 31) in
  let self := Processor.mkprocessor 945
                {[ key := Processor._get_empty_branch_data ]} {[ key := 0 ]}
                (Processor.mkcategories [] ∅ [] [] ∅) in
  Processor.get_sales_by_branch_data
    (fun _ _ => Processor.Rows []) (86410 * 1000000) (86410 * 1000000) self
    (PyDate.mkdate 2024 5 1) (PyDate.mkdate 2024 5 31)
  = (PyExn.Ok Processor._get_empty_branch_data, self).
Proof.
  intros key self.
  apply (stale_entry_served_after_a_day _ _ _ self _ _ Processor._get_empty_branch_data 0).
  - apply lookup_singleton_eq.
  - apply lookup_singleton_eq.
  - lia.
Defined.

(** ** Exceptions stay inside *)
Section ExceptionFacts.
Import PyStr PyDate PyExn PyDecimal Processor.

Lemma execute_query_total db query params :
  exists rows, _execute_query db query params = Ok rows.
Proof.
  unfold _execute_query, try_except.
  destruct (db query params) as [| rows | e]; [by eexists ..|].
  destruct e; by eexists.
Qed.

Lemma execute_query_on_raise db query params e :
  db query params = DbRaises e -> _execute_query db query params = Ok [].
Proof. intros H. unfold _execute_query, try_except. rewrite H. by destruct e. Qed.

Lemma cache_valid_get now self key :
  _is_cache_valid now self key = true -> exists v, cache_get self key = Ok v.
Proof.
  unfold _is_cache_valid, cache_get.
  destruct (data_cache self !! key); [by eexists | done].
Qed.

(** C8: whatever the database does, and in particular when it raises,
    [_execute_query] returns a list, the empty one when an exception was
    raised; [get_sales_by_branch_data] always returns a branch
    structure, and when a statement of its [try] block raises it
    returns the all-zero structure and leaves the cache as it was. *)
Theorem exceptions_do_not_propagate db query params now_check now_store self s e :
  (exists rows, _execute_query db query params = Ok rows) /\
  (forall exc, db query params = DbRaises exc ->
     _execute_query db query params = Ok []) /\
  (exists v, (get_sales_by_branch_data db now_check now_store self s e).1 = Ok v) /\
  (_is_cache_valid now_check self (branch_sales_key s e) = false ->
   raises (branch_sales_body db self s e) ->
   get_sales_by_branch_data db now_check now_store self s e =
     (Ok _get_empty_branch_data, self)).
Proof.
  split; [apply execute_query_total |].
  split; [intros exc; apply execute_query_on_raise |].
  unfold get_sales_by_branch_data. split.
  - destruct (_is_cache_valid _ _ _) eqn:Hc.
    + destruct (cache_valid_get _ _ _ Hc) as [v Hv]. exists v. by rewrite Hv.
    + destruct (branch_sales_body db self s e); by eexists.
  - intros -> [exc ->]. reflexivity.
Qed.

End ExceptionFacts.

Lemma exceptions_do_not_propagate_witness :
  let self := Processor.mkprocessor 945 ∅ ∅ (Processor.mkcategories [] ∅ [] [] ∅) in
  let db : Processor.database := fun _ _ => Processor.Rows [Processor.null_total_row] in
  let down : Processor.database := fun _ _ => Processor.DbRaises PyExn.MySQLError in
  Processor._execute_query down "SELECT 1" [] = PyExn.Ok [] /\
  Processor.get_sales_by_branch_data db 0 0 self
    (PyDate.mkdate 2024 5 1) (PyDate.mkdate 2024 5 31)
  = (PyExn.Ok Processor._get_empty_branch_data, self).
Proof.
  intros self db down. split.
  - apply (exceptions_do_not_propagate down "SELECT 1" [] 0 0 self
             (PyDate.mkdate 2024 5 1) (PyDate.mkdate 2024 5 31)) with PyExn.MySQLError.
    reflexivity.
  - apply (exceptions_do_not_propagate db "" [] 0 0 self).
    + reflexivity.
    + exists PyExn.InvalidOperation. reflexivity.
Defined.

(** ** Monthly aggregation *)
Section MonthlyFacts.
Import PyStr PyDate PyExn PyDecimal Processor Aggregation.


Lemma range_upper a b m : m ∈ range a b -> a <= m < b.
Proof. unfold range. rewrite elem_of_seqZ. lia. Qed.

(** The exit test of the loop never fires on months up to 12. *)
Lemma monthly_loop_no_break db cats cy ey months data :
  Forall (fun m => m <= 12) months ->
  monthly_loop db cats cy ey months data = aggregate_months db cats cy months data.
Proof.
  intros H. revert data. induction H as [| m months Hm _ IH]; intros data; [done |].
  cbn [monthly_loop aggregate_months].
  replace (12 <? m) with false by (symmetry; apply Z.ltb_ge; lia).
  rewrite andb_false_r.
  destruct (month_bounds cy m) as [[ms me] | exc]; [| done]. cbn.
  destruct (_get_monthly_data db ms me) as [rows | exc]; [| done]. cbn.
  destruct (_aggregate_monthly_data cats rows data) as [data' | exc]; [| done]. cbn.
  apply IH.
Qed.

Lemma monthly_body_months db self s e :
  month e <= 12 ->
  monthly_body db self s e =
  aggregate_months db (product_categories self) (year s)
    (range (month s) (month e + 1)) _get_empty_branch_data.
Proof.
  intros H. unfold monthly_body. apply monthly_loop_no_break.
  apply Forall_forall. intros m Hm%range_upper. lia.
Qed.

Lemma aggregate_records_app cats data rows1 rows2 :
  aggregate_records cats data (rows1 ++ rows2) =
  (data' ← aggregate_records cats data rows1; aggregate_records cats data' rows2).
Proof.
  revert data. induction rows1 as [| r rows1 IH]; intros data; [done |].
  cbn [app aggregate_records].
  destruct (aggregate_record cats data r) as [d |]; [| done].
  cbn [mbind result_bind bind]. apply IH.
Qed.

(** The first and the last day of a month, as the loop computes them:
    every month of the calendar but December 9999, for which the first
    of January of the year 10000 is asked. *)
Lemma month_bounds_ok y m :
  1 <= y <= 9999 -> 1 <= m <= 12 -> y < 9999 \/ m < 12 ->
  month_bounds y m = Ok (mkdate y m 1, mkdate y m (days_in_month y m)).
Proof.
  intros Hy Hm Hlast. unfold month_bounds, make_date, validb.
  cbn [year month day].
  assert (Hdim : forall yy k, (1 <=? days_in_month yy k) = true).
  { intros yy k. apply Z.leb_le. unfold days_in_month.
    destruct (k =? 2); [destruct (is_leap yy); lia |]. destruct (_ || _); lia. }
  rewrite !Hdim.
  replace (1 <=? y) with true by (symmetry; apply Z.leb_le; lia).
  replace (y <=? 9999) with true by (symmetry; apply Z.leb_le; lia).
  replace (1 <=? m) with true by (symmetry; apply Z.leb_le; lia).
  replace (m <=? 12) with true by (symmetry; apply Z.leb_le; lia).
  cbn [andb mbind result_bind bind Z.leb Z.compare Pos.compare Pos.compare_cont].
  destruct (Z.eqb_spec m 12) as [-> | Hne].
  - replace (1 <=? y + 1) with true by (symmetry; apply Z.leb_le; lia).
    replace (y + 1 <=? 9999) with true by (symmetry; apply Z.leb_le; lia).
    rewrite ?Hdim. cbn [andb mbind result_bind bind]. unfold minus_one_day.
    cbn [year month day]. change (1 <? 1) with false. cbn iota.
    replace (y + 1 - 1) with y by lia. reflexivity.
  - replace (1 <=? m + 1) with true by (symmetry; apply Z.leb_le; lia).
    replace (m + 1 <=? 12) with true by (symmetry; apply Z.leb_le; lia).
    rewrite ?Hdim. cbn [andb mbind result_bind bind]. unfold minus_one_day.
    cbn [year month day]. change (1 <? 1) with false. cbn iota.
    replace (1 <? m + 1) with true by (symmetry; apply Z.ltb_lt; lia).
    by replace (m + 1 - 1) with m by lia.
Qed.


Lemma aggregate_months_rows db cats y months data :
  1 <= y <= 9999 -> Forall (fun m => 1 <= m <= 12 /\ (y < 9999 \/ m < 12)) months ->
  aggregate_months db cats y months data =
  aggregate_records cats data (monthly_rows db y months).
Proof.
  intros Hy H. revert data.
  induction H as [| m months [Hm Hlast] _ IH]; intros data; [reflexivity |].
  cbn [aggregate_months]. rewrite (month_bounds_ok y m Hy Hm Hlast).
  cbn [mbind result_bind bind]. unfold monthly_rows. cbn [map concat].
  fold (monthly_rows db y months).
  rewrite aggregate_records_app. unfold _get_monthly_data, query_rows.
  destruct (execute_query_total db monthly_query
              [mkdate y m 1; mkdate y m (days_in_month y m)]) as [rows ->].
  cbn [mbind result_bind bind]. unfold _aggregate_monthly_data.
  destruct (aggregate_records cats data rows) as [d |];
    cbn [mbind result_bind bind]; [apply IH | reflexivity].
Qed.



(** *** Cache keys *)

Lemma digit_inj a b : digit a = digit b -> a mod 10 = b mod 10.
Proof.
  unfold digit. intros H.
  pose proof (Z.mod_pos_bound a 10 ltac:(lia)) as Ha.
  pose proof (Z.mod_pos_bound b 10 ltac:(lia)) as Hb.
  apply (f_equal nat_of_ascii) in H.
  rewrite !nat_ascii_embedding in H by lia. lia.
Qed.

Lemma zfill2_inj a b :
  0 <= a < 100 -> 0 <= b < 100 -> zfill2 a = zfill2 b -> a = b.
Proof.
  unfold zfill2. intros Ha Hb [= H1%digit_inj H0%digit_inj].
  revert H1 H0. Z.to_euclidean_division_equations. lia.
Qed.

Lemma zfill4_inj a b :
  0 <= a < 10000 -> 0 <= b < 10000 -> zfill4 a = zfill4 b -> a = b.
Proof.
  unfold zfill4.
  intros Ha Hb [= H3%digit_inj H2%digit_inj H1%digit_inj H0%digit_inj].
  revert H3 H2 H1 H0. Z.to_euclidean_division_equations. lia.
Qed.

Lemma valid_fields d :
  valid d -> 0 <= year d < 10000 /\ 0 <= month d < 100 /\ 0 <= day d < 100.
Proof.
  intros (Hy & Hm & Hd). split; [lia |]. split; [lia |].
  unfold days_in_month in Hd.
  destruct (month d =? 2); [destruct (is_leap (year d)); lia |].
  destruct (_ || _); lia.
Qed.

(** Two calendar dates with the same ISO text, followed by anything, are
    the same date. *)
Lemma isoformat_app_inj d d' (t t' : string) :
  valid d -> valid d' ->
  isoformat d +:+ t = isoformat d' +:+ t' -> d = d' /\ t = t'.
Proof.
  intros (Hy & Hm & Hd)%valid_fields (Hy' & Hm' & Hd')%valid_fields.
  unfold isoformat.
  destruct d as [y m dd], d' as [y' m' dd']. cbn [year month day] in *.
  intros H.
  assert (Hz : zfill4 y = zfill4 y' /\ zfill2 m = zfill2 m' /\ zfill2 dd = zfill2 dd' /\ t = t').
  { unfold zfill4, zfill2 in *. cbv [String.append] in H.
    injection H as -> -> -> -> -> -> -> -> ->. done. }
  destruct Hz as (E1 & E2 & E3 & E4).
  apply zfill4_inj in E1; [| done ..]. apply zfill2_inj in E2; [| done ..].
  apply zfill2_inj in E3; [| done ..]. by subst.
Qed.

Lemma append_prefix_inj (p a b : string) : p +:+ a = p +:+ b -> a = b.
Proof.
  induction p as [| c p IH]; [done |].
  change (String c p +:+ a) with (String c (p +:+ a)).
  change (String c p +:+ b) with (String c (p +:+ b)).
  intros [= H]. by apply IH.
Qed.


Lemma monthly_key_not_branch s e s' e' : monthly_key s e <> branch_sales_key s' e'.
Proof. unfold monthly_key, branch_sales_key. intros H. cbv [String.append] in H. discriminate. Qed.




End MonthlyFacts.


(** ** Rounding to significant digits *)
Section RoundingFacts.
Import Rounding.

Lemma digits_aux_nonpos fuel beta n : n <= 0 -> digits_aux fuel beta n = 0.
Proof.
  intros H. destruct fuel; [done |]. cbn [digits_aux].
  by rewrite (proj2 (Z.leb_le n 0) H).
Qed.

Lemma pow_pred_step beta d : 1 <= d -> beta ^ d = beta * beta ^ (d - 1).
Proof.
  intros H. replace d with (Z.succ (d - 1)) at 1 by lia.
  rewrite Z.pow_succ_r; lia.
Qed.

Lemma digits_aux_spec beta fuel n :
  2 <= beta -> 0 < n < 2 ^ Z.of_nat fuel ->
  1 <= digits_aux fuel beta n /\
  beta ^ (digits_aux fuel beta n - 1) <= n < beta ^ digits_aux fuel beta n.
Proof.
  intros Hb. revert n. induction fuel as [| fuel IH]; intros n [Hn Hlt].
  - simpl in Hlt. lia.
  - cbn [digits_aux]. destruct (n <=? 0) eqn:E; [apply Z.leb_le in E; lia |].
    rewrite Nat2Z.inj_succ, Z.pow_succ_r in Hlt by lia.
    destruct (Z.eq_dec (n / beta) 0) as [Hz | Hnz].
    + rewrite Hz, digits_aux_nonpos by lia.
      apply Z.div_small_iff in Hz; [| lia].
      replace (1 + 0 - 1) with 0 by lia. rewrite Z.pow_0_r.
      replace (1 + 0) with 1 by lia. rewrite Z.pow_1_r. lia.
    + assert (Hq : 0 <= n / beta) by (apply Z.div_pos; lia).
      assert (Hq' : n / beta < 2 ^ Z.of_nat fuel).
      { apply Z.div_lt_upper_bound; [lia |].
        assert (0 < 2 ^ Z.of_nat fuel) by (apply Z.pow_pos_nonneg; lia). nia. }
      destruct (IH (n / beta)) as (H1 & H2 & H3); [lia |].
      set (d := digits_aux fuel beta (n / beta)) in *.
      split; [lia |]. replace (1 + d - 1) with d by lia.
      rewrite (pow_pred_step beta (1 + d)) by lia.
      replace (1 + d - 1) with d by lia.
      rewrite (pow_pred_step beta d) in * by lia.
      pose proof (Z.div_mod n beta ltac:(lia)) as Hdm.
      pose proof (Z.mod_pos_bound n beta ltac:(lia)) as Hr.
      set (P := beta ^ (d - 1)) in *. set (q := n / beta) in *.
      set (r := n mod beta) in *.
      assert (beta * P <= beta * q) by (apply Z.mul_le_mono_nonneg_l; lia).
      assert (beta * (q + 1) <= beta * (beta * P))
        by (apply Z.mul_le_mono_nonneg_l; lia).
      lia.
Qed.

(** [digits] counts the digits: [beta^(d-1) <= n < beta^d]. *)
Lemma digits_spec beta n :
  2 <= beta -> 0 < n ->
  1 <= digits beta n /\ beta ^ (digits beta n - 1) <= n < beta ^ digits beta n.
Proof.
  intros Hb Hn. unfold digits. apply digits_aux_spec; [done |].
  split; [done |].
  rewrite Nat2Z.inj_succ, Z2Nat.id by apply Z.log2_nonneg.
  apply Z.log2_spec. done.
Qed.

Local Open Scope Q_scope.

Lemma inject_pow beta m : (0 <= m)%Z -> inject_Z (beta ^ m) == inject_Z beta ^ m.
Proof. intros H. by apply Zpower_Qpower. Qed.

Lemma radix_pos beta : (2 <= beta)%Z -> 0 < inject_Z beta.
Proof. intros H. change 0 with (inject_Z 0). rewrite <- Zlt_Qlt. lia. Qed.

Lemma radix_nonzero beta : (2 <= beta)%Z -> ~ inject_Z beta == 0.
Proof. intros H E. pose proof (radix_pos beta H) as Hp. rewrite E in Hp. lra. Qed.

Lemma radix_pow_pos beta e : (2 <= beta)%Z -> 0 < inject_Z beta ^ e.
Proof. intros H. apply Qpower_0_lt. by apply radix_pos. Qed.

Lemma radix_pow_split beta a b :
  (2 <= beta)%Z -> inject_Z beta ^ (a + b) == inject_Z beta ^ a * inject_Z beta ^ b.
Proof. intros H. apply Qpower_plus. by apply radix_nonzero. Qed.

(** The digit count of a positive integer, read in the rationals. *)
Lemma digits_bounds_Q beta n :
  (2 <= beta)%Z -> (0 < n)%Z ->
  inject_Z beta ^ (digits beta n - 1) <= inject_Z n /\
  inject_Z n < inject_Z beta ^ digits beta n.
Proof.
  intros Hb Hn. destruct (digits_spec beta n Hb Hn) as (H1 & H2 & H3).
  rewrite <- !inject_pow by lia. by rewrite <- Zle_Qle, <- Zlt_Qlt.
Qed.

(** [ilog] is the floor of the logarithm. *)
Lemma ilog_spec beta x :
  (2 <= beta)%Z -> 0 < x ->
  inject_Z beta ^ ilog beta x <= x /\ x < inject_Z beta ^ (ilog beta x + 1).
Proof.
  intros Hb Hx. unfold ilog.
  assert (Hn : (0 < Qnum x)%Z).
  { destruct x as [n d]. unfold Qlt in Hx. simpl in *. lia. }
  destruct (digits_bounds_Q beta (Qnum x) Hb Hn) as [N1 N2].
  destruct (digits_bounds_Q beta (Zpos (Qden x)) Hb ltac:(lia)) as [D1 D2].
  set (dn := digits beta (Qnum x)) in *.
  set (dd := digits beta (Zpos (Qden x))) in *.
  set (k := (dn - dd)%Z).
  assert (Hxd : x * inject_Z (Zpos (Qden x)) == inject_Z (Qnum x)).
  { destruct x as [n d]. simpl. rewrite (Qmake_Qdiv n d). field.
    intros E. assert (0 < inject_Z (Z.pos d)) by (change 0 with (inject_Z 0);
      rewrite <- Zlt_Qlt; lia). lra. }
  assert (Hd : 0 < inject_Z (Zpos (Qden x))).
  { change 0 with (inject_Z 0). rewrite <- Zlt_Qlt. lia. }
  pose proof (radix_pow_pos beta k Hb) as Pk.
  pose proof (radix_pow_pos beta (k + 1) Hb) as Pk1.
  pose proof (radix_pow_pos beta (k - 1) Hb) as Pk0.
  pose proof (radix_pow_pos beta (dd - 1) Hb) as Pd1.
  pose proof (radix_pow_pos beta dd Hb) as Pd.
  assert (E1 : inject_Z beta ^ dn == inject_Z beta ^ (k + 1) * inject_Z beta ^ (dd - 1)).
  { rewrite <- radix_pow_split by done. by replace (k + 1 + (dd - 1))%Z with dn by lia. }
  assert (E0 : inject_Z beta ^ (dn - 1) == inject_Z beta ^ (k - 1) * inject_Z beta ^ dd).
  { rewrite <- radix_pow_split by done. by replace (k - 1 + dd)%Z with (dn - 1)%Z by lia. }
  set (D := inject_Z (Zpos (Qden x))) in *. set (N := inject_Z (Qnum x)) in *.
  set (Bk := inject_Z beta ^ k) in *. set (Bk1 := inject_Z beta ^ (k + 1)) in *.
  set (Bk0 := inject_Z beta ^ (k - 1)) in *.
  set (Bd1 := inject_Z beta ^ (dd - 1)) in *. set (Bd := inject_Z beta ^ dd) in *.
  set (Bn := inject_Z beta ^ dn) in *. set (Bn1 := inject_Z beta ^ (dn - 1)) in *.
  destruct (Qle_bool Bk x) eqn:Hc.
  - apply Qle_bool_iff in Hc. split; [done |]. fold Bk1.
    clearbody D N Bk Bk1 Bk0 Bd1 Bd Bn Bn1.
    apply Qnot_le_lt. intros Hge.
    assert (Bk1 * Bd1 <= x * Bd1) by (apply Qmult_le_compat_r; lra).
    assert (x * Bd1 <= x * D)
      by (rewrite !(Qmult_comm x); apply Qmult_le_compat_r; lra).
    lra.
  - assert (Hlt : x < Bk).
    { apply Qnot_le_lt. intros Hge. apply Qle_bool_iff in Hge. congruence. }
    replace (k - 1 + 1)%Z with k by lia. fold Bk Bk0. split; [| done].
    clearbody D N Bk Bk1 Bk0 Bd1 Bd Bn Bn1.
    apply Qnot_lt_le. intros Hl.
    assert (x * D <= Bk0 * D) by (apply Qmult_le_compat_r; lra).
    assert (Bk0 * D < Bk0 * Bd)
      by (rewrite !(Qmult_comm Bk0); apply Qmult_lt_compat_r; lra).
    lra.
Qed.

Lemma Qabs_nonzero_pos x : ~ x == 0 -> 0 < Qabs x.
Proof.
  intros Hx. destruct (Qlt_le_dec 0 (Qabs x)) as [H | H]; [done |].
  exfalso. apply Hx. apply Qabs_Qle_condition in H. lra.
Qed.

Lemma round_half_even_bounds x :
  - (1 # 2) <= inject_Z (round_half_even x) - x <= 1 # 2.
Proof.
  unfold round_half_even.
  pose proof (Qfloor_le x) as Hlo. pose proof (Qlt_floor x) as Hhi.
  rewrite inject_Z_plus in Hhi. change (inject_Z 1) with 1 in Hhi.
  set (f := Qfloor x) in *.
  destruct (Qcompare (x - inject_Z f) (1 # 2)) eqn:Hc.
  - apply Qeq_alt in Hc.
    destruct (Z.even f); rewrite ?inject_Z_plus; change (inject_Z 1) with 1; lra.
  - apply Qlt_alt in Hc. lra.
  - apply Qgt_alt in Hc. rewrite inject_Z_plus. change (inject_Z 1) with 1. lra.
Qed.

Lemma ulp_pos beta p x : (2 <= beta)%Z -> 0 < ulp beta p x.
Proof. intros H. by apply radix_pow_pos. Qed.

(** The unit in the last place is at most [beta^(1-p)] times the number. *)
Lemma ulp_le beta p x :
  (2 <= beta)%Z -> ~ x == 0 -> ulp beta p x <= inject_Z beta ^ (1 - p) * Qabs x.
Proof.
  intros Hb Hx. unfold ulp.
  pose proof (Qabs_nonzero_pos x Hx) as Hpos.
  destruct (ilog_spec beta (Qabs x) Hb Hpos) as [Hlo _].
  replace (ilog beta (Qabs x) - (p - 1))%Z with ((1 - p) + ilog beta (Qabs x))%Z by lia.
  rewrite radix_pow_split by done.
  pose proof (radix_pow_pos beta (1 - p) Hb).
  apply Qmult_le_l; done.
Qed.

(** Rounding moves a number by at most half a unit in the last place. *)
Lemma round_sig_ulp beta p x :
  (2 <= beta)%Z -> ~ x == 0 ->
  - ((1 # 2) * ulp beta p x) <= round_sig beta p x - x <= (1 # 2) * ulp beta p x.
Proof.
  intros Hb Hx. unfold round_sig.
  destruct (Qeq_bool x 0) eqn:E; [apply Qeq_bool_iff in E; contradiction |].
  rewrite Qred_correct.
  pose proof (ulp_pos beta p x Hb) as Hu.
  pose proof (round_half_even_bounds (x / ulp beta p x)) as [H1 H2].
  set (u := ulp beta p x) in *.
  set (r := inject_Z (round_half_even (x / u))) in *. clearbody r u.
  assert (Hdiv : x / u * u == x) by (field; lra).
  assert (K1 : - (1 # 2) * u <= (r - x / u) * u)
    by (apply Qmult_le_compat_r; lra).
  assert (K2 : (r - x / u) * u <= (1 # 2) * u)
    by (apply Qmult_le_compat_r; lra).
  assert (K3 : (r - x / u) * u == r * u - x) by (rewrite <- Hdiv at 2; ring).
  lra.
Qed.

(** The relative error of rounding is at most half of [beta^(1-p)]. *)
Lemma round_sig_error beta p x :
  (2 <= beta)%Z ->
  Qabs (round_sig beta p x - x) <= (1 # 2) * inject_Z beta ^ (1 - p) * Qabs x.
Proof.
  intros Hb. destruct (Qeq_dec x 0) as [Hz | Hnz].
  - unfold round_sig. rewrite (proj2 (Qeq_bool_iff x 0) Hz).
    rewrite Hz. change (Qabs (0 - 0)) with 0. change (Qabs 0) with 0. lra.
  - apply Qabs_Qle_condition.
    pose proof (round_sig_ulp beta p x Hb Hnz) as [H1 H2].
    pose proof (ulp_le beta p x Hb Hnz) as H3.
    set (u := ulp beta p x) in *. set (e := inject_Z beta ^ (1 - p)) in *.
    set (a := Qabs x) in *. set (r := round_sig beta p x) in *.
    clearbody u e a r. lra.
Qed.

Lemma round_half_even_integer y m : y == inject_Z m -> round_half_even y = m.
Proof.
  intros H. unfold round_half_even.
  assert (Ef : Qfloor y = m) by (rewrite H; apply Qfloor_Z).
  rewrite Ef.
  assert (Ec : Qcompare (y - inject_Z m) (1 # 2) = Lt).
  { apply (proj1 (Qlt_alt _ _)). rewrite H. lra. }
  by rewrite Ec.
Qed.

(** A number with at most [p] significant digits is not changed: a
    multiple of [beta^q] below [beta^(p+q)] in magnitude rounds to
    itself. *)
Lemma round_sig_exact beta p q x m :
  (2 <= beta)%Z ->
  x == inject_Z m * inject_Z beta ^ q ->
  Qabs x < inject_Z beta ^ (p + q) ->
  round_sig beta p x == x.
Proof.
  intros Hb Hx Hlt. unfold round_sig.
  destruct (Qeq_bool x 0) eqn:E; [apply Qeq_bool_iff in E; by rewrite E |].
  assert (Hnz : ~ x == 0).
  { intros H. apply Qeq_bool_iff in H. congruence. }
  rewrite Qred_correct. unfold ulp.
  destruct (ilog_spec beta (Qabs x) Hb (Qabs_nonzero_pos x Hnz)) as [Hlo _].
  set (l := ilog beta (Qabs x)) in *.
  assert (Hl : (l < p + q)%Z).
  { apply (Qpower_lt_compat_l_inv (inject_Z beta)).
    - by apply Qle_lt_trans with (Qabs x).
    - change 1 with (inject_Z 1). rewrite <- Zlt_Qlt. lia. }
  set (e := (l - (p - 1))%Z).
  assert (He : (0 <= q - e)%Z) by lia.
  pose proof (radix_pow_pos beta e Hb) as Hpe.
  assert (Hsplit : inject_Z beta ^ q == inject_Z beta ^ (q - e) * inject_Z beta ^ e).
  { rewrite <- radix_pow_split by done. by replace (q - e + e)%Z with q by lia. }
  assert (Hint : x / inject_Z beta ^ e == inject_Z (m * beta ^ (q - e))).
  { rewrite inject_Z_mult, inject_pow by done. rewrite Hx, Hsplit. field. lra. }
  rewrite (round_half_even_integer _ _ Hint).
  rewrite inject_Z_mult, inject_pow by done. rewrite Hx, Hsplit. ring.
Qed.

End RoundingFacts.

(** ** Tax decomposition *)
Section TaxFacts.
Import PyExn Processor SalesEntry.
Local Open Scope Q_scope.

Lemma Qabs_cases x : (x <= 0 /\ Qabs x == - x) \/ (0 <= x /\ Qabs x == x).
Proof.
  destruct (Qlt_le_dec x 0) as [H | H].
  - left. split; [lra |]. apply Qabs_neg. lra.
  - right. split; [done |]. by apply Qabs_pos.
Qed.

(** One rounding in the 10-digit context: relative error at most
    5e-10. *)
Lemma decimal_round_error x :
  Qabs (PyDecimal.round x - x) <= (1 # 2000000000) * Qabs x.
Proof.
  pose proof (round_sig_error 10 PyDecimal.prec x ltac:(lia)) as H.
  unfold PyDecimal.round.
  assert (E : (1 # 2) * inject_Z 10 ^ (1 - PyDecimal.prec) == 1 # 2000000000)
    by reflexivity.
  by rewrite E in H.
Qed.

(** One rounding to binary64: relative error at most 2^-53. *)
Lemma float_round_error x :
  Qabs (PyFloat.round x - x) <= (1 # 9007199254740992) * Qabs x.
Proof.
  pose proof (round_sig_error 2 53 x ltac:(lia)) as H.
  unfold PyFloat.round.
  assert (E : (1 # 2) * inject_Z 2 ^ (1 - 53) == 1 # 9007199254740992)
    by reflexivity.
  by rewrite E in H.
Qed.

Lemma decimal_tax_bounds a :
  let n := PyDecimal.round (a / (119 # 100)) in
  let i := PyDecimal.mul n (PyDecimal.sub (119 # 100) 1) in
  Qabs (n * (119 # 100) - a) <= (1 # 1000000000) * Qabs a /\
  Qabs (n + i - a) <= (1 # 1000000000) * Qabs a.
Proof.
  intros n i.
  assert (Es : PyDecimal.sub (119 # 100) 1 = 19 # 100) by (vm_compute; reflexivity).
  unfold i, PyDecimal.mul. rewrite Es. clear i Es.
  pose proof (decimal_round_error (a / (119 # 100))) as H1. fold n in H1.
  pose proof (decimal_round_error (n * (19 # 100))) as H2.
  set (i := PyDecimal.round (n * (19 # 100))) in *.
  assert (Ea : Qabs (a / (119 # 100)) == Qabs a * (100 # 119)).
  { unfold Qdiv. rewrite Qabs_Qmult. reflexivity. }
  assert (En : Qabs (n * (19 # 100)) == Qabs n * (19 # 100)).
  { rewrite Qabs_Qmult. reflexivity. }
  rewrite Ea in H1. rewrite En in H2.
  apply Qabs_Qle_condition in H1. apply Qabs_Qle_condition in H2.
  assert (Ed : a / (119 # 100) == a * (100 # 119)) by (unfold Qdiv; reflexivity).
  rewrite Ed in H1.
  destruct (Qabs_cases a) as [[Ha Ea'] | [Ha Ea']];
    destruct (Qabs_cases n) as [[Hn En'] | [Hn En']];
    rewrite Ea' in *; rewrite En' in *; clearbody n i;
    split; apply Qabs_Qle_condition; lra.
Qed.

(** The two float literals of [_calculate_financial_totals]. *)
Lemma float_literals :
  PyFloat.literal (119 # 100) = 2679641778285445 # 2251799813685248 /\
  PyFloat.literal (19 # 100) = 3422735716801577 # 18014398509481984.
Proof. split; vm_compute; reflexivity. Qed.

Lemma float_tax_bounds g :
  let gf := PyFloat.round (inject_Z g) in
  let n := PyFloat.div gf (PyFloat.literal (119 # 100)) in
  let t := PyFloat.mul n (PyFloat.literal (19 # 100)) in
  Qabs (n * (119 # 100) - inject_Z g) <= (1 # 2251799813685248) * Qabs (inject_Z g) /\
  Qabs (n + t - inject_Z g) <= (1 # 2251799813685248) * Qabs (inject_Z g).
Proof.
  intros gf n t. destruct float_literals as [Ec Ed].
  unfold t, n, PyFloat.mul, PyFloat.div. rewrite Ec, Ed. clear t n Ec Ed.
  set (c := 2679641778285445 # 2251799813685248).
  set (d := 3422735716801577 # 18014398509481984).
  set (G := inject_Z g) in *.
  pose proof (float_round_error G) as H0. fold gf in H0.
  pose proof (float_round_error (gf / c)) as H1.
  set (n := PyFloat.round (gf / c)) in *.
  pose proof (float_round_error (n * d)) as H2.
  set (t := PyFloat.round (n * d)) in *.
  assert (E1 : Qabs (gf / c) == Qabs gf * (2251799813685248 # 2679641778285445)).
  { unfold Qdiv. rewrite Qabs_Qmult. reflexivity. }
  assert (E2 : Qabs (n * d) == Qabs n * d).
  { rewrite Qabs_Qmult. reflexivity. }
  assert (E3 : gf / c == gf * (2251799813685248 # 2679641778285445))
    by (unfold Qdiv; reflexivity).
  rewrite E1, E3 in H1. rewrite E2 in H2.
  apply Qabs_Qle_condition in H0. apply Qabs_Qle_condition in H1.
  apply Qabs_Qle_condition in H2.
  unfold c, d in *. clear c d.
  destruct (Qabs_cases G) as [[HG EG] | [HG EG]];
    destruct (Qabs_cases gf) as [[Hf Ef] | [Hf Ef]];
    destruct (Qabs_cases n) as [[Hn En] | [Hn En]];
    rewrite EG in *; rewrite Ef in *; rewrite En in *; clearbody G gf n t;
    split; apply Qabs_Qle_condition; lra.
Qed.

Lemma tax_components_ok g d :
  tax_components g = Ok d ->
  total d = g /\
  net d = PyFloat.div (PyFloat.round (inject_Z g)) (PyFloat.literal (119 # 100)) /\
  tax d = PyFloat.mul (net d) (PyFloat.literal (19 # 100)).
Proof.
  unfold tax_components, PyFloat.of_int.
  destruct (Qle_bool _ _); [done |]. cbn. intros [= <-]. done.
Qed.

(** In range, the tax computation returns. *)
Lemma tax_components_total g :
  Qabs (inject_Z g) <= inject_Z 2 ^ 1023 -> exists d, tax_components g = Ok d.
Proof.
  intros Hg. unfold tax_components, PyFloat.of_int.
  destruct (Qle_bool _ _) eqn:E; [| by eexists].
  exfalso. apply Qle_bool_iff in E.
  pose proof (float_round_error (inject_Z g)) as H0.
  apply Qabs_Qle_condition in H0.
  assert (E2 : inject_Z 2 ^ 1024 == 2 * inject_Z 2 ^ 1023).
  { change 1024%Z with (1 + 1023)%Z. rewrite radix_pow_split by lia. reflexivity. }
  rewrite E2 in E. clear E2.
  pose proof (radix_pow_pos 2 1023 ltac:(lia)) as Hp.
  set (P := inject_Z 2 ^ 1023) in *.
  set (G := inject_Z g) in *. set (r := PyFloat.round G) in *.
  destruct (Qabs_cases G) as [[HG EG] | [HG EG]];
    destruct (Qabs_cases r) as [[Hr Er] | [Hr Er]];
    rewrite EG in *; rewrite Er in *; clearbody P G r; lra.
Qed.

Lemma zero_display_bounds (eps : Q) :
  Qabs (0 * (119 # 100) - inject_Z 0) <= eps * Qabs (inject_Z 0) /\
  Qabs (0 + 0 - inject_Z 0) <= eps * Qabs (inject_Z 0).
Proof.
  assert (E : eps * Qabs (inject_Z 0) == 0) by (change (Qabs (inject_Z 0)) with 0; ring).
  rewrite E. split; by compute.
Qed.

(** C2: the tax decomposition is inverse-consistent.  In
    [calculate_financial_metrics] (with the default rate 1.19) the
    returned [neto], [iva] and [bruto] satisfy [neto * 1.19 = bruto] and
    [neto + iva = bruto] up to a relative error of 1e-9, one unit in the
    tenth significant digit, and [bruto] is the amount given whenever the
    exchange rate is not zero; in [_calculate_financial_totals] the
    displayed net, tax and total satisfy the same two relations up to a
    relative error of 2^-51, and the computation returns whenever the
    gross total is within the range of a float. *)
Theorem tax_decomposition_inverse_consistent :
  (forall amount exchange_rate,
     let m := calculate_financial_metrics amount exchange_rate (119 # 100) in
     (~ exchange_rate == 0 ->
        bruto m = amount /\ neto m = PyDecimal.round (amount / (119 # 100))) /\
     Qabs (neto m * (119 # 100) - bruto m) <= (1 # 1000000000) * Qabs (bruto m) /\
     Qabs (neto m + iva m - bruto m) <= (1 # 1000000000) * Qabs (bruto m)) /\
  (forall py_int isdigit self d,
     _calculate_financial_totals py_int isdigit self = Ok d ->
     Qabs (net d * (119 # 100) - inject_Z (total d))
       <= (1 # 2251799813685248) * Qabs (inject_Z (total d)) /\
     Qabs (net d + tax d - inject_Z (total d))
       <= (1 # 2251799813685248) * Qabs (inject_Z (total d))) /\
  (forall gross_total,
     Qabs (inject_Z gross_total) <= inject_Z 2 ^ 1023 ->
     exists d, tax_components gross_total = Ok d).
Proof.
  split; [| split].
  - intros amount rate m. unfold calculate_financial_metrics in m.
    change (PyDecimal.div amount (119 # 100))
      with (Ok (PyDecimal.round (amount / (119 # 100)))) in m.
    cbn [mbind result_bind bind] in m. unfold PyDecimal.div in m.
    destruct (Qeq_bool rate 0) eqn:Er.
    + subst m. cbn. split; [| apply zero_display_bounds].
      intros Hr. apply Qeq_bool_iff in Er. contradiction.
    + subst m. cbn. split; [done |]. apply decimal_tax_bounds.
  - intros py_int isdigit self d. unfold _calculate_financial_totals.
    destruct (String.eqb _ _); [intros [= <-]; apply zero_display_bounds |].
    destruct (product_pricing self !! _) as [base_price |];
      [| intros [= <-]; apply zero_display_bounds].
    match goal with
    | |- mbind _ ?c = _ -> _ => destruct c as [gross | exc]; [| done]
    end.
    cbn [mbind result_bind bind]. intros H.
    apply tax_components_ok in H as (Ht & Hn & Hx).
    rewrite Hx, Hn, Ht. apply float_tax_bounds.
  - apply tax_components_total.
Qed.

End TaxFacts.

Lemma tax_decomposition_inverse_consistent_witness :
  let py_int (s : string) :=
    if String.eqb s "3" then Some 3%Z else if String.eqb s "500" then Some 500%Z else None in
  let self := SalesEntry.mkform "Pellet Bag 15kg (Delivery)" "CASH" "Invoice" "500" "3" ""
                {[ "Pellet Bag 15kg (Delivery)"%string := 9000%Z ]} in
  exists d,
    SalesEntry._calculate_financial_totals py_int (fun _ => false) self = PyExn.Ok d /\
    SalesEntry.total d = 25500%Z /\
    (Qabs (SalesEntry.net d * (119 # 100) - inject_Z (SalesEntry.total d))
       <= (1 # 2251799813685248) * Qabs (inject_Z (SalesEntry.total d)))%Q.
Proof.
  intros py_int self.
  destruct (SalesEntry._calculate_financial_totals py_int (fun _ => false) self)
    as [d | exc] eqn:E; [| vm_compute in E; discriminate].
  exists d. split; [reflexivity |].
  destruct (proj1 (proj2 tax_decomposition_inverse_consistent)
              py_int (fun _ => false) self d E) as [H _].
  split; [| exact H].
  vm_compute in E. injection E as <-. reflexivity.
Defined.

(** ** Aggregation by branch and sales type *)
Section AggregationFacts.
Import PyStr PyExn PyDecimal Processor.
Local Open Scope Q_scope.

Lemma div_1000 x : PyDecimal.div x 1000 = Ok (PyDecimal.round (x / 1000)).
Proof. reflexivity. Qed.

Lemma div_iva x : PyDecimal.div x iva_rate = Ok (PyDecimal.round (x / (119 # 100))).
Proof. reflexivity. Qed.

(** One pass of the loop body on a complete row: the bucket of the row
    receives its contribution, the other buckets are untouched. *)
Lemma aggregate_record_bucket cats data r c :
  contribution_of r = Some c ->
  exists data', aggregate_record cats data r = Ok data' /\
    forall b k, bucket data' b k =
      if decide (row_bucket cats r = Some (b, k))
      then add_contribution (bucket data b k) c else bucket data b k.
Proof.
  unfold contribution_of, aggregate_record, row_bucket, branch_of.
  destruct (total_cantidad r) as [quantity |]; [| done].
  destruct (total_kilos r) as [kilos |]; [| done].
  destruct (row_total_neto r) as [neto |]; [| done].
  destruct (total_total r) as [total |]; [| done].
  intros [= <-].
  destruct (product_key_of _) as [key |].
  - destruct (String.eqb (PuntoVenta r) "Osorno").
    + destruct key; (eexists; split; [reflexivity |]);
        intros b k; destruct b, k; reflexivity.
    + destruct (String.eqb (PuntoVenta r) "La Unión").
      * destruct key; (eexists; split; [reflexivity |]);
          intros b k; destruct b, k; reflexivity.
      * eexists. split; [reflexivity |]. intros b k. by destruct b, k.
  - eexists. split; [reflexivity |]. intros b k. by destruct b, k.
Qed.

Lemma bucket_contributions_cons cats b k r rows c :
  contribution_of r = Some c ->
  bucket_contributions cats b k (r :: rows) =
  if decide (row_bucket cats r = Some (b, k))
  then c :: bucket_contributions cats b k rows
  else bucket_contributions cats b k rows.
Proof.
  intros Hc. unfold bucket_contributions. cbn [omap list_omap].
  destruct (decide _); [by rewrite Hc | done].
Qed.

(** The whole loop on complete rows: it returns, and each bucket is the
    fold of the contributions of its rows, in their order. *)
Lemma aggregate_records_bucket cats rows data :
  Forall complete rows ->
  exists data', aggregate_records cats data rows = Ok data' /\
    forall b k, bucket data' b k =
      fold_left add_contribution (bucket_contributions cats b k rows) (bucket data b k).
Proof.
  intros H. revert data. induction H as [| r rows [c Hc] _ IH]; intros data.
  - exists data. by split.
  - destruct (aggregate_record_bucket cats data r c Hc) as (d1 & E1 & B1).
    destruct (IH d1) as (d2 & E2 & B2).
    exists d2. split.
    + cbn [aggregate_records]. rewrite E1. exact E2.
    + intros b k. rewrite B2, B1, (bucket_contributions_cons _ _ _ _ _ c Hc).
      by destruct (decide _).
Qed.

Lemma fold_contributions_fields cs t :
  cantidad (fold_left add_contribution cs t)
    = fold_left num_add (map c_quantity cs) (cantidad t) /\
  toneladas (fold_left add_contribution cs t)
    = fold_left num_add (map (fun c => Dec (c_tons c)) cs) (toneladas t) /\
  total_neto (fold_left add_contribution cs t)
    = fold_left add (map c_neto cs) (total_neto t) /\
  total_bruto (fold_left add_contribution cs t)
    = fold_left add (map c_total cs) (total_bruto t).
Proof.
  revert t. induction cs as [| c cs IH]; intros t; [done |].
  cbn [fold_left map]. destruct (IH (add_contribution t c)) as (H1 & H2 & H3 & H4).
  by rewrite H1, H2, H3, H4.
Qed.

(** C3, as stated, fails: under the 10-digit context the order of three
    rows of one bucket changes the net total.  9999999999 + 0.4 + 0.4
    stays at 9999999999, while 0.4 + 0.4 + 9999999999 is rounded up to
    10000000000; neither is the exact sum 9999999999.8. *)
Lemma branch_totals_depend_on_order :
  let rows := [demo_row 9999999999; demo_row (4 # 10); demo_row (4 # 10)] in
  let rows' := [demo_row (4 # 10); demo_row (4 # 10); demo_row 9999999999] in
  Permutation rows rows' /\
  exists d d',
    _process_branch_sales_data demo_categories rows = Ok d /\
    _process_branch_sales_data demo_categories rows' = Ok d' /\
    total_neto (bucket d Osorno PelletLocal) == 9999999999 /\
    total_neto (bucket d' Osorno PelletLocal) == 10000000000 /\
    ~ total_neto (bucket d Osorno PelletLocal)
      == total_neto (bucket d' Osorno PelletLocal) /\
    ~ total_neto (bucket d Osorno PelletLocal)
      == exact_neto (bucket_contributions demo_categories Osorno PelletLocal rows).
Proof.
  intros rows rows'. split.
  - unfold rows, rows'.
    apply (Permutation_app_comm [demo_row 9999999999]
             [demo_row (4 # 10); demo_row (4 # 10)]).
  - eexists. eexists.
    split; [vm_compute; reflexivity |].
    split; [vm_compute; reflexivity |].
    repeat split; by vm_compute.
Qed.

(** *** Sums that need no rounding *)

Lemma on_grid_zero q : on_grid q 0.
Proof. exists 0%Z. ring. Qed.

Lemma on_grid_plus q x y : on_grid q x -> on_grid q y -> on_grid q (x + y).
Proof.
  intros [m Hm] [n Hn]. exists (m + n)%Z. rewrite inject_Z_plus, Hm, Hn. ring.
Qed.

Lemma on_grid_eq q x y : x == y -> on_grid q x -> on_grid q y.
Proof. intros E [m Hm]. exists m. by rewrite <- E. Qed.

Lemma round_exact q x :
  on_grid q x -> Qabs x < inject_Z 10 ^ (prec + q) -> PyDecimal.round x == x.
Proof.
  intros [m Hm] Hlt. by apply (round_sig_exact 10 prec q x m).
Qed.

Lemma Qsum_abs_nonneg xs : 0 <= Qsum (map Qabs xs).
Proof.
  induction xs as [| x xs IH]; [by compute |].
  cbn [map Qsum fold_right]. pose proof (Qabs_nonneg x). fold (Qsum (map Qabs xs)). lra.
Qed.

Lemma Qsum_cons x xs : Qsum (x :: xs) = x + Qsum xs.
Proof. reflexivity. Qed.

(** Folding the rounded addition over numbers that fit is the exact
    sum. *)
Lemma fold_add_exact q xs acc :
  on_grid q acc -> Forall (on_grid q) xs ->
  Qabs acc + Qsum (map Qabs xs) < inject_Z 10 ^ (prec + q) ->
  fold_left add xs acc == acc + Qsum xs.
Proof.
  intros Ha Hxs. revert acc Ha. induction Hxs as [| x xs Hx _ IH]; intros acc Ha Hb.
  - cbn. ring.
  - cbn [fold_left map] in *. rewrite !Qsum_cons in *.
    pose proof (Qsum_abs_nonneg xs) as Hnn.
    pose proof (Qabs_triangle acc x) as Htri.
    assert (Hadd : add acc x == acc + x).
    { apply (round_exact q); [by apply on_grid_plus | lra]. }
    rewrite IH.
    + rewrite Hadd. ring.
    + apply (on_grid_eq q (acc + x)); [by symmetry | by apply on_grid_plus].
    + rewrite Hadd. lra.
Qed.

Lemma num_add_exact q a b :
  on_grid q (to_decimal a) -> on_grid q (to_decimal b) ->
  Qabs (to_decimal a + to_decimal b) < inject_Z 10 ^ (prec + q) ->
  to_decimal (num_add a b) == to_decimal a + to_decimal b.
Proof.
  intros Ha Hb Hlt.
  destruct a as [x | x], b as [y | y]; cbn [num_add to_decimal] in *;
    try (apply (round_exact q); [by apply on_grid_plus | done]).
  rewrite inject_Z_plus. reflexivity.
Qed.

Lemma fold_num_add_exact q ns acc :
  on_grid q (to_decimal acc) -> Forall (on_grid q) (map to_decimal ns) ->
  Qabs (to_decimal acc) + Qsum (map Qabs (map to_decimal ns)) < inject_Z 10 ^ (prec + q) ->
  to_decimal (fold_left num_add ns acc) == to_decimal acc + Qsum (map to_decimal ns).
Proof.
  revert acc. induction ns as [| n ns IH]; intros acc Ha Hns Hb.
  - cbn. ring.
  - cbn [fold_left map] in *. rewrite !Qsum_cons in *.
    apply Forall_cons in Hns as [Hn Hns].
    pose proof (Qsum_abs_nonneg (map to_decimal ns)) as Hnn.
    pose proof (Qabs_triangle (to_decimal acc) (to_decimal n)) as Htri.
    assert (Hadd : to_decimal (num_add acc n) == to_decimal acc + to_decimal n).
    { apply (num_add_exact q); [done | done | lra]. }
    rewrite IH.
    + rewrite Hadd. ring.
    + apply (on_grid_eq q (to_decimal acc + to_decimal n));
        [by symmetry | by apply on_grid_plus].
    + done.
    + rewrite Hadd. lra.
Qed.

Lemma Qsum_Permutation xs ys : Permutation xs ys -> Qsum xs == Qsum ys.
Proof.
  induction 1 as [| x xs ys _ IH | x y xs | xs ys zs _ IH1 _ IH2].
  - reflexivity.
  - rewrite !Qsum_cons. by rewrite IH.
  - rewrite !Qsum_cons. ring.
  - by rewrite IH1.
Qed.

Lemma fits_Permutation q xs ys : Permutation xs ys -> fits q xs -> fits q ys.
Proof.
  intros Hp [Hg Hs]. split.
  - by rewrite <- Hp.
  - rewrite <- (Qsum_Permutation (map Qabs xs) (map Qabs ys)); [done |].
    by apply Permutation_map.
Qed.

(** The contributions of one bucket are among all contributions. *)
Lemma bucket_Forall cats b k rows (P : contribution -> Prop) :
  Forall P (omap contribution_of rows) ->
  Forall P (bucket_contributions cats b k rows).
Proof.
  unfold bucket_contributions.
  induction rows as [| r rows IH]; [done |].
  cbn [omap list_omap]. destruct (contribution_of r) as [c |].
  - intros [Hc Hg]%Forall_cons. destruct (decide _); [| by apply IH].
    apply Forall_cons. split; [done | by apply IH].
  - intros H. destruct (decide _); by apply IH.
Qed.

Lemma bucket_sum_le cats b k rows (f : contribution -> Q) :
  Qsum (map Qabs (map f (bucket_contributions cats b k rows)))
  <= Qsum (map Qabs (map f (omap contribution_of rows))).
Proof.
  unfold bucket_contributions.
  induction rows as [| r rows IH]; [by compute |].
  cbn [omap list_omap]. destruct (contribution_of r) as [c |].
  - cbn [map]. rewrite Qsum_cons. pose proof (Qabs_nonneg (f c)) as Hnn.
    destruct (decide _); [cbn [map]; rewrite Qsum_cons |]; lra.
  - by destruct (decide _).
Qed.

Lemma fits_bucket cats b k rows q (f : contribution -> Q) :
  fits q (map f (omap contribution_of rows)) ->
  fits q (map f (bucket_contributions cats b k rows)).
Proof.
  intros [Hg Hs]. split.
  - apply Forall_map. apply bucket_Forall. by apply Forall_map.
  - pose proof (bucket_sum_le cats b k rows f). lra.
Qed.

Lemma on_gridb_correct q x : on_gridb q x = true -> on_grid q x.
Proof.
  unfold on_gridb. intros H%Pos.eqb_eq.
  pose proof (Qred_correct (x / inject_Z 10 ^ q)) as E.
  destruct (Qred (x / inject_Z 10 ^ q)) as [m d]. simpl in H. subst d.
  exists m. pose proof (radix_pow_pos 10 q ltac:(lia)) as Hp.
  assert (E' : x == (m # 1) * inject_Z 10 ^ q) by (rewrite E; field; lra).
  rewrite E'. reflexivity.
Qed.

Lemma fitsb_correct q xs : fitsb q xs = true -> fits q xs.
Proof.
  unfold fitsb, fits. intros [H1 H2]%andb_true_iff. split.
  - apply Forall_forall. intros x Hx%list_elem_of_In.
    apply on_gridb_correct. by apply (proj1 (forallb_forall _ _) H1).
  - apply (proj2 (Qlt_alt _ _)). by destruct (Qcompare _ _).
Qed.

Lemma rows_fitb_correct qc qt qn qb rows :
  rows_fitb qc qt qn qb rows = true -> rows_fit qc qt qn qb rows.
Proof.
  unfold rows_fitb, rows_fit.
  intros [[[[H0 H1]%andb_true_iff H2]%andb_true_iff H3]%andb_true_iff H4]%andb_true_iff.
  split; [| split; [| split; [| split]]; by apply fitsb_correct].
  apply Forall_forall. intros r Hr%list_elem_of_In.
  pose proof (proj1 (forallb_forall _ _) H0 r Hr) as Hc. cbv beta in Hc.
  unfold complete.
  destruct (contribution_of r); [by eexists | done].
Qed.

Lemma bucket_exact qc qt qn qb cs :
  fits qc (map (fun c => to_decimal (c_quantity c)) cs) ->
  fits qt (map c_tons cs) -> fits qn (map c_neto cs) -> fits qb (map c_total cs) ->
  is_exact (fold_left add_contribution cs zero_totals) cs.
Proof.
  intros [Gc Sc] [Gt St] [Gn Sn] [Gb Sb].
  destruct (fold_contributions_fields cs zero_totals) as (E1 & E2 & E3 & E4).
  unfold is_exact. rewrite E1, E2, E3, E4. cbn [zero_totals cantidad toneladas
    total_neto total_bruto].
  assert (M1 : map to_decimal (map c_quantity cs)
               = map (fun c => to_decimal (c_quantity c)) cs) by apply map_map.
  assert (M2 : map to_decimal (map (fun c => Dec (c_tons c)) cs) = map c_tons cs)
    by apply map_map.
  split; [| split; [| split]].
  - rewrite (fold_num_add_exact qc).
    + rewrite M1. unfold exact_quantity. cbn [to_decimal]. change (inject_Z 0) with 0. ring.
    + apply on_grid_zero.
    + by rewrite M1.
    + rewrite M1. change (Qabs (to_decimal (Int 0))) with 0. lra.
  - rewrite (fold_num_add_exact qt).
    + rewrite M2. unfold exact_tons. cbn [to_decimal]. change (inject_Z 0) with 0. ring.
    + apply on_grid_zero.
    + by rewrite M2.
    + rewrite M2. change (Qabs (to_decimal (Int 0))) with 0. lra.
  - rewrite (fold_add_exact qn); [unfold exact_neto; ring | apply on_grid_zero | done |].
    change (Qabs 0) with 0. lra.
  - rewrite (fold_add_exact qb); [unfold exact_total; ring | apply on_grid_zero | done |].
    change (Qabs 0) with 0. lra.
Qed.

Lemma rows_fit_Permutation qc qt qn qb rows rows' :
  Permutation rows rows' -> rows_fit qc qt qn qb rows -> rows_fit qc qt qn qb rows'.
Proof.
  intros Hp (Hc & H1 & H2 & H3 & H4).
  assert (Hcs : Permutation (omap contribution_of rows) (omap contribution_of rows'))
    by (by apply omap_Permutation).
  split; [by rewrite <- Hp |].
  repeat split; (eapply fits_Permutation; [apply Permutation_map; exact Hcs | done]).
Qed.

Lemma process_exact cats qc qt qn qb rows :
  rows_fit qc qt qn qb rows ->
  exists d, _process_branch_sales_data cats rows = Ok d /\
    forall b k, is_exact (bucket d b k) (bucket_contributions cats b k rows).
Proof.
  intros (Hc & H1 & H2 & H3 & H4). unfold _process_branch_sales_data.
  destruct (aggregate_records_bucket cats rows _get_empty_branch_data Hc) as (d & E & B).
  exists d. split; [done |]. intros b k. rewrite B.
  replace (bucket _get_empty_branch_data b k) with zero_totals by (by destruct b, k).
  apply (bucket_exact qc qt qn qb); by apply fits_bucket.
Qed.

Lemma exact_Permutation cs cs' :
  Permutation cs cs' ->
  exact_quantity cs == exact_quantity cs' /\ exact_tons cs == exact_tons cs' /\
  exact_neto cs == exact_neto cs' /\ exact_total cs == exact_total cs'.
Proof.
  intros Hp. unfold exact_quantity, exact_tons, exact_neto, exact_total.
  repeat split; apply Qsum_Permutation; by apply Permutation_map.
Qed.

(** C3 (amended): for rows whose columns all hold numbers and fit the
    10-digit context (in each column the contributions are multiples of
    a common power of ten and the sum of their magnitudes has at most
    ten digits above it), [_process_branch_sales_data] returns, every
    permutation of the rows returns the same totals, and each total is
    the exact sum of the contributions of the rows of its branch and
    sales type: the quantity, the kilos divided by 1000, the neto and
    the total. *)
Theorem branch_totals_order_independent cats qc qt qn qb rows rows' :
  Permutation rows rows' ->
  rows_fit qc qt qn qb rows ->
  exists d d',
    _process_branch_sales_data cats rows = Ok d /\
    _process_branch_sales_data cats rows' = Ok d' /\
    forall b k,
      totals_eq (bucket d b k) (bucket d' b k) /\
      is_exact (bucket d b k) (bucket_contributions cats b k rows).
Proof.
  intros Hp Hfit.
  pose proof (rows_fit_Permutation _ _ _ _ _ _ Hp Hfit) as Hfit'.
  destruct (process_exact cats _ _ _ _ rows Hfit) as (d & E & X).
  destruct (process_exact cats _ _ _ _ rows' Hfit') as (d' & E' & X').
  exists d, d'. split; [done |]. split; [done |].
  intros b k. split; [| apply X].
  destruct (X b k) as (A1 & A2 & A3 & A4). destruct (X' b k) as (B1 & B2 & B3 & B4).
  assert (Hbc : Permutation (bucket_contributions cats b k rows)
                  (bucket_contributions cats b k rows'))
    by (by apply omap_Permutation).
  destruct (exact_Permutation _ _ Hbc) as (P1 & P2 & P3 & P4).
  unfold totals_eq, num_eq.
  rewrite A1, A2, A3, A4, B1, B2, B3, B4. done.
Qed.

End AggregationFacts.

Lemma branch_totals_order_independent_witness :
  exists d d',
    Processor._process_branch_sales_data Processor.demo_categories Processor.sample_rows
      = PyExn.Ok d /\
    Processor._process_branch_sales_data Processor.demo_categories
      (rev Processor.sample_rows) = PyExn.Ok d' /\
    forall b k,
      Processor.totals_eq (Processor.bucket d b k) (Processor.bucket d' b k) /\
      Processor.is_exact (Processor.bucket d b k)
        (Processor.bucket_contributions Processor.demo_categories b k
           Processor.sample_rows).
Proof.
  apply (branch_totals_order_independent Processor.demo_categories 0 (-4) (-2) 0).
  - apply Permutation_rev.
  - apply rows_fitb_correct. vm_compute. reflexivity.
Defined.

(** ** Daily product summary *)
Section DailySummaryFacts.
Import PyStr PyExn PyDecimal Processor Processor.DailySummary.
Local Open Scope Q_scope.

Lemma dict_get_set_eq {V} k (v : V) d : dict_get k (dict_set k v d) = Some v.
Proof.
  induction d as [| [k' v'] d IH]; cbn [dict_set dict_get].
  - by rewrite String.eqb_refl.
  - destruct (String.eqb k k') eqn:E; cbn [dict_get]; by rewrite E.
Qed.

Lemma dict_get_set_ne {V} k k' (v : V) d :
  k <> k' -> dict_get k' (dict_set k v d) = dict_get k' d.
Proof.
  intros Hne. induction d as [| [k0 v0] d IH]; cbn [dict_set dict_get].
  - destruct (String.eqb_spec k' k); [congruence | done].
  - destruct (String.eqb_spec k k0) as [-> | Hk]; cbn [dict_get].
    + destruct (String.eqb_spec k' k0); [congruence | done].
    + destruct (String.eqb k' k0); [done | apply IH].
Qed.



(** The second loop gives an entry its derived keys and leaves the
    accumulators alone. *)
Lemma financial_metrics_ok rate e e' :
  financial_metrics rate e = Ok e' ->
  derived e' /\ cantidad e' = cantidad e /\ total_bruto e' = total_bruto e /\
  kilos e' = kilos e.
Proof.
  unfold financial_metrics. rewrite div_iva, div_1000.
  cbn [mbind result_bind bind].
  destruct (PyDecimal.div (total_bruto e) rate) as [usd | exc]; [| done].
  cbn [mbind result_bind bind]. intros [= <-]. by repeat split.
Qed.

Lemma financial_metrics_returns rate e :
  ~ rate == 0 -> exists e', financial_metrics rate e = Ok e'.
Proof.
  intros Hr. unfold financial_metrics. rewrite div_iva, div_1000.
  cbn [mbind result_bind bind]. unfold PyDecimal.div.
  destruct (Qeq_bool rate 0) eqn:E; [apply Qeq_bool_iff in E; contradiction |].
  by eexists.
Qed.


Lemma all_financial_metrics_get rate s s' p :
  all_financial_metrics rate s = Ok s' ->
  match dict_get p s with
  | Some e => exists e', financial_metrics rate e = Ok e' /\ dict_get p s' = Some e'
  | None => dict_get p s' = None
  end.
Proof.
  revert s'. induction s as [| [k e] s IH]; intros s'; cbn [all_financial_metrics].
  - by intros [= <-].
  - destruct (financial_metrics rate e) as [e' |] eqn:E; [| done].
    cbn [mbind result_bind bind].
    destruct (all_financial_metrics rate s) as [rest |]; [| done].
    cbn [mbind result_bind bind]. intros [= <-]. cbn [dict_get].
    destruct (String.eqb p k); [by exists e' | by apply IH].
Qed.

Lemma all_financial_metrics_returns rate s :
  ~ rate == 0 -> exists s', all_financial_metrics rate s = Ok s'.
Proof.
  intros Hr. induction s as [| [k e] s [rest IH]]; [by eexists |].
  destruct (financial_metrics_returns rate e Hr) as [e' E].
  cbn [all_financial_metrics]. rewrite E, IH. by eexists.
Qed.


Lemma add_category_get rate name unit0 names s s' p :
  add_category rate name unit0 names s = Ok s' ->
  p <> name -> dict_get p s' = dict_get p s.
Proof.
  unfold add_category. destruct (0 <? _)%Z; [| by intros [= <-]].
  destruct (financial_metrics rate _) as [t |]; [| done].
  cbn [mbind result_bind bind]. intros [= <-] Hne.
  apply dict_get_set_ne. congruence.
Qed.

Lemma add_category_returns rate name unit0 names s :
  ~ rate == 0 -> exists s', add_category rate name unit0 names s = Ok s'.
Proof.
  intros Hr. unfold add_category. destruct (0 <? _)%Z; [| by eexists].
  destruct (financial_metrics_returns rate (category_total unit0 names s) Hr) as [t E].
  rewrite E. by eexists.
Qed.

Lemma add_record_get cats s r s' p :
  add_record cats s r = Ok s' ->
  exists v, record_values r = Some v /\
    dict_get p s' =
      if decide (producto r = p)
      then Some (accumulate v.1.1 v.1.2 v.2 (default (fresh_entry cats p) (dict_get p s)))
      else dict_get p s.
Proof.
  unfold add_record, record_values, int_of, decimal_of_str.
  destruct (raw_cantidad r) as [c |]; [| done].
  destruct (raw_total r) as [t |]; [| done].
  cbn [mbind result_bind bind]. intros [= <-]. eexists. split; [reflexivity |].
  destruct (decide (producto r = p)) as [<- | Hne].
  - by rewrite dict_get_set_eq.
  - by rewrite dict_get_set_ne.
Qed.

Lemma add_record_returns cats s r :
  is_Some (record_values r) -> exists s', add_record cats s r = Ok s'.
Proof.
  unfold add_record, record_values, int_of, decimal_of_str. intros [v Hv].
  destruct (raw_cantidad r) as [c |]; [| done].
  destruct (raw_total r) as [t |]; [| done]. by eexists.
Qed.

Lemma add_records_returns cats raw s :
  Forall (fun r => is_Some (record_values r)) raw ->
  exists s', add_records cats s raw = Ok s'.
Proof.
  intros H. revert s. induction H as [| r raw Hr _ IH]; intros s; [by eexists |].
  destruct (add_record_returns cats s r Hr) as [s1 E1]. destruct (IH s1) as [s' E'].
  exists s'. cbn [add_records]. by rewrite E1.
Qed.

(** After the first loop the entry of a product is the fold of the
    [+=] over its records; a product without records has no entry of its
    own. *)
Lemma add_records_get cats raw s s' p :
  add_records cats s raw = Ok s' ->
  dict_get p s' =
    match product_values p raw with
    | [] => dict_get p s
    | vals => Some (accumulate_values vals (default (fresh_entry cats p) (dict_get p s)))
    end.
Proof.
  revert s. induction raw as [| r raw IH]; intros s; cbn [add_records].
  - by intros [= <-].
  - destruct (add_record cats s r) as [s1 |] eqn:E1; [| done].
    cbn [mbind result_bind bind]. intros E'.
    destruct (add_record_get cats s r s1 p E1) as (v & Hv & Hg).
    rewrite (IH s1 E'). unfold product_values. cbn [omap list_omap].
    fold (product_values p raw).
    destruct (decide (producto r = p)) as [Heq | Hne].
    + rewrite Hv, Hg. cbn [default]. by destruct (product_values p raw).
    + by rewrite Hg.
Qed.

Lemma accumulate_values_fields vals e :
  cantidad (accumulate_values vals e)
    = fold_left Z.add (map (fun v => v.1.1) vals) (cantidad e) /\
  total_bruto (accumulate_values vals e)
    = fold_left add (map (fun v => v.1.2) vals) (total_bruto e) /\
  kilos (accumulate_values vals e)
    = fold_left num_add (map (fun v => v.2) vals) (kilos e).
Proof.
  revert e. induction vals as [| v vals IH]; intros e; [done |].
  unfold accumulate_values in *. cbn [fold_left map].
  destruct (IH (accumulate v.1.1 v.1.2 v.2 e)) as (H1 & H2 & H3).
  by rewrite H1, H2, H3.
Qed.

(** The entry of a product after the first loop carries its accumulated
    quantity, gross total and kilos. *)
Lemma add_records_accumulated cats raw s p e :
  add_records cats [] raw = Ok s -> dict_get p s = Some e ->
  cantidad e = product_cantidad p raw /\ total_bruto e = product_bruto p raw /\
  kilos e = product_kilos p raw.
Proof.
  intros Hs He. rewrite (add_records_get cats raw [] s p Hs) in He.
  unfold product_cantidad, product_bruto, product_kilos.
  destruct (product_values p raw) as [| v vals] eqn:Ev; [done |].
  cbn [dict_get default] in He. injection He as <-.
  exact (accumulate_values_fields (v :: vals) (fresh_entry cats p)).
Qed.




End DailySummaryFacts.


Example summary_sample_values :
  let self := Processor.mkprocessor 945 ∅ ∅ Processor.demo_categories in
  option_map
    (fun data => (Processor.DailySummary.kilos data,
                  Processor.DailySummary.toneladas data,
                  Processor.DailySummary.total_neto data))
    (Processor.DailySummary.dict_get "Pellet Bolsa 15 Kg (Retiro)"
       (Processor.DailySummary.process_daily_sales_summary self
          Processor.DailySummary.sample_records))
  = Some (PyDecimal.Int 75, Some (3 # 40)%Q, Some (3571428571 # 100000)%Q).
Proof. vm_compute. reflexivity. Qed.

(** ** Placeholders and parameters of the search query *)
Section PlaceholderFacts.
Import PyStr PyDate QueryBuilder Placeholders.
Variable str_strip : string -> string.

Lemma scan_app p (a b : string) :
  scan p (a +:+ b) = (scan p a + scan (state_after p a) b)%nat.
Proof.
  revert p. induction a as [| c a IH]; intros p; [done |].
  change (String c a +:+ b) with (String c (a +:+ b)).
  cbn [scan state_after]. rewrite IH. lia.
Qed.

Lemma state_after_app p (a b : string) :
  state_after p (a +:+ b) = state_after (state_after p a) b.
Proof.
  revert p. induction a as [| c a IH]; intros p; [done |].
  change (String c a +:+ b) with (String c (a +:+ b)).
  cbn [state_after]. apply IH.
Qed.

(** [n] markers joined by a comma and a space. *)
Lemma scan_placeholders n p :
  scan p (placeholders n) = n /\
  state_after p (placeholders n) = match n with O => p | _ => false end.
Proof.
  unfold placeholders. revert p. induction n as [| n IH]; intros p; [done |].
  destruct n as [| n].
  - by destruct p.
  - change (join ", " (repeat "%s"%string (S (S n))))
      with ("%s, " +:+ join ", " (repeat "%s"%string (S n))).
    rewrite scan_app, state_after_app.
    destruct (IH (state_after p "%s, ")) as [IH1 IH2].
    rewrite IH1, IH2. by destruct p.
Qed.

Lemma scan_in_condition prefix n p :
  (forall q, scan q prefix = O) -> (forall q, state_after q prefix = false) ->
  scan p (prefix +:+ placeholders n +:+ ")") = n /\
  state_after p (prefix +:+ placeholders n +:+ ")") = false.
Proof.
  intros Hs Ha. rewrite !scan_app, !state_after_app, Hs, Ha.
  destruct (scan_placeholders n false) as [E1 E2].
  rewrite E1, E2. split; [by destruct n; cbn; lia | by destruct n].
Qed.

Lemma scan_join_clean cs p :
  Forall clean cs -> cs <> [] ->
  scan p (join " AND " cs) = fold_right (fun c n => (scan false c + n)%nat) O cs /\
  state_after p (join " AND " cs) = false.
Proof.
  intros H. revert p. induction H as [| c cs (C1 & C2 & C3) Hcs IH]; intros p Hne; [done |].
  destruct cs as [| c' cs].
  - cbn [join fold_right]. destruct p; rewrite ?C2, ?C3, ?C1; split; lia || done.
  - change (join " AND " (c :: c' :: cs)) with (c +:+ " AND " +:+ join " AND " (c' :: cs)).
    rewrite !scan_app, !state_after_app.
    assert (E : state_after p c = false) by (destruct p; done).
    rewrite E.
    destruct (IH (state_after false " AND ") ltac:(done)) as [IH1 IH2].
    rewrite IH1, IH2. split; [| done].
    cbn [fold_right]. destruct p; rewrite ?C2; cbn; lia.
Qed.

Lemma clean_in_condition prefix n :
  (forall q, scan q prefix = O) -> (forall q, state_after q prefix = false) ->
  clean (prefix +:+ placeholders n +:+ ")") /\
  scan false (prefix +:+ placeholders n +:+ ")") = n.
Proof.
  intros Hs Ha.
  destruct (scan_in_condition prefix n false Hs Ha) as [E1 E2].
  destruct (scan_in_condition prefix n true Hs Ha) as [E3 E4].
  split; [| done]. split; [done |]. split; [lia | done].
Qed.

Lemma conditions_of_shape_clean sh :
  Forall clean (conditions_of_shape sh) /\
  fold_right (fun c n => (scan false c + n)%nat) O (conditions_of_shape sh)
    = parameter_count sh.
Proof.
  unfold conditions_of_shape, parameter_count.
  destruct sh as [dates nb nt tt np tp dn]. cbn [sh_dates sh_branches sh_doc_types
    sh_doc_types_todo sh_products sh_products_todo sh_doc_number].
  assert (Cb := clean_in_condition "PuntoVenta IN (" nb
                  ltac:(by intros []) ltac:(by intros [])).
  assert (Ct := clean_in_condition "TipoDocumento IN (" nt
                  ltac:(by intros []) ltac:(by intros [])).
  assert (Cp := clean_in_condition "Articulo IN (" np
                  ltac:(by intros []) ltac:(by intros [])).
  destruct Cb as [Cb Sb], Ct as [Ct St], Cp as [Cp Sp].
  set (cb := "PuntoVenta IN (" +:+ placeholders nb +:+ ")") in *.
  set (ct := "TipoDocumento IN (" +:+ placeholders nt +:+ ")") in *.
  set (cp := "Articulo IN (" +:+ placeholders np +:+ ")") in *.
  assert (Cd1 : clean "Fecha = %s") by (by repeat split).
  assert (Cd2 : clean "Fecha BETWEEN %s AND %s") by (by repeat split).
  assert (Cn : clean "NumeroDocumento = %s") by (by repeat split).
  assert (S1 : scan false "Fecha = %s" = 1%nat) by reflexivity.
  assert (S2 : scan false "Fecha BETWEEN %s AND %s" = 2%nat) by reflexivity.
  assert (Sn : scan false "NumeroDocumento = %s" = 1%nat) by reflexivity.
  split.
  - repeat apply Forall_app_2.
    + destruct dates; by (apply Forall_nil || apply Forall_singleton).
    + destruct (0 <? nb)%nat; by (apply Forall_nil || apply Forall_singleton).
    + destruct (_ && _); by (apply Forall_nil || apply Forall_singleton).
    + destruct (_ && _); by (apply Forall_nil || apply Forall_singleton).
    + destruct dn; by (apply Forall_nil || apply Forall_singleton).
  - rewrite !foldr_app.
    destruct (0 <? nb)%nat eqn:Eb; [| apply Nat.ltb_ge in Eb];
      destruct (0 <? nt)%nat eqn:Et; [| apply Nat.ltb_ge in Et | | apply Nat.ltb_ge in Et];
      destruct (0 <? np)%nat eqn:Ep;
      try apply Nat.ltb_ge in Ep;
      destruct tt, tp, dn, dates; cbn [andb negb fold_right app];
      rewrite ?Sb, ?St, ?Sp, ?S1, ?S2, ?Sn; lia.
Qed.

(** The values bound by the five steps, in their order. *)
Lemma parameters_listed f :
  parameters str_strip f =
  match date_mode_of f, start_date f, end_date f with
  | SameDay, Some s, _ => [PDate s]
  | DateRange, Some s, Some e => [PDate s; PDate e]
  | _, _, _ => []
  end
  ++ map PStr (branches f)
  ++ (if has_todo (document_types f) then [] else map PStr (document_types f))
  ++ (if has_todo (products f) then [] else map PStr (products f))
  ++ (if truthy (str_strip (document_number f)) then [PStr (str_strip (document_number f))] else []).
Proof.
  unfold parameters, collect, add_doc_number, add_products, add_doc_types,
    add_branches, add_dates, date_mode_of, push.
  destruct (start_date f) as [s |], (end_date f) as [e |];
    try destruct (decide (s = e));
    destruct (branches f) as [| b bs]; destruct (document_types f) as [| t ts];
    destruct (products f) as [| q qs];
    cbn [nonempty andb length Nat.ltb Nat.leb map fst snd app];
    repeat match goal with
           | |- context [has_todo ?l] => destruct (has_todo l)
           end;
    cbn [negb andb fst snd app];
    destruct (truthy (str_strip (document_number f)));
    cbn [fst snd app]; rewrite ?app_nil_r, <- ?app_assoc; reflexivity.
Qed.

Lemma parameters_length f : length (parameters str_strip f) = parameter_count (shape_of str_strip f).
Proof.
  rewrite parameters_listed. unfold parameter_count, shape_of, date_mode_of.
  cbn [sh_dates sh_branches sh_doc_types sh_doc_types_todo sh_products
       sh_products_todo sh_doc_number].
  rewrite !length_app.
  destruct (start_date f) as [s |], (end_date f) as [e |];
    try destruct (decide (s = e));
    destruct (has_todo (document_types f)), (has_todo (products f)),
      (truthy (str_strip (document_number f)));
    cbn [length]; rewrite ?length_map; lia.
Qed.

(** X1: the query text returned by [build_search_query] holds exactly as
    many [%s] markers as the parameter tuple holds values, so that
    [cursor.execute(query, parameters)] never meets a missing or a
    surplus value. *)
Theorem placeholders_match_parameters f :
  count_placeholders (build_search_query str_strip f).1 = length (build_search_query str_strip f).2.
Proof.
  unfold build_search_query, count_placeholders, where_clause. cbn [fst snd].
  rewrite parameters_length, conditions_shape.
  destruct (conditions_of_shape_clean (shape_of str_strip f)) as [Hclean Hcount].
  rewrite !scan_app, ?state_after_app.
  destruct (conditions_of_shape (shape_of str_strip f)) as [| c cs] eqn:Ecs.
  - cbn [nonempty fold_right] in *. rewrite <- Hcount. reflexivity.
  - cbn [nonempty].
    destruct (scan_join_clean (c :: cs)
                (state_after (state_after false base_query) " WHERE ") Hclean
                ltac:(done)) as [E1 E2].
    rewrite E1, E2, Hcount. cbn. lia.
Qed.

End PlaceholderFacts.

(** ** Input validation and letter case *)
Section CaseFacts.
Import PyStr InputValidation.

Lemma upper_app (a b : string) : upper (a +:+ b) = upper a +:+ upper b.
Proof.
  induction a as [| c a IH]; [done |].
  change (String c a +:+ b) with (String c (a +:+ b)).
  cbn [upper]. rewrite IH. reflexivity.
Qed.

Lemma upper_nonempty (s : string) : upper s <> ""%string -> s <> ""%string.
Proof. by destruct s. Qed.

Lemma keyword_not_empty k : k ∈ dangerous_keywords -> k <> ""%string.
Proof.
  unfold dangerous_keywords. intros H ->.
  repeat (apply elem_of_cons in H as [H | H]; [discriminate |]).
  by apply elem_of_nil in H.
Qed.

(** X2: with ASCII upper-casing, a keyword of the list is found whatever
    the case of its letters: a value containing a fragment whose
    upper-case form is a listed keyword (drop, Select, uNiOn, ...) is
    rejected for every input type, and so is every value containing
    [--], [/*], [*/] or [;]. *)
Theorem keywords_rejected_in_any_case int_parses strptime_parses
    value input_type fragment pre post :
  upper fragment ∈ dangerous_keywords ->
  value = pre +:+ fragment +:+ post ->
  validate_input upper int_parses strptime_parses value input_type = false.
Proof.
  intros Hk ->. unfold validate_input.
  assert (Hne : fragment <> ""%string).
  { apply upper_nonempty. by apply keyword_not_empty. }
  assert (Ht : truthy (pre +:+ fragment +:+ post) = true).
  { destruct pre as [| c pre]; [| done]. destruct fragment; [done | done]. }
  rewrite Ht. cbn [negb].
  assert (E : existsb (fun k => contains k (upper (pre +:+ fragment +:+ post)))
                dangerous_keywords = true).
  { apply existsb_exists. exists (upper fragment). split.
    - by apply list_elem_of_In.
    - apply contains_spec. exists (upper pre), (upper post).
      by rewrite !upper_app. }
  by rewrite E.
Qed.

End CaseFacts.

Lemma keywords_rejected_in_any_case_witness :
  InputValidation.validate_input PyStr.upper (fun _ => true) (fun _ => true)
    "x' uNiOn sElEcT 1" "text" = false.
Proof.
  apply (keywords_rejected_in_any_case (fun _ => true) (fun _ => true)
           "x' uNiOn sElEcT 1" "text" "uNiOn" "x' " " sElEcT 1").
  - unfold InputValidation.dangerous_keywords. cbn [PyStr.upper].
    repeat constructor.
  - reflexivity.
Defined.

(** ** Life of a cache entry *)
Section CacheLifeFacts.
Import PyStr PyDate PyExn PyDecimal Processor.

Lemma branch_sales_key_inj s e s' e' :
  valid s -> valid e -> valid s' -> valid e' ->
  branch_sales_key s e = branch_sales_key s' e' -> s = s' /\ e = e'.
Proof.
  intros Hs He Hs' He'. unfold branch_sales_key.
  intros H%append_prefix_inj.
  apply (isoformat_app_inj s s') in H as [-> H]; [| done ..].
  apply append_prefix_inj in H.
  assert (H' : isoformat e +:+ "" = isoformat e' +:+ "") by (by rewrite H).
  by apply (isoformat_app_inj e e') in H' as [-> _].
Qed.

Lemma cache_put_valid self key v stamp now :
  0 <= now - stamp < 300 * 1000000 ->
  _is_cache_valid now (cache_put self key v stamp) key = true.
Proof.
  intros H.
  apply (cache_valid_first_day now (cache_put self key v stamp) key v stamp).
  - cbn. apply lookup_insert_eq.
  - cbn. apply lookup_insert_eq.
  - lia.
  - lia.
Qed.

(** The entry of a pair of dates and its time stamp outlive the cached
    queries made while it is fresh. *)
Lemma entry_kept stored p q s e data :
  calls_within stored p q ->
  data_cache p !! branch_sales_key s e = Some data ->
  last_cache_update p !! branch_sales_key s e = Some stored ->
  data_cache q !! branch_sales_key s e = Some data /\
  last_cache_update q !! branch_sales_key s e = Some stored.
Proof.
  intros Hcalls Hd Ht.
  induction Hcalls as [p | db nc ns p q s' e' _ IH Hnc | db nc ns p q s' e' _ IH Hnc];
    [done | |]; destruct (IH Hd Ht) as [IHd IHt].
  - unfold get_sales_by_branch_data.
    destruct (decide (branch_sales_key s' e' = branch_sales_key s e)) as [E | Hne].
    + rewrite E.
      rewrite (proj2 (cache_valid_first_day nc q _ data stored IHd IHt ltac:(lia))
                 ltac:(lia)).
      done.
    + destruct (_is_cache_valid nc q _); [done |].
      destruct (branch_sales_body db q s' e'); [| done].
      cbn. by rewrite !lookup_insert_ne.
  - unfold get_monthly_sales_by_branch_data.
    destruct (_is_cache_valid nc q _); [done |].
    destruct (monthly_body db q s' e'); [| done].
    cbn. by rewrite !lookup_insert_ne by apply monthly_key_not_branch.
Qed.

(** X3: a result computed on a cache miss is served again, unchanged and
    without looking at the database, by every call for the same dates
    made less than 300 seconds after it was stored, whatever cached
    queries, for these or for other dates, were made in between; a
    [clear_cache] in between is the one thing that ends it. *)
Theorem fresh_result_is_reused
    db db' now_check now_store later now_store' self s e data q :
  _is_cache_valid now_check self (branch_sales_key s e) = false ->
  branch_sales_body db self s e = Ok data ->
  let first := get_sales_by_branch_data db now_check now_store self s e in
  calls_within now_store first.2 q ->
  0 <= later - now_store < 300 * 1000000 ->
  first.1 = Ok data /\
  get_sales_by_branch_data db' later now_store' q s e = (Ok data, q).
Proof.
  intros Hmiss Hbody first.
  assert (E : first = (Ok data, cache_put self (branch_sales_key s e) data now_store)).
  { unfold first, get_sales_by_branch_data. by rewrite Hmiss, Hbody. }
  rewrite E. cbn [fst snd]. intros Hcalls Hlater. split; [done |].
  destruct (entry_kept now_store _ q s e data Hcalls) as [Hd Ht].
  { cbn. apply lookup_insert_eq. }
  { cbn. apply lookup_insert_eq. }
  unfold get_sales_by_branch_data.
  rewrite (proj2 (cache_valid_first_day later q _ data now_store Hd Ht ltac:(lia))
             ltac:(lia)).
  unfold cache_get. by rewrite Hd.
Qed.

(** X4: on every processor reached from a fresh one the two dictionaries
    of the cache hold the same keys: a stored result always has its time
    stamp, and a time stamp its result. *)
Theorem cache_dictionaries_in_step self key :
  reachable self ->
  is_Some (data_cache self !! key) <-> is_Some (last_cache_update self !! key).
Proof.
  intros H. revert key.
  induction H as [rate cats | db nc ns self s0 e0 _ IH Hs0 He0
                  | db nc ns self s0 e0 _ IH Hs0 He0 | self _ IH]; intros key.
  - cbn. by rewrite !lookup_empty.
  - unfold get_sales_by_branch_data.
    destruct (_is_cache_valid _ _ _); [apply IH |].
    destruct (branch_sales_body db self s0 e0); [| apply IH].
    cbn. destruct (decide (branch_sales_key s0 e0 = key)) as [<- | Hne].
    + rewrite !lookup_insert_eq. split; by eexists.
    + rewrite !lookup_insert_ne by done. apply IH.
  - unfold get_monthly_sales_by_branch_data.
    destruct (_is_cache_valid _ _ _); [apply IH |].
    destruct (monthly_body db self s0 e0); [| apply IH].
    cbn. destruct (decide (monthly_key s0 e0 = key)) as [<- | Hne].
    + rewrite !lookup_insert_eq. split; by eexists.
    + rewrite !lookup_insert_ne by done. apply IH.
  - cbn. by rewrite !lookup_empty.
Qed.

(** X5: a query for one pair of dates leaves the cached results of every
    other pair as they were: the entry of another pair of calendar dates
    is neither replaced nor refreshed, and stays valid exactly as
    before. *)
Theorem other_date_pairs_untouched db now_check now_store self s e s' e' now :
  valid s -> valid e -> valid s' -> valid e' -> (s, e) <> (s', e') ->
  let after := (get_sales_by_branch_data db now_check now_store self s e).2 in
  data_cache after !! branch_sales_key s' e' = data_cache self !! branch_sales_key s' e' /\
  last_cache_update after !! branch_sales_key s' e'
    = last_cache_update self !! branch_sales_key s' e' /\
  _is_cache_valid now after (branch_sales_key s' e')
    = _is_cache_valid now self (branch_sales_key s' e').
Proof.
  intros Hs He Hs' He' Hne after.
  assert (Hk : branch_sales_key s e <> branch_sales_key s' e').
  { intros [-> ->]%branch_sales_key_inj; done. }
  assert (E : data_cache after !! branch_sales_key s' e'
              = data_cache self !! branch_sales_key s' e' /\
              last_cache_update after !! branch_sales_key s' e'
              = last_cache_update self !! branch_sales_key s' e').
  { unfold after, get_sales_by_branch_data.
    destruct (_is_cache_valid _ _ _); [done |].
    destruct (branch_sales_body db self s e); [| done].
    cbn. by rewrite !lookup_insert_ne. }
  destruct E as [E1 E2]. split; [done |]. split; [done |].
  unfold _is_cache_valid, datetime in *. by rewrite E1, E2.
Qed.

End CacheLifeFacts.

Lemma fresh_result_is_reused_witness :
  let self := Processor.mkprocessor 945 ∅ ∅ Processor.demo_categories in
  let db : Processor.database := fun _ _ => Processor.Rows Processor.sample_rows in
  let down : Processor.database := fun _ _ => Processor.DbRaises PyExn.MySQLError in
  let s := PyDate.mkdate 2024 5 1 in
  let e := PyDate.mkdate 2024 5 31 in
  let first := Processor.get_sales_by_branch_data db 0 0 self s e in
  let other :=
    (Processor.get_sales_by_branch_data db 100000000 100000000 first.2
       (PyDate.mkdate 2024 6 1) (PyDate.mkdate 2024 6 30)).2 in
  let again := (Processor.get_sales_by_branch_data down 150000000 150000000 other s e).2 in
  let q :=
    (Processor.get_monthly_sales_by_branch_data db 200000000 200000000 again s e).2 in
  exists data,
    first.1 = PyExn.Ok data /\
    Processor.get_sales_by_branch_data down 299999999 299999999 q s e
      = (PyExn.Ok data, q).
Proof.
  intros self db down s e first other again q.
  destruct (Processor.branch_sales_body db self s e) as [data | exc] eqn:E;
    [| vm_compute in E; discriminate].
  exists data.
  apply (fresh_result_is_reused db down 0 0 299999999 299999999 self s e data q).
  - reflexivity.
  - exact E.
  - apply Processor.monthly_call; [| lia].
    apply Processor.branch_call; [| lia].
    apply Processor.branch_call; [| lia].
    apply Processor.no_call.
  - lia.
Defined.

Lemma cache_dictionaries_in_step_witness :
  let self := Processor.mkprocessor 945 ∅ ∅ Processor.demo_categories in
  let db : Processor.database := fun _ _ => Processor.Rows Processor.sample_rows in
  let after := (Processor.get_sales_by_branch_data db 0 0 self
                  (PyDate.mkdate 2024 5 1) (PyDate.mkdate 2024 5 31)).2 in
  is_Some (Processor.data_cache after !! "branch_sales_2024-05-01_2024-05-31"%string) <->
  is_Some (Processor.last_cache_update after !! "branch_sales_2024-05-01_2024-05-31"%string).
Proof.
  intros self db after.
  apply (cache_dictionaries_in_step after).
  apply Processor.reach_branch.
  - apply Processor.reach_init.
  - repeat split; vm_compute; discriminate.
  - repeat split; vm_compute; discriminate.
Defined.

Lemma other_date_pairs_untouched_witness :
  let self := Processor.mkprocessor 945 ∅ ∅ Processor.demo_categories in
  let db : Processor.database := fun _ _ => Processor.Rows Processor.sample_rows in
  let after := (Processor.get_sales_by_branch_data db 0 0 self
                  (PyDate.mkdate 2024 5 1) (PyDate.mkdate 2024 5 31)).2 in
  Processor._is_cache_valid 5 after
    (Processor.branch_sales_key (PyDate.mkdate 2024 5 1) (PyDate.mkdate 2024 5 30))
  = Processor._is_cache_valid 5 self
      (Processor.branch_sales_key (PyDate.mkdate 2024 5 1) (PyDate.mkdate 2024 5 30)).
Proof.
  intros self db after.
  apply (other_date_pairs_untouched db 0 0 self
           (PyDate.mkdate 2024 5 1) (PyDate.mkdate 2024 5 31)
           (PyDate.mkdate 2024 5 1) (PyDate.mkdate 2024 5 30) 5).
  - repeat split; vm_compute; discriminate.
  - repeat split; vm_compute; discriminate.
  - repeat split; vm_compute; discriminate.
  - repeat split; vm_compute; discriminate.
  - intros [= H].
Defined.

(** ** Further properties of the branch aggregation *)
Section AggregationMoreFacts.
Import PyStr PyDate PyExn PyDecimal Processor Aggregation.
Local Open Scope Q_scope.

(** X6: the three decimal conversions come before the row is classified
    and the quantity after: a row of an unknown product or of another
    branch leaves the totals as they are whatever its quantity column
    holds, provided its total, neto and kilos are numbers; and a row
    lacking one of these three makes the loop raise even when it would
    have been skipped. *)
Theorem skipped_rows_change_nothing cats data r :
  (row_bucket cats r = None ->
   is_Some (total_total r) -> is_Some (row_total_neto r) -> is_Some (total_kilos r) ->
   aggregate_record cats data r = Ok data) /\
  (total_total r = None \/ row_total_neto r = None \/ total_kilos r = None ->
   raises (aggregate_record cats data r)).
Proof.
  split.
  - unfold row_bucket, branch_of, aggregate_record.
    intros Hb [total ->] [neto ->] [kilos ->].
    cbn [decimal_of_str mbind result_bind bind].
    rewrite div_1000. cbn [bind].
    destruct (product_key_of _) as [key |]; [| done].
    destruct (String.eqb (PuntoVenta r) "Osorno"); [done |].
    by destruct (String.eqb (PuntoVenta r) "La Unión").
  - unfold aggregate_record, raises.
    destruct (total_total r) as [total |]; [| intros _; by eexists].
    destruct (row_total_neto r) as [neto |]; [| intros _; by eexists].
    destruct (total_kilos r) as [kilos |]; [| intros _; by eexists].
    intros [H | [H | H]]; discriminate.
Qed.

(** X7: the monthly aggregation is the branch processing of the rows of
    all the months put end to end: for a start date in the years 1 to
    9998, [get_monthly_sales_by_branch_data] computes what
    [_process_branch_sales_data] gives on the rows of the months from
    the start month to the end month of the start year, each month
    queried from its first to its last day. *)
Theorem monthly_is_processing_of_all_rows db self s e :
  (1 <= year s <= 9998)%Z -> (1 <= month s)%Z -> (month e <= 12)%Z ->
  monthly_body db self s e =
  _process_branch_sales_data (product_categories self)
    (monthly_rows db (year s) (range (month s) (month e + 1))).
Proof.
  intros Hy Hs He. rewrite monthly_body_months by done.
  unfold _process_branch_sales_data. apply aggregate_months_rows; [lia |].
  apply Forall_forall. intros m Hm%range_upper. lia.
Qed.

(** *** Signs *)

Lemma round_nonneg x : 0 <= x -> 0 <= PyDecimal.round x.
Proof.
  intros Hx. pose proof (decimal_round_error x) as H.
  apply Qabs_Qle_condition in H. rewrite (Qabs_pos x Hx) in H. lra.
Qed.

Lemma num_add_nonneg a b :
  0 <= to_decimal a -> 0 <= to_decimal b -> 0 <= to_decimal (num_add a b).
Proof.
  intros Ha Hb. destruct a as [x | x], b as [y | y]; cbn [num_add to_decimal] in *;
    try (apply round_nonneg; lra).
  rewrite inject_Z_plus. lra.
Qed.

Lemma add_to_totals_nonneg t quantity tons neto total t' :
  nonneg_totals t -> nonneg_column quantity -> 0 <= tons -> 0 <= neto -> 0 <= total ->
  add_to_totals t quantity tons neto total = Ok t' -> nonneg_totals t'.
Proof.
  intros (T1 & T2 & T3 & T4) Hq Htons Hneto Htotal. unfold add_to_totals, iadd.
  destruct quantity as [n |]; [| done]. cbn [mbind result_bind bind]. intros [= <-].
  unfold nonneg_totals. cbn [cantidad toneladas total_neto total_bruto].
  split; [by apply num_add_nonneg |]. split; [by apply num_add_nonneg |].
  split; apply round_nonneg; lra.
Qed.

Lemma add_to_sales_nonneg sales key quantity tons neto total sales' :
  nonneg_totals (venta_local sales) -> nonneg_totals (venta_distribuidor sales) ->
  nonneg_column quantity -> 0 <= tons -> 0 <= neto -> 0 <= total ->
  add_to_sales sales key quantity tons neto total = Ok sales' ->
  nonneg_totals (venta_local sales') /\ nonneg_totals (venta_distribuidor sales').
Proof.
  intros Hl Hd Hq Htons Hneto Htotal. unfold add_to_sales.
  destruct key.
  - destruct (add_to_totals (venta_local sales) _ _ _ _) as [t |] eqn:E; [| done].
    cbn [mbind result_bind bind]. intros [= <-]. split; [| done].
    by apply (add_to_totals_nonneg _ _ _ _ _ _ Hl Hq Htons Hneto Htotal E).
  - destruct (add_to_totals (venta_distribuidor sales) _ _ _ _) as [t |] eqn:E; [| done].
    cbn [mbind result_bind bind]. intros [= <-]. split; [done |].
    by apply (add_to_totals_nonneg _ _ _ _ _ _ Hd Hq Htons Hneto Htotal E).
Qed.

(** One turn of the loop keeps every total at or above zero. *)
Lemma aggregate_record_nonneg cats data r data' :
  nonneg_row r -> (forall b k, nonneg_totals (bucket data b k)) ->
  aggregate_record cats data r = Ok data' ->
  forall b k, nonneg_totals (bucket data' b k).
Proof.
  intros (Hq & Hk & Hn & Ht) Hdata. unfold aggregate_record.
  destruct (total_total r) as [total |]; [| done].
  destruct (row_total_neto r) as [neto |]; [| done].
  destruct (total_kilos r) as [kilos |]; [| done].
  cbn [decimal_of_str mbind result_bind bind]. rewrite div_1000.
  cbn [mbind result_bind bind]. cbn [nonneg_column] in Hk, Hn, Ht.
  assert (Htons : 0 <= round (to_decimal kilos / 1000)).
  { apply round_nonneg. apply Qmult_le_0_compat; [done | by compute]. }
  destruct (product_key_of _) as [key |]; [| by intros [= <-]].
  destruct (String.eqb (PuntoVenta r) "Osorno").
  - destruct (add_to_sales (osorno_data data) _ _ _ _ _) as [sales |] eqn:E; [| done].
    cbn [mbind result_bind bind]. intros [= <-].
    destruct (add_to_sales_nonneg _ _ _ _ _ _ _ (Hdata Osorno PelletLocal)
                (Hdata Osorno PelletDistribuidor) Hq Htons Hn Ht E) as [H1 H2].
    intros [] []; cbn [bucket osorno_data union_data]; try done.
    + apply (Hdata LaUnion PelletLocal).
    + apply (Hdata LaUnion PelletDistribuidor).
  - destruct (String.eqb (PuntoVenta r) "La Unión"); [| by intros [= <-]].
    destruct (add_to_sales (union_data data) _ _ _ _ _) as [sales |] eqn:E; [| done].
    cbn [mbind result_bind bind]. intros [= <-].
    destruct (add_to_sales_nonneg _ _ _ _ _ _ _ (Hdata LaUnion PelletLocal)
                (Hdata LaUnion PelletDistribuidor) Hq Htons Hn Ht E) as [H1 H2].
    intros [] []; cbn [bucket osorno_data union_data]; try done.
    + apply (Hdata Osorno PelletLocal).
    + apply (Hdata Osorno PelletDistribuidor).
Qed.

Lemma aggregate_records_nonneg cats rows data data' :
  Forall nonneg_row rows -> (forall b k, nonneg_totals (bucket data b k)) ->
  aggregate_records cats data rows = Ok data' ->
  forall b k, nonneg_totals (bucket data' b k).
Proof.
  intros Hrows. revert data.
  induction Hrows as [| r rows Hr _ IH]; intros data Hdata; [by intros [= <-] |].
  cbn [aggregate_records].
  destruct (aggregate_record cats data r) as [data1 |] eqn:E; [| done].
  cbn [mbind result_bind bind]. apply IH.
  by apply (aggregate_record_nonneg cats data r).
Qed.

(** X8: the loop keeps the signs: whenever [_process_branch_sales_data]
    returns on rows none of whose quantity, kilos, neto and total
    columns holds a negative number, the quantity, the tons, the net and
    the gross total of every branch and sales type are at least zero,
    the roundings of the context included.  (A NULL column holds no
    negative number; on a counted row it makes the function raise.) *)
Theorem totals_never_negative cats rows d :
  Forall nonneg_row rows ->
  _process_branch_sales_data cats rows = Ok d ->
  forall b k, nonneg_totals (bucket d b k).
Proof.
  intros Hrows E. apply (aggregate_records_nonneg cats rows _get_empty_branch_data);
    [done | | done].
  intros [] []; repeat split; by compute.
Qed.

End AggregationMoreFacts.

Lemma skipped_rows_change_nothing_witness :
  let other := Processor.mkrow "Valdivia" "Pellet Bolsa 15 Kg (Retiro)"
                 (Some (PyDecimal.Int 15)) None (Some (PyDecimal.Int 8500))
                 (Some (PyDecimal.Int 7143)) in
  Processor.aggregate_record Processor.demo_categories
    Processor._get_empty_branch_data other
  = PyExn.Ok Processor._get_empty_branch_data /\
  PyExn.raises
    (Processor.aggregate_record Processor.demo_categories
       Processor._get_empty_branch_data Processor.null_total_row).
Proof.
  intros other. split.
  - apply (proj1 (skipped_rows_change_nothing Processor.demo_categories
                    Processor._get_empty_branch_data other)).
    + reflexivity.
    + by eexists.
    + by eexists.
    + by eexists.
  - apply (proj2 (skipped_rows_change_nothing Processor.demo_categories
                    Processor._get_empty_branch_data Processor.null_total_row)).
    left. reflexivity.
Defined.

Lemma monthly_is_processing_of_all_rows_witness :
  let self := Processor.mkprocessor 945 ∅ ∅ Processor.demo_categories in
  let db : Processor.database := fun _ _ => Processor.Rows Processor.sample_rows in
  Processor.monthly_body db self (PyDate.mkdate 2024 4 1) (PyDate.mkdate 2024 6 30)
  = Processor._process_branch_sales_data Processor.demo_categories
      (Aggregation.monthly_rows db 2024 [4; 5; 6]%Z).
Proof.
  intros self db.
  apply (monthly_is_processing_of_all_rows db self
           (PyDate.mkdate 2024 4 1) (PyDate.mkdate 2024 6 30)); simpl; lia.
Defined.

Lemma totals_never_negative_witness :
  exists d,
    Processor._process_branch_sales_data Processor.demo_categories Processor.sample_rows
      = PyExn.Ok d /\
    forall b k, Aggregation.nonneg_totals (Processor.bucket d b k).
Proof.
  destruct (Processor._process_branch_sales_data Processor.demo_categories
              Processor.sample_rows) as [d |] eqn:E; [| vm_compute in E; discriminate].
  exists d. split; [reflexivity |].
  apply (totals_never_negative Processor.demo_categories Processor.sample_rows d);
    [| exact E].
  unfold Processor.sample_rows.
  repeat (apply Forall_cons; split); [| | | apply Forall_nil; exact I];
    (repeat split; by compute).
Defined.

(** ** Further properties of the daily summary *)
Section SummaryMoreFacts.
Import PyStr PyExn PyDecimal Processor Processor.DailySummary SummaryVocabulary.
Local Open Scope Q_scope.

Lemma dict_set_keys {V} k (v : V) d :
  map fst (dict_set k v d) =
  if bool_decide (k ∈ map fst d) then map fst d else map fst d ++ [k].
Proof.
  induction d as [| [k' v'] d IH]; [done |].
  cbn [dict_set map fst]. destruct (String.eqb_spec k k') as [-> | Hne].
  - cbn [map fst]. rewrite bool_decide_eq_true_2; [done | apply list_elem_of_here].
  - cbn [map fst]. rewrite IH.
    destruct (bool_decide (k ∈ map fst d)) eqn:E.
    + apply bool_decide_eq_true in E.
      rewrite bool_decide_eq_true_2; [done | by apply list_elem_of_further].
    + apply bool_decide_eq_false in E.
      rewrite bool_decide_eq_false_2; [done |].
      intros [? | ?]%elem_of_cons; done.
Qed.

Lemma dict_set_NoDup {V} k (v : V) d :
  NoDup (map fst d) -> NoDup (map fst (dict_set k v d)).
Proof.
  intros H. rewrite dict_set_keys.
  destruct (bool_decide (k ∈ map fst d)) eqn:E; [done |].
  apply bool_decide_eq_false in E. apply NoDup_app. split; [done |].
  split; [| apply NoDup_singleton].
  intros x Hx ->%list_elem_of_singleton. done.
Qed.

Lemma dict_set_keys_in {V} k (v : V) d x :
  x ∈ map fst (dict_set k v d) -> x = k \/ x ∈ map fst d.
Proof.
  rewrite dict_set_keys. destruct (bool_decide _); [by right |].
  intros [H | ->%list_elem_of_singleton]%elem_of_app; [by right | by left].
Qed.

Lemma all_financial_metrics_keys rate s s' :
  all_financial_metrics rate s = Ok s' -> map fst s' = map fst s.
Proof.
  revert s'. induction s as [| [k e] s IH]; intros s'; cbn [all_financial_metrics].
  - by intros [= <-].
  - destruct (financial_metrics rate e) as [e' |]; [| done].
    cbn [mbind result_bind bind].
    destruct (all_financial_metrics rate s) as [rest |]; [| done].
    cbn [mbind result_bind bind]. intros [= <-]. cbn [map fst]. by rewrite (IH rest).
Qed.

Lemma add_records_keys cats raw s s' :
  add_records cats s raw = Ok s' ->
  (NoDup (map fst s) -> NoDup (map fst s')) /\
  (forall x, x ∈ map fst s' -> x ∈ map fst s \/ exists r, r ∈ raw /\ producto r = x).
Proof.
  revert s. induction raw as [| r raw IH]; intros s; cbn [add_records].
  - intros [= <-]. split; [done | by left].
  - destruct (add_record cats s r) as [s1 |] eqn:E1; [| done].
    cbn [mbind result_bind bind]. intros E'.
    destruct (IH s1 E') as [N K].
    assert (Es1 : exists e, s1 = dict_set (producto r) e s).
    { unfold add_record in E1.
      destruct (int_of (raw_cantidad r)) as [q |]; [| done].
      destruct (decimal_of_str (raw_total r)) as [t |]; [| done].
      cbn [mbind result_bind bind] in E1. injection E1 as <-. by eexists. }
    destruct Es1 as [e ->]. split.
    + intros Hs. apply N. by apply dict_set_NoDup.
    + intros x Hx. destruct (K x Hx) as [Hin | (r' & Hr' & Hp)].
      * apply dict_set_keys_in in Hin as [-> | Hin]; [| by left].
        right. exists r. split; [apply list_elem_of_here | done].
      * right. exists r'. split; [by apply list_elem_of_further | done].
Qed.

Lemma add_category_keys rate name unit0 names s s' :
  add_category rate name unit0 names s = Ok s' ->
  (NoDup (map fst s) -> NoDup (map fst s')) /\
  (forall x, x ∈ map fst s' -> x = name \/ x ∈ map fst s).
Proof.
  unfold add_category. destruct (0 <? _)%Z; [| intros [= <-]; split; [done | by right]].
  destruct (financial_metrics rate _) as [t |]; [| done].
  cbn [mbind result_bind bind]. intros [= <-]. split.
  - apply dict_set_NoDup.
  - intros x. apply dict_set_keys_in.
Qed.

(** The steps of the function, or the empty dictionary. *)
Lemma process_daily_cases self raw :
  process_daily_sales_summary self raw = [] \/
  exists s1 s2 s3,
    add_records (product_categories self) [] raw = Ok s1 /\
    all_financial_metrics (exchange_rate self) s1 = Ok s2 /\
    add_category (exchange_rate self) "Total Pellet" "bolsas"
      (PELLET_PRODUCTS (product_categories self)) s2 = Ok s3 /\
    add_category (exchange_rate self) "Total Vacam" "total"
      (VACAM_PRODUCTS (product_categories self)) s3
      = Ok (process_daily_sales_summary self raw).
Proof.
  unfold process_daily_sales_summary, _add_category_totals.
  destruct (add_records (product_categories self) [] raw) as [s1 |] eqn:E1;
    [| by left].
  cbn [mbind result_bind bind].
  destruct (all_financial_metrics (exchange_rate self) s1) as [s2 |] eqn:E2;
    [| by left].
  cbn [mbind result_bind bind].
  destruct (add_category (exchange_rate self) "Total Pellet" "bolsas"
              (PELLET_PRODUCTS (product_categories self)) s2) as [s3 |] eqn:E3;
    [| by left].
  cbn [mbind result_bind bind].
  destruct (add_category (exchange_rate self) "Total Vacam" "total"
              (VACAM_PRODUCTS (product_categories self)) s3) as [s4 |] eqn:E4;
    [| by left].
  right. by exists s1, s2, s3.
Qed.

(** X9: the keys of the returned summary are pairwise distinct, and
    each of them is the product name of some raw record or one of the
    two category totals: nothing else is ever reported. *)
Theorem summary_keys_come_from_records self raw :
  NoDup (map fst (process_daily_sales_summary self raw)) /\
  forall k, k ∈ map fst (process_daily_sales_summary self raw) -> summary_key raw k.
Proof.
  destruct (process_daily_cases self raw) as [-> | (s1 & s2 & s3 & E1 & E2 & E3 & E4)].
  - split; [apply NoDup_nil; done | by intros k ?%elem_of_nil].
  - destruct (add_records_keys _ _ _ _ E1) as [N1 K1].
    pose proof (all_financial_metrics_keys _ _ _ E2) as K2.
    destruct (add_category_keys _ _ _ _ _ _ E3) as [N3 K3].
    destruct (add_category_keys _ _ _ _ _ _ E4) as [N4 K4].
    split.
    + apply N4, N3. rewrite K2. apply N1. apply NoDup_nil. done.
    + intros k Hk. unfold summary_key.
      destruct (K4 k Hk) as [-> | Hk3]; [by right; left |].
      destruct (K3 k Hk3) as [-> | Hk2]; [by left |].
      rewrite K2 in Hk2. destruct (K1 k Hk2) as [Hnil | Hr].
      * by apply elem_of_nil in Hnil.
      * by right; right.
Qed.

(** The entries after the second loop carry the accumulations of the
    first. *)
Lemma product_entry_after_metrics cats rate raw s1 s2 p :
  add_records cats [] raw = Ok s1 -> all_financial_metrics rate s1 = Ok s2 ->
  match dict_get p s2 with
  | Some e =>
      cantidad e = product_cantidad p raw /\ total_bruto e = product_bruto p raw /\
      kilos e = product_kilos p raw /\ derived e
  | None => product_values p raw = []
  end.
Proof.
  intros E1 E2. pose proof (all_financial_metrics_get _ _ _ p E2) as G.
  destruct (dict_get p s1) as [e |] eqn:G1.
  - destruct G as (e' & Ef & ->).
    destruct (financial_metrics_ok _ _ _ Ef) as (Hd & Hc & Hb & Hk).
    destruct (add_records_accumulated _ _ _ _ _ E1 G1) as (Ac & Ab & Ak).
    rewrite Hc, Hb, Hk. done.
  - rewrite G. rewrite (add_records_get _ _ _ _ p E1) in G1.
    by destruct (product_values p raw).
Qed.

Lemma category_total_fold (names : list string) (s : summary) (acc : entry) :
  let step := fun acc product =>
    match dict_get product s with
    | Some e =>
        mkentry (cantidad acc + cantidad e)%Z (add (total_bruto acc) (total_bruto e))
          (Dec (add (to_decimal (kilos acc)) (to_decimal (kilos e))))
          (unit acc) None None None
    | None => acc
    end in
  cantidad (fold_left step names acc) =
    fold_left Z.add
      (map (fun p => match dict_get p s with Some e => cantidad e | None => 0%Z end) names)
      (cantidad acc) /\
  unit (fold_left step names acc) = unit acc.
Proof.
  intros step. revert acc. induction names as [| p names IH]; intros acc; [done |].
  cbn [fold_left map]. destruct (IH (step acc p)) as [H1 H2]. rewrite H1, H2.
  unfold step. destruct (dict_get p s); [done |]. by rewrite Z.add_0_r.
Qed.

Lemma process_daily_success self raw :
  Forall (fun r => is_Some (record_values r)) raw -> ~ exchange_rate self == 0 ->
  exists s1 s2 s3,
    add_records (product_categories self) [] raw = Ok s1 /\
    all_financial_metrics (exchange_rate self) s1 = Ok s2 /\
    add_category (exchange_rate self) "Total Pellet" "bolsas"
      (PELLET_PRODUCTS (product_categories self)) s2 = Ok s3 /\
    add_category (exchange_rate self) "Total Vacam" "total"
      (VACAM_PRODUCTS (product_categories self)) s3
      = Ok (process_daily_sales_summary self raw).
Proof.
  intros Hall Hrate.
  destruct (add_records_returns (product_categories self) raw [] Hall) as [s1 E1].
  destruct (all_financial_metrics_returns (exchange_rate self) s1 Hrate) as [s2 E2].
  destruct (add_category_returns (exchange_rate self) "Total Pellet" "bolsas"
              (PELLET_PRODUCTS (product_categories self)) s2 Hrate) as [s3 E3].
  destruct (add_category_returns (exchange_rate self) "Total Vacam" "total"
              (VACAM_PRODUCTS (product_categories self)) s3 Hrate) as [s4 E4].
  exists s1, s2, s3. split; [done |]. split; [done |]. split; [done |].
  unfold process_daily_sales_summary, _add_category_totals.
  rewrite E1. cbn [mbind result_bind bind]. rewrite E2. cbn [mbind result_bind bind].
  rewrite E3. cbn [mbind result_bind bind]. by rewrite E4.
Qed.

Lemma no_record_no_values p raw :
  (forall r, r ∈ raw -> producto r <> p) -> product_values p raw = [].
Proof.
  unfold product_values. induction raw as [| r raw IH]; intros H; [done |].
  cbn [omap list_omap]. rewrite decide_False by (apply H, list_elem_of_here).
  apply IH. intros r' Hr'. apply H. by apply list_elem_of_further.
Qed.

(** X10: when every record converts and the exchange rate is not zero,
    the summary holds a "Total Pellet" entry, in "bolsas", exactly when
    the quantities accumulated for the names of [PELLET_PRODUCTS] add up
    to more than zero, and its quantity is that sum; when they do not
    and no product bears that name, there is no such entry. *)
Theorem total_pellet_sums_quantities self raw :
  Forall (fun r => is_Some (record_values r)) raw -> ~ exchange_rate self == 0 ->
  ((0 < pellet_cantidad (product_categories self) raw)%Z ->
   exists t, dict_get "Total Pellet" (process_daily_sales_summary self raw) = Some t /\
     cantidad t = pellet_cantidad (product_categories self) raw /\
     unit t = "bolsas"%string /\ derived t) /\
  ((pellet_cantidad (product_categories self) raw <= 0)%Z ->
   (forall r, r ∈ raw -> producto r <> "Total Pellet"%string) ->
   dict_get "Total Pellet" (process_daily_sales_summary self raw) = None).
Proof.
  intros Hall Hrate.
  destruct (process_daily_success self raw Hall Hrate) as (s1 & s2 & s3 & E1 & E2 & E3 & E4).
  rewrite (add_category_get _ _ _ _ _ _ "Total Pellet" E4 ltac:(done)).
  destruct (category_total_fold (PELLET_PRODUCTS (product_categories self)) s2
              (new_entry (Dec 0) "bolsas")) as [Hc Hu].
  fold (category_total "bolsas" (PELLET_PRODUCTS (product_categories self)) s2) in Hc, Hu.
  assert (Hsum : cantidad (category_total "bolsas"
                   (PELLET_PRODUCTS (product_categories self)) s2)
                 = pellet_cantidad (product_categories self) raw).
  { rewrite Hc. unfold pellet_cantidad. cbn [new_entry cantidad]. f_equal.
    apply map_ext. intros p.
    pose proof (product_entry_after_metrics _ _ _ _ _ p E1 E2) as G.
    destruct (dict_get p s2) as [e |]; [by destruct G as (-> & _) |].
    unfold product_cantidad. by rewrite G. }
  unfold add_category in E3. rewrite Hsum in E3. split.
  - intros Hpos. rewrite (proj2 (Z.ltb_lt _ _) Hpos) in E3.
    destruct (financial_metrics _ _) as [t |] eqn:Ef; [| done].
    cbn [mbind result_bind bind] in E3. injection E3 as <-.
    exists t. rewrite dict_get_set_eq. split; [done |].
    destruct (financial_metrics_ok _ _ _ Ef) as (Hd & Hq & _).
    split; [by rewrite Hq |]. split; [| done].
    unfold financial_metrics in Ef. rewrite div_iva, div_1000 in Ef.
    cbn [mbind result_bind bind] in Ef.
    destruct (PyDecimal.div _ (exchange_rate self)); [| done].
    cbn [mbind result_bind bind] in Ef. injection Ef as <-. exact Hu.
  - intros Hle Hno. rewrite (proj2 (Z.ltb_ge _ _) Hle) in E3. injection E3 as <-.
    pose proof (product_entry_after_metrics _ _ _ _ _ "Total Pellet" E1 E2) as G.
    destruct (dict_get "Total Pellet" s2) as [e |] eqn:Ge; [| done].
    pose proof (add_records_get _ _ _ _ "Total Pellet" E1) as G1.
    rewrite (no_record_no_values _ _ Hno) in G1. cbn [dict_get] in G1.
    pose proof (all_financial_metrics_get _ _ _ "Total Pellet" E2) as G2.
    rewrite G1 in G2. congruence.
Qed.

Lemma add_record_raises cats s r :
  record_values r = None -> raises (add_record cats s r).
Proof.
  unfold record_values, add_record, int_of, decimal_of_str, raises.
  destruct (raw_cantidad r); [| by eexists].
  destruct (raw_total r); [done | by eexists].
Qed.

Lemma add_records_raises cats s raw r :
  r ∈ raw -> record_values r = None -> raises (add_records cats s raw).
Proof.
  intros Hin Hr. revert s. induction raw as [| r0 raw IH]; intros s;
    [by apply elem_of_nil in Hin |].
  cbn [add_records]. destruct (add_record cats s r0) as [s1 |] eqn:E1;
    [| by eexists].
  cbn [mbind result_bind bind]. apply elem_of_cons in Hin as [-> | Hin].
  - destruct (add_record_raises cats s r0 Hr) as [exc E]. congruence.
  - by apply IH.
Qed.

(** X11: the summary is all or nothing: one record whose quantity or
    total is [None], anywhere in the list, or an exchange rate of zero,
    makes the function return the empty dictionary, whatever the other
    records hold. *)
Theorem one_bad_record_empties_summary self raw :
  (exists r, r ∈ raw /\ record_values r = None) \/ exchange_rate self == 0 ->
  process_daily_sales_summary self raw = [].
Proof.
  intros [(r & Hin & Hr) | Hrate]; unfold process_daily_sales_summary.
  - destruct (add_records_raises (product_categories self) [] raw r Hin Hr) as [exc ->].
    reflexivity.
  - destruct (add_records (product_categories self) [] raw) as [s1 |]; [| done].
    cbn [mbind result_bind bind]. destruct s1 as [| [k e] s1].
    + cbn [all_financial_metrics mbind result_bind bind].
      unfold _add_category_totals, add_category.
      assert (Hz : forall u names, cantidad (category_total u names []) = 0%Z).
      { intros u names. unfold category_total.
        induction names as [| p names IH]; [done | exact IH]. }
      rewrite Hz. cbn [Z.ltb Z.compare mbind result_bind bind]. by rewrite Hz.
    + cbn [all_financial_metrics]. unfold financial_metrics.
      rewrite div_iva. cbn [mbind result_bind bind]. unfold PyDecimal.div.
      by rewrite (proj2 (Qeq_bool_iff _ _) Hrate).
Qed.

Lemma fold_default_kilos vals q0 :
  Forall (fun v : Z * Q * num => v.2 = Int (v.1.1 * 15)) vals ->
  fold_left num_add (map (fun v => v.2) vals) (Int (15 * q0))
  = Int (15 * fold_left Z.add (map (fun v => v.1.1) vals) q0).
Proof.
  intros H. revert q0. induction H as [| v vals Hv _ IH]; intros q0; [done |].
  cbn [map fold_left]. rewrite Hv. cbn [num_add].
  replace (15 * q0 + v.1.1 * 15)%Z with (15 * (q0 + v.1.1))%Z by lia. apply IH.
Qed.

Lemma product_values_default p raw :
  (forall r, r ∈ raw -> producto r = p -> raw_kilos r = None) ->
  Forall (fun v : Z * Q * num => v.2 = Int (v.1.1 * 15)) (product_values p raw).
Proof.
  unfold product_values. induction raw as [| r raw IH]; intros H; [by apply Forall_nil |].
  cbn [omap list_omap].
  assert (IH' := IH (fun r' Hr' => H r' (list_elem_of_further _ _ _ Hr'))).
  destruct (decide (producto r = p)) as [Hp | Hp]; [| exact IH'].
  unfold record_values. rewrite (H r (list_elem_of_here _ _) Hp).
  destruct (raw_cantidad r); [| exact IH']. destruct (raw_total r); [| exact IH'].
  apply Forall_cons. split; [reflexivity | exact IH'].
Qed.

(** X12: a product that is not named like one of the two category totals
    ("Total Pellet", "Total Vacam") and none of whose records has a
    [kilos] key is counted at 15 kilograms per unit: in the returned
    summary its kilos are exactly fifteen times its quantity.  (The
    entry of a product named like a category total may be overwritten
    by that total.) *)
Theorem missing_kilos_default_to_fifteen self raw product data :
  (forall r, r ∈ raw -> producto r = product -> raw_kilos r = None) ->
  product <> "Total Pellet"%string -> product <> "Total Vacam"%string ->
  dict_get product (process_daily_sales_summary self raw) = Some data ->
  kilos data = Int (15 * cantidad data).
Proof.
  intros Hk Hp Hv Hget.
  destruct (process_daily_cases self raw) as [E | (s1 & s2 & s3 & E1 & E2 & E3 & E4)].
  - rewrite E in Hget. discriminate.
  - rewrite (add_category_get _ _ _ _ _ _ product E4 Hv) in Hget.
    rewrite (add_category_get _ _ _ _ _ _ product E3 Hp) in Hget.
    pose proof (product_entry_after_metrics _ _ _ _ _ product E1 E2) as G.
    rewrite Hget in G. destruct G as (-> & _ & -> & _).
    unfold product_kilos, product_cantidad.
    apply (fold_default_kilos (product_values product raw) 0).
    by apply product_values_default.
Qed.

End SummaryMoreFacts.

Lemma total_pellet_sums_quantities_witness :
  let self := Processor.mkprocessor 945 ∅ ∅ Processor.demo_categories in
  exists t,
    Processor.DailySummary.dict_get "Total Pellet"
      (Processor.DailySummary.process_daily_sales_summary self
         Processor.DailySummary.sample_records) = Some t /\
    Processor.DailySummary.cantidad t = 5%Z.
Proof.
  intros self.
  destruct (total_pellet_sums_quantities self Processor.DailySummary.sample_records)
    as [H _].
  - unfold Processor.DailySummary.sample_records.
    repeat (apply Forall_cons; split); [| | | apply Forall_nil; exact I]; by eexists.
  - by compute.
  - destruct H as (t & Ht & Hc & _); [reflexivity |].
    exists t. split; [exact Ht |]. rewrite Hc. reflexivity.
Defined.

Lemma one_bad_record_empties_summary_witness :
  let self := Processor.mkprocessor 945 ∅ ∅ Processor.demo_categories in
  let bad := Processor.DailySummary.mkrecord "Astillas" (Some (PyDecimal.Int 1)) None None in
  Processor.DailySummary.process_daily_sales_summary self
    (Processor.DailySummary.sample_records ++ [bad]) = [].
Proof.
  intros self bad. apply one_bad_record_empties_summary. left.
  exists bad. split; [| reflexivity].
  apply elem_of_app. right. apply list_elem_of_here.
Defined.

Lemma missing_kilos_default_to_fifteen_witness :
  let self := Processor.mkprocessor 945 ∅ ∅ Processor.demo_categories in
  let raw := [Processor.DailySummary.mkrecord "Astillas" (Some (PyDecimal.Int 4))
                (Some (PyDecimal.Int 10000)) None;
              Processor.DailySummary.mkrecord "Astillas" (Some (PyDecimal.Int 2))
                (Some (PyDecimal.Int 5000)) None] in
  exists data,
    Processor.DailySummary.dict_get "Astillas"
      (Processor.DailySummary.process_daily_sales_summary self raw) = Some data /\
    Processor.DailySummary.kilos data
      = PyDecimal.Int (15 * Processor.DailySummary.cantidad data).
Proof.
  intros self raw.
  destruct (Processor.DailySummary.dict_get "Astillas"
              (Processor.DailySummary.process_daily_sales_summary self raw))
    as [data |] eqn:E; [| vm_compute in E; discriminate].
  exists data. split; [reflexivity |].
  apply (missing_kilos_default_to_fifteen self raw "Astillas" data);
    [| discriminate | discriminate | exact E].
  intros r Hr _. unfold raw in Hr.
  apply elem_of_cons in Hr as [-> | Hr]; [reflexivity |].
  apply elem_of_cons in Hr as [-> | Hr]; [reflexivity |].
  by apply elem_of_nil in Hr.
Defined.

(** ** Date ranges inside an accepted range *)
Section DateRangeMoreFacts.
Import PyDate Processor.

Lemma ltb_false_toordinal a b :
  valid a -> valid b -> ltb a b = false <-> toordinal b <= toordinal a.
Proof.
  intros Ha Hb. rewrite <- not_true_iff_false, (ltb_toordinal a b Ha Hb). lia.
Qed.

(** X13: acceptance is inherited by sub-ranges and by later days: when a
    range of calendar dates is accepted today, every range of calendar
    dates that starts no earlier, ends no later and is itself in order
    is accepted today and on every later day. *)
Theorem accepted_range_contains_accepted_ranges
    today later start_date end_date inner_start inner_end :
  valid today -> valid later -> valid start_date -> valid end_date ->
  valid inner_start -> valid inner_end ->
  validate_date_range today start_date end_date business_start_date = true ->
  ltb inner_start start_date = false ->
  gtb inner_start inner_end = false ->
  gtb inner_end end_date = false ->
  ltb later today = false ->
  validate_date_range later inner_start inner_end business_start_date = true.
Proof.
  intros Ht Hl Hs He His Hie Hok H1 H2 H3 H4.
  apply (validate_date_range_ordinals today start_date end_date Ht Hs He) in Hok.
  apply (validate_date_range_ordinals later inner_start inner_end Hl His Hie).
  unfold gtb in *.
  apply (ltb_false_toordinal _ _ His Hs) in H1.
  apply (ltb_false_toordinal _ _ Hie His) in H2.
  apply (ltb_false_toordinal _ _ He Hie) in H3.
  apply (ltb_false_toordinal _ _ Hl Ht) in H4.
  lia.
Qed.

End DateRangeMoreFacts.

Lemma accepted_range_contains_accepted_ranges_witness :
  Processor.validate_date_range (PyDate.mkdate 2026 12 25) (PyDate.mkdate 2025 2 28)
    (PyDate.mkdate 2026 3 1) Processor.business_start_date = true.
Proof.
  apply (accepted_range_contains_accepted_ranges
           (PyDate.mkdate 2026 11 4) (PyDate.mkdate 2026 12 25)
           (PyDate.mkdate 2024 12 1) (PyDate.mkdate 2026 11 4)
           (PyDate.mkdate 2025 2 28) (PyDate.mkdate 2026 3 1));
    try reflexivity; repeat split; vm_compute; discriminate.
Defined.

(** ** The validation report *)
Section IntegrityFacts.
Import Integrity.
Variable float_parses : string -> bool.
Variable str_failure : failure -> string.


Lemma required_in_step i r fields st :
  in_step st -> in_step (foldl (check_required i r) st fields).
Proof.
  revert st. induction fields as [| f fields IH]; intros st H; [done |].
  cbn [foldl]. apply IH. unfold check_required.
  destruct (r !! f) as [[] |]; try done;
    (split; [done | intros E; by apply app_eq_nil in E as [_ ?]]).
Qed.

Lemma numeric_in_step i r fields st st' :
  in_step st -> foldl (check_numeric float_parses i r) (inr st) fields = inr st' -> in_step st'.
Proof.
  revert st. induction fields as [| f fields IH]; intros st H E.
  - cbn in E. by injection E as <-.
  - cbn [foldl] in E. unfold Integrity.check_numeric at 2 in E.
    destruct (r !! f) as [v |]; [| by apply (IH st)].
    destruct (to_float float_parses v).
    + by apply (IH st).
    + eapply IH; [| exact E].
      split; [done | intros E'; by apply app_eq_nil in E' as [_ ?]].
    + exfalso. clear -E. induction fields as [| g fields IH']; [done | by apply IH'].
Qed.

Lemma negative_in_step r field text st st' :
  in_step st -> check_negative r field text st = inr st' -> in_step st'.
Proof.
  unfold check_negative. intros H E.
  destruct (negative _) as [| []]; [done | |]; by injection E as <-.
Qed.

Lemma record_in_step i r st st' :
  in_step st -> validate_record float_parses i r st = inr st' -> in_step st'.
Proof.
  unfold Integrity.validate_record. intros H E.
  destruct (foldl _ (inr _) numeric_fields) as [| st1] eqn:E1; [done |].
  apply numeric_in_step in E1; [| by apply required_in_step].
  destruct (check_negative r "total_cantidad" _ st1) as [| st2] eqn:E2; [done |].
  apply negative_in_step in E2; [| done].
  by apply negative_in_step in E.
Qed.

Lemma records_in_step data i st st' :
  in_step st -> validate_records float_parses i data st = inr st' -> in_step st'.
Proof.
  revert i st. induction data as [| r data IH]; intros i st H E.
  - cbn in E. by injection E as <-.
  - cbn [Integrity.validate_records] in E.
    destruct (validate_record float_parses i r st) as [| st1] eqn:E1; [done |].
    eapply IH; [| exact E]. by eapply record_in_step.
Qed.

(** X14: in every report the function returns, [is_valid] is [True]
    exactly when the list of issues is empty; warnings never lower the
    flag. *)
Theorem valid_iff_no_issue data :
  is_valid (validate_data_integrity float_parses str_failure data) = true <->
  issues (validate_data_integrity float_parses str_failure data) = [].
Proof.
  unfold Integrity.validate_data_integrity.
  destruct (validate_records float_parses 0 data (true, [], [])) as [f | st] eqn:E; [done |].
  by apply (records_in_step data 0 (true, [], []) st).
Qed.

Lemma required_flag i r fields st :
  (foldl (check_required i r) st fields).1.1
  = st.1.1 && forallb (fun field => given (r !! field)) fields.
Proof.
  revert st. induction fields as [| f fields IH]; intros st.
  - cbn. by rewrite andb_true_r.
  - cbn [foldl forallb]. rewrite IH. unfold check_required.
    destruct (r !! f) as [[] |]; cbn [given fst snd];
      by rewrite ?andb_true_l, ?andb_false_l, ?andb_false_r.
Qed.

Lemma numeric_stuck i r fields f :
  foldl (check_numeric float_parses i r) (inl f) fields = inl f.
Proof. induction fields as [| g fields IH]; [done | exact IH]. Qed.

Lemma numeric_flag i r fields st :
  match foldl (check_numeric float_parses i r) (inr st) fields with
  | inr st' =>
      st'.1.1 = st.1.1 && forallb (fun field => converts float_parses (r !! field)) fields
      /\ forallb (fun field => in_range float_parses (r !! field)) fields = true
  | inl _ => forallb (fun field => in_range float_parses (r !! field)) fields = false
  end.
Proof.
  revert st. induction fields as [| f fields IH]; intros st.
  - cbn. by rewrite andb_true_r.
  - cbn [foldl forallb]. unfold Integrity.check_numeric at 2.
    unfold converts, in_range.
    destruct (r !! f) as [v |]; [| exact (IH st)].
    destruct (to_float float_parses v) as [| | g].
    + exact (IH st).
    + match goal with
      | |- context [foldl _ (inr ?s) fields] => specialize (IH s)
      end.
      cbn [fst snd] in IH.
      destruct (foldl _ _ fields) as [| st']; [exact IH |].
      destruct IH as [-> ?]. split; [| done].
      by rewrite andb_false_l, andb_false_r.
    + by rewrite numeric_stuck.
Qed.

Lemma negative_flag r field text st :
  match check_negative r field text st with
  | inr st' => st'.1.1 = st.1.1 /\ ordered (r !! field) = true
  | inl _ => ordered (r !! field) = false
  end.
Proof.
  unfold check_negative, ordered.
  destruct (r !! field) as [[| z | q | |] |]; cbn; try done.
  - by destruct (z <? 0)%Z.
  - by destruct (Qle_bool 0 q).
Qed.

Lemma record_flag i r st :
  match validate_record float_parses i r st with
  | inr st' => st'.1.1 = st.1.1 && record_ok float_parses r /\ record_fails float_parses r = false
  | inl _ => record_ok float_parses r = false /\ record_fails float_parses r = true
  end.
Proof.
  unfold Integrity.validate_record, Integrity.record_ok, Integrity.record_fails.
  pose proof (numeric_flag i r numeric_fields
                (foldl (check_required i r) st required_fields)) as N.
  destruct (foldl _ (inr _) numeric_fields) as [f | st1].
  - assert (C : forallb (fun field => converts float_parses (r !! field)) numeric_fields
                = false).
    { apply not_true_iff_false. intros C. apply not_true_iff_false in N. apply N.
      rewrite forallb_forall in *. intros x Hx. specialize (C x Hx).
      unfold converts, in_range in *. destruct (r !! x); [| done].
      by destruct (to_float _ _). }
    rewrite C, N, andb_false_r. done.
  - destruct N as [N1 N2]. rewrite N2, required_flag in *.
    pose proof (negative_flag r "total_cantidad"
                  ("Record " +:+ str_nat i +:+ ": Negative quantity detected") st1) as A.
    destruct (check_negative r "total_cantidad" _ st1) as [f | st2].
    + cbn [forallb]. rewrite A. by rewrite !andb_false_r.
    + destruct A as [A1 A2].
      pose proof (negative_flag r "total_total"
                  ("Record " +:+ str_nat i +:+ ": Negative total amount detected") st2) as B.
      destruct (check_negative r "total_total" _ st2) as [f | st3].
      * cbn [forallb]. rewrite B. by rewrite !andb_false_r.
      * destruct B as [B1 B2]. cbn [forallb]. rewrite A2, B2, B1, A1, N1.
        by rewrite !andb_true_r, andb_assoc.
Qed.

Lemma records_flag data i st :
  match validate_records float_parses i data st with
  | inr st' => st'.1.1 = st.1.1 && forallb (record_ok float_parses) data
               /\ existsb (record_fails float_parses) data = false
  | inl _ => forallb (record_ok float_parses) data = false /\ existsb (record_fails float_parses) data = true
  end.
Proof.
  revert i st. induction data as [| r data IH]; intros i st.
  - cbn. by rewrite andb_true_r.
  - cbn [Integrity.validate_records forallb existsb].
    pose proof (record_flag i r st) as R.
    destruct (validate_record float_parses i r st) as [f | st1].
    + destruct R as [-> ->]. done.
    + destruct R as [R1 R2]. rewrite R2. specialize (IH (S i) st1).
      destruct (validate_records float_parses (S i) data st1) as [f | st2].
      * destruct IH as [-> ->]. by rewrite andb_false_r.
      * destruct IH as [-> ->]. by rewrite R1, andb_assoc.
Qed.

(** X15: the report is valid exactly when every record has its four
    required fields given (present and not [None]), each of its numeric
    fields that is present converts to a float, and its quantity and
    total, the two fields compared with zero, hold numbers. *)
Theorem valid_iff_records_ok data :
  is_valid (validate_data_integrity float_parses str_failure data) = true <->
  forallb (record_ok float_parses) data = true.
Proof.
  unfold Integrity.validate_data_integrity.
  pose proof (records_flag data 0 (true, [], [])) as R.
  destruct (validate_records float_parses 0 data (true, [], [])) as [f | st].
  - destruct R as [-> _]. done.
  - destruct R as [-> _]. done.
Qed.

(** X16: a record whose quantity or total is there but is no number
    ([None] or a string), or one of whose numeric fields is an integer
    beyond the floats, makes the whole report collapse: one single
    issue, no warning and a record count of zero, whatever the other
    records hold; without such a record the count is the length of the
    list. *)
Theorem failing_record_collapses_report data :
  if existsb (record_fails float_parses) data
  then exists f,
    validate_data_integrity float_parses str_failure data
    = mkreport false ["Validation error: " +:+ str_failure f] [] 0
  else record_count (validate_data_integrity float_parses str_failure data) = length data.
Proof.
  unfold Integrity.validate_data_integrity.
  pose proof (records_flag data 0 (true, [], [])) as R.
  destruct (validate_records float_parses 0 data (true, [], [])) as [f | st].
  - destruct R as [_ ->]. by exists f.
  - destruct R as [_ ->]. done.
Qed.

Lemma summary_record_values data field :
  summary_record data !! field = None \/ summary_record data !! field = Some VDict.
Proof.
  unfold summary_record, record. induction data as [| [k e] data IH]; [by left |].
  cbn [map fst]. rewrite list_to_map_cons.
  destruct (decide (k = field)) as [-> | Hne].
  - right. apply lookup_insert_eq.
  - by rewrite lookup_insert_ne.
Qed.

(** X23: the data-quality entry of [create_summary_report] hands a whole
    summary to [validate_data_integrity] as if it were one record: for
    every summary that is not empty the report it stores is invalid,
    whatever the summary holds. *)
Theorem summary_report_never_valid data :
  data <> [] ->
  exists found,
    data_quality_validation float_parses str_failure data = Some found /\
    is_valid found = false.
Proof.
  intros Hne. destruct data as [| item rest]; [done |].
  eexists. split; [reflexivity |].
  set (r := summary_record (item :: rest)).
  apply not_true_iff_false. intros Hv.
  unfold Integrity.validate_data_integrity in Hv.
  pose proof (records_flag [r] 0 (true, [], [])) as R.
  destruct (validate_records float_parses 0 [r] (true, [], [])) as [f | st]; [done |].
  destruct R as [R _]. cbn [is_valid] in Hv. rewrite Hv in R. symmetry in R.
  cbn [forallb fst] in R. rewrite andb_true_l, andb_true_r in R.
  unfold Integrity.record_ok, required_fields, numeric_fields in R.
  cbn [forallb] in R.
  destruct (summary_record_values (item :: rest) "total_cantidad") as [E | E];
    fold r in E; rewrite E in R; cbn in R;
    by rewrite ?andb_false_r in R.
Qed.

Example report_of_good_rows :
  validate_data_integrity float_parses str_failure [good_row; good_row]
  = mkreport true [] [] 2.
Proof. reflexivity. Qed.

Example report_of_null_quantity :
  validate_data_integrity float_parses str_failure [good_row; null_quantity_row]
  = mkreport false ["Validation error: " +:+ str_failure (Unordered VNone)] [] 0.
Proof. reflexivity. Qed.

End IntegrityFacts.

(** ** Rounding is odd *)
Section RoundingSymmetry.
Import Rounding.
Local Open Scope Q_scope.

Lemma round_half_even_comp x y : x == y -> round_half_even x = round_half_even y.
Proof.
  intros H. unfold round_half_even. rewrite (Qfloor_comp x y H).
  assert (E : Qcompare (x - inject_Z (Qfloor y)) (1 # 2)
              = Qcompare (y - inject_Z (Qfloor y)) (1 # 2)) by (by rewrite H).
  by rewrite E.
Qed.

Lemma floor_unique x n :
  inject_Z n <= x -> x < inject_Z (n + 1) -> Qfloor x = n.
Proof.
  intros H1 H2. pose proof (Qfloor_le x) as F1. pose proof (Qlt_floor x) as F2.
  assert (A : inject_Z n < inject_Z (Qfloor x + 1)) by lra.
  assert (B : inject_Z (Qfloor x) < inject_Z (n + 1)) by lra.
  rewrite <- Zlt_Qlt in A, B. lia.
Qed.

Lemma round_half_even_opp y : round_half_even (- y) = (- round_half_even y)%Z.
Proof.
  destruct (Qeq_dec y (inject_Z (Qfloor y))) as [Hint | Hfrac].
  - rewrite (round_half_even_integer y (Qfloor y) Hint).
    apply round_half_even_integer. rewrite inject_Z_opp. by rewrite <- Hint.
  - pose proof (Qfloor_le y) as F1. pose proof (Qlt_floor y) as F2.
    set (f := Qfloor y) in *.
    assert (F3 : inject_Z f < y).
    { apply Qle_lteq in F1 as [? | E]; [done |]. by symmetry in E. }
    rewrite inject_Z_plus in F2. change (inject_Z 1) with 1 in F2.
    assert (Ef : Qfloor (- y) = (- f - 1)%Z).
    { apply floor_unique.
      - unfold Z.sub. rewrite inject_Z_plus, !inject_Z_opp.
        change (inject_Z 1) with 1. lra.
      - replace (- f - 1 + 1)%Z with (- f)%Z by lia. rewrite inject_Z_opp. lra. }
    unfold round_half_even. rewrite Ef. fold f.
    assert (Ei : inject_Z (- f - 1) == - inject_Z f - 1).
    { unfold Z.sub. rewrite inject_Z_plus, !inject_Z_opp. reflexivity. }
    destruct (Qcompare_spec (y - inject_Z f) (1 # 2)) as [H | H | H];
      destruct (Qcompare_spec (- y - inject_Z (- f - 1)) (1 # 2)) as [H' | H' | H'];
      rewrite Ei in H'; try lra; try lia.
    replace (- f - 1)%Z with (- (f + 1))%Z by lia.
    rewrite Z.even_opp, Z.even_add. change (Z.even 1) with false.
    destruct (Z.even f); cbn [Bool.eqb]; lia.
Qed.

Lemma Qabs_opp_same x : Qabs (- x) = Qabs x.
Proof. destruct x as [n d]. unfold Qabs, Qopp. cbn. by rewrite Z.abs_opp. Qed.

Lemma round_sig_opp beta p x : round_sig beta p (- x) == - round_sig beta p x.
Proof.
  unfold round_sig.
  destruct (Qeq_bool x 0) eqn:E.
  - apply Qeq_bool_iff in E.
    assert (E' : - x == 0) by (rewrite E; reflexivity).
    by rewrite (proj2 (Qeq_bool_iff _ _) E').
  - assert (E' : Qeq_bool (- x) 0 = false).
    { apply not_true_iff_false. intros H. apply Qeq_bool_iff in H.
      apply not_true_iff_false in E. apply E. apply Qeq_bool_iff. lra. }
    rewrite E', !Qred_correct. unfold ulp. rewrite Qabs_opp_same.
    set (u := inject_Z beta ^ _).
    rewrite (round_half_even_comp (- x / u) (- (x / u)))
      by (unfold Qdiv; ring).
    rewrite round_half_even_opp, inject_Z_opp. ring.
Qed.

Lemma float_round_opp x : PyFloat.round (- x) == - PyFloat.round x.
Proof. apply round_sig_opp. Qed.

Lemma float_round_nonneg x : 0 <= x -> 0 <= PyFloat.round x.
Proof.
  intros Hx. pose proof (float_round_error x) as H.
  apply Qabs_Qle_condition in H. rewrite (Qabs_pos x Hx) in H. lra.
Qed.

Lemma ilog_comp beta a b :
  (2 <= beta)%Z -> 0 < a -> a == b -> ilog beta a = ilog beta b.
Proof.
  intros Hb Ha Hab.
  assert (Hpos : 0 < b) by (by rewrite <- Hab).
  destruct (ilog_spec beta a Hb Ha) as [A1 A2].
  destruct (ilog_spec beta b Hb Hpos) as [B1 B2].
  assert (Hr : 1 < inject_Z beta).
  { change 1 with (inject_Z 1). rewrite <- Zlt_Qlt. lia. }
  assert (L1 : (ilog beta a < ilog beta b + 1)%Z).
  { apply (Qpower_lt_compat_l_inv (inject_Z beta)); [| done].
    apply Qle_lt_trans with a; [done |]. by rewrite Hab. }
  assert (L2 : (ilog beta b < ilog beta a + 1)%Z).
  { apply (Qpower_lt_compat_l_inv (inject_Z beta)); [| done].
    apply Qle_lt_trans with b; [done |]. by rewrite <- Hab. }
  lia.
Qed.

Lemma round_sig_comp beta p x y :
  (2 <= beta)%Z -> x == y -> round_sig beta p x == round_sig beta p y.
Proof.
  intros Hb H. unfold round_sig.
  rewrite (Qeqb_comp x y H 0 0 ltac:(reflexivity)).
  destruct (Qeq_bool y 0) eqn:E; [reflexivity |].
  assert (Hnz : ~ x == 0).
  { intros Hx. rewrite H in Hx. apply Qeq_bool_iff in Hx. congruence. }
  rewrite !Qred_correct. unfold ulp.
  rewrite (ilog_comp beta (Qabs x) (Qabs y) Hb (Qabs_nonzero_pos x Hnz))
    by (by rewrite H).
  set (u := inject_Z beta ^ _).
  rewrite (round_half_even_comp (x / u) (y / u)) by (by rewrite H).
  reflexivity.
Qed.

Lemma float_round_comp x y : x == y -> PyFloat.round x == PyFloat.round y.
Proof. apply round_sig_comp. lia. Qed.

End RoundingSymmetry.

(** ** What is shown and what is stored *)
Section SalesRecordFacts.
Import PyStr PyExn SalesEntry SalesRecord.
Local Open Scope Q_scope.
Variable py_int : string -> option Z.
Variable isdigit : string -> bool.

Lemma float_round_neg_abs x : PyFloat.round (- Qabs x) == - Qabs (PyFloat.round x).
Proof.
  destruct (Qabs_cases x) as [[Hx Ex] | [Hx Ex]].
  - assert (E : - Qabs x == x) by lra.
    rewrite (float_round_comp _ _ E).
    assert (Hr : PyFloat.round x <= 0).
    { pose proof (float_round_nonneg (- x) ltac:(lra)) as H.
      rewrite float_round_opp in H. lra. }
    rewrite (Qabs_neg _ Hr). lra.
  - assert (E : - Qabs x == - x) by lra.
    rewrite (float_round_comp _ _ E), float_round_opp.
    by rewrite (Qabs_pos _ (float_round_nonneg x Hx)).
Qed.

Lemma float_scale_neg_abs x y k :
  0 < k -> y == - Qabs x ->
  PyFloat.round (y * k) == - Qabs (PyFloat.round (x * k)).
Proof.
  intros Hk Hy.
  assert (E : y * k == - Qabs (x * k)).
  { rewrite Hy, Qabs_Qmult, (Qabs_pos k) by lra. ring. }
  rewrite (float_round_comp _ _ E). apply float_round_neg_abs.
Qed.

Lemma float_literals_pos :
  0 < / PyFloat.literal (119 # 100) /\ 0 < PyFloat.literal (19 # 100).
Proof. destruct float_literals as [-> ->]. split; reflexivity. Qed.

(** The tax computation on the negated magnitude of a total is the
    negated magnitude of the tax computation on the total. *)
Lemma tax_components_credit g d :
  tax_components g = Ok d ->
  exists d', tax_components (- Z.abs g) = Ok d' /\
    total d' = (- Z.abs g)%Z /\ net d' == - Qabs (net d) /\ tax d' == - Qabs (tax d).
Proof.
  intros E. destruct (tax_components_ok g d E) as (Et & En & Ex).
  unfold tax_components, PyFloat.of_int in *.
  assert (Er : PyFloat.round (inject_Z (- Z.abs g))
               == - Qabs (PyFloat.round (inject_Z g))).
  { change (inject_Z (- Z.abs g)) with (- Qabs (inject_Z g)).
    apply float_round_neg_abs. }
  assert (Ea : Qabs (PyFloat.round (inject_Z (- Z.abs g)))
               == Qabs (PyFloat.round (inject_Z g))).
  { rewrite Er, Qabs_opp. apply Qabs_pos. apply Qabs_nonneg. }
  rewrite (Qleb_comp _ _ ltac:(reflexivity) _ _ Ea).
  destruct (Qle_bool _ (Qabs (PyFloat.round (inject_Z g)))); [done |].
  cbn [mbind result_bind bind] in *. eexists. split; [reflexivity |].
  cbn [total net tax]. split; [done |].
  destruct float_literals_pos as [Hc Ht].
  assert (N : PyFloat.div (PyFloat.round (inject_Z (- Z.abs g)))
                (PyFloat.literal (119 # 100)) == - Qabs (net d)).
  { rewrite En. unfold PyFloat.div, Qdiv. by apply float_scale_neg_abs. }
  split; [exact N |].
  rewrite Ex. unfold PyFloat.mul. by apply float_scale_neg_abs.
Qed.

Lemma save_components self sale row :
  _save_sale_to_database self sale = Ok row ->
  let unit_price := default 0%Z (product_pricing self !! product sale) in
  let gross_total :=
    (if contains "Bulk" (product sale)
     then (unit_price - discount sale) * total_weight sale
     else (unit_price - discount sale) * quantity sale)%Z in
  exists d, tax_components gross_total = Ok d /\
    PaymentMethod row = payment_method sale /\
    if String.eqb (document_type sale) "Credit Note"
    then TotalAmount row = (- Z.abs gross_total)%Z /\
         NetAmount row = - Qabs (net d) /\ TaxAmount row = - Qabs (tax d)
    else TotalAmount row = gross_total /\
         NetAmount row = net d /\ TaxAmount row = tax d.
Proof.
  intros E unit_price gross_total. unfold _save_sale_to_database in E.
  fold unit_price in E. fold gross_total in E. unfold tax_components.
  destruct (PyFloat.of_int gross_total) as [gross |]; [| done].
  cbn [mbind result_bind bind] in *. eexists. split; [reflexivity |].
  cbn [total net tax].
  destruct (total_weight sale =? 0)%Z.
  - cbn [mbind result_bind bind] in E. injection E as <-. cbn.
    by destruct (String.eqb (document_type sale) "Credit Note").
  - destruct (PyFloat.of_int (total_weight sale)); [| done].
    cbn [mbind result_bind bind] in E. injection E as <-. cbn.
    by destruct (String.eqb (document_type sale) "Credit Note").
Qed.

Lemma collect_components self sale :
  _collect_form_data py_int self = Ok sale ->
  product sale = product_combo (widgets self) /\
  document_type sale = document_type_combo (widgets self) /\
  payment_method sale = payment_method_combo (widgets self) /\
  py_int (quantity_edit (widgets self)) = Some (quantity sale) /\
  py_int (total_weight_edit (widgets self)) = Some (total_weight sale) /\
  int_or_zero py_int (discount_edit (widgets self)) = discount sale.
Proof.
  unfold _collect_form_data, int_of_text, int_or_zero. intros E.
  destruct (py_int (quantity_edit (widgets self))) as [q |]; [| done].
  destruct (py_int (total_weight_edit (widgets self))) as [w |]; [| done].
  cbn [mbind result_bind bind] in E.
  destruct (truthy (discount_edit (widgets self))).
  - destruct (py_int (discount_edit (widgets self))) as [dv |]; [| done].
    cbn [mbind result_bind bind] in E. by injection E as <-.
  - cbn [mbind result_bind bind] in E. by injection E as <-.
Qed.

(** X17: for a form that passed [_validate_form_data] and was collected
    by [_collect_form_data], with a priced product, a payment method
    other than FREE SAMPLE and a document type other than Debit Note
    (and, for a Bulk product, a weight field of digits), the total, the
    net amount and the tax bound to the INSERT are the ones
    [_calculate_financial_totals] shows on the form. *)
Theorem stored_amounts_are_the_displayed_ones is_unique self sale row :
  _validate_form_data isdigit is_unique self = true ->
  _collect_form_data py_int self = Ok sale ->
  _save_sale_to_database (widgets self) sale = Ok row ->
  payment_method_combo (widgets self) <> "FREE SAMPLE"%string ->
  is_Some (product_pricing (widgets self) !! product_combo (widgets self)) ->
  (contains "Bulk" (product_combo (widgets self)) = true ->
   isdigit (total_weight_edit (widgets self)) = true) ->
  document_type_combo (widgets self) <> "Debit Note"%string ->
  exists d,
    _calculate_financial_totals py_int isdigit (widgets self) = Ok d /\
    TotalAmount row = total d /\ NetAmount row == net d /\ TaxAmount row == tax d.
Proof.
  intros Hv Hc Hs Hpay [base Hbase] Hbulk Hdebit.
  destruct (collect_components self sale Hc) as (Ep & Et & Em & Eq & Ew & Ed).
  destruct (save_components _ _ _ Hs) as (d & Hd & _ & Hrow).
  rewrite Ep, Et, Hbase in *. cbn [default from_option id] in *.
  assert (Hq : int_or_zero py_int (quantity_edit (widgets self)) = quantity sale).
  { unfold int_or_zero. unfold _validate_form_data in Hv.
    destruct (truthy (quantity_edit (widgets self))); [| done]. by rewrite Eq. }
  unfold _calculate_financial_totals.
  rewrite (proj2 (String.eqb_neq _ _) Hpay), Hbase, Ed, Hq.
  rewrite (proj2 (String.eqb_neq _ _) Hdebit).
  set (gross_total := (if contains "Bulk" (product_combo (widgets self))
                       then (base - discount sale) * total_weight sale
                       else (base - discount sale) * quantity sale)%Z) in *.
  assert (Eg : (if contains "Bulk" (product_combo (widgets self))
                then weight ← (if isdigit (total_weight_edit (widgets self))
                               then match py_int (total_weight_edit (widgets self)) with
                                    | Some w => Ok w
                                    | None => Raise ValueError
                                    end
                               else Ok 0%Z);
                     Ok ((base - discount sale) * weight)%Z
                else Ok ((base - discount sale) * quantity sale)%Z)
               = Ok gross_total).
  { unfold gross_total. destruct (contains "Bulk" _); [| done].
    by rewrite (Hbulk eq_refl), Ew. }
  rewrite Eg. cbn [mbind result_bind bind].
  destruct (String.eqb (document_type_combo (widgets self)) "Credit Note").
  - destruct (tax_components_credit _ _ Hd) as (d' & Hd' & T & N & X).
    exists d'. destruct Hrow as (Ht & Hn & Hx). rewrite Ht, Hn, Hx, T.
    split; [done |]. split; [reflexivity |].
    split; [symmetry; exact N | symmetry; exact X].
  - exists d. destruct Hrow as (Ht & Hn & Hx). rewrite Ht, Hn, Hx.
    destruct (tax_components_ok _ _ Hd) as (Etot & _).
    split; [done |]. split; [by rewrite Etot |]. split; reflexivity.
Qed.

(** X18: the payment method plays no part in what is stored: for a FREE
    SAMPLE the form shows a net amount, a tax and a total of zero, but
    the row bound to the INSERT carries the total of a paid sale, the
    unit price less the discount times the quantity (the weight for a
    Bulk product), up to the sign a credit note gives it. *)
Theorem free_sample_is_stored_at_full_price self sale row :
  _collect_form_data py_int self = Ok sale ->
  payment_method_combo (widgets self) = "FREE SAMPLE"%string ->
  _save_sale_to_database (widgets self) sale = Ok row ->
  _calculate_financial_totals py_int isdigit (widgets self) = Ok (mkdisplay 0 0 0) /\
  PaymentMethod row = "FREE SAMPLE"%string /\
  Z.abs (TotalAmount row)
  = Z.abs ((default 0%Z (product_pricing (widgets self) !! product sale)
            - discount sale)
           * (if contains "Bulk" (product sale) then total_weight sale
              else quantity sale)).
Proof.
  intros Hc Hpay Hs.
  destruct (collect_components self sale Hc) as (_ & _ & Em & _).
  destruct (save_components _ _ _ Hs) as (d & _ & Hm & Hrow).
  split; [unfold _calculate_financial_totals; by rewrite Hpay |].
  split; [by rewrite Hm, Em |].
  destruct (String.eqb (document_type sale) "Credit Note");
    destruct Hrow as (-> & _); destruct (contains "Bulk" (product sale)); lia.
Qed.

(** X19: the weight test of [_calculate_totals] looks for ["15 Kg"] and
    ["3 kg"], the fallback price list spells its products with
    ["15kg"] and ["3kg"]: for every product of that list the weight
    written is zero, whatever the quantity and the document type. *)
Theorem fallback_products_weigh_nothing self :
  is_Some (fallback_pricing !! product_combo self) ->
  _calculate_totals py_int isdigit self = 0%Z.
Proof.
  intros [price H]. unfold _calculate_totals.
  assert (Hp : contains "15 Kg" (product_combo self) = false /\
               contains "3 kg" (product_combo self) = false).
  { unfold fallback_pricing in H.
    repeat (apply lookup_insert_Some in H as [[<- _] | [_ H]]; [by split |]).
    apply lookup_singleton_Some in H as [<- _]. by split. }
  destruct Hp as [-> ->].
  by destruct (String.eqb (document_type_combo self) "Credit Note").
Qed.

(** X20: on a credit note the unit price label and the total do not use
    the same price: [_update_pricing] shows the base price plus the
    discount, [_calculate_financial_totals] computes the total from the
    base price less the discount. *)
Theorem credit_note_price_shown_is_not_the_price_used self base :
  document_type_combo self = "Credit Note"%string ->
  payment_method_combo self <> "FREE SAMPLE"%string ->
  product_pricing self !! product_combo self = Some base ->
  contains "Bulk" (product_combo self) = false ->
  strip (discount_edit self) = discount_edit self ->
  let discount := int_or_zero py_int (discount_edit self) in
  let quantity := int_or_zero py_int (quantity_edit self) in
  _update_pricing py_int self = Some (base + discount)%Z /\
  (forall d, _calculate_financial_totals py_int isdigit self = Ok d ->
     total d = (- Z.abs ((base - discount) * quantity))%Z).
Proof.
  intros Hdoc Hpay Hbase Hbulk Hstrip discount quantity. split.
  - unfold _update_pricing.
    rewrite (proj2 (String.eqb_neq _ _) Hpay), Hbase, Hdoc, Hstrip. reflexivity.
  - intros d. unfold _calculate_financial_totals.
    rewrite (proj2 (String.eqb_neq _ _) Hpay), Hbase, Hbulk, Hdoc.
    cbn [mbind result_bind bind]. change (String.eqb "Credit Note" "Credit Note") with true.
    cbn iota. intros Hd. by destruct (tax_components_ok _ _ Hd) as (-> & _).
Qed.

End SalesRecordFacts.

Lemma stored_amounts_are_the_displayed_ones_witness :
  exists row d,
    SalesRecord._save_sale_to_database
      (SalesRecord.widgets SalesRecord.sample_form) SalesRecord.sample_sale = PyExn.Ok row /\
    SalesEntry._calculate_financial_totals SalesRecord.read_int SalesRecord.all_digits
      (SalesRecord.widgets SalesRecord.sample_form) = PyExn.Ok d /\
    SalesRecord.TotalAmount row = SalesEntry.total d.
Proof.
  destruct (SalesRecord._save_sale_to_database
              (SalesRecord.widgets SalesRecord.sample_form) SalesRecord.sample_sale)
    as [row |] eqn:E; [| vm_compute in E; discriminate].
  destruct (stored_amounts_are_the_displayed_ones SalesRecord.read_int
              SalesRecord.all_digits (fun _ _ => true)
              SalesRecord.sample_form SalesRecord.sample_sale row)
    as (d & Hd & Ht & _).
  - vm_compute. reflexivity.
  - vm_compute. reflexivity.
  - exact E.
  - discriminate.
  - vm_compute. by eexists.
  - intros H. vm_compute in H. discriminate.
  - discriminate.
  - exists row, d. split; [reflexivity |]. split; [exact Hd | exact Ht].
Defined.

Lemma free_sample_is_stored_at_full_price_witness :
  exists row,
    SalesRecord._save_sale_to_database
      (SalesRecord.widgets SalesRecord.free_sample_form)
      SalesRecord.free_sample_sale = PyExn.Ok row /\
    Z.abs (SalesRecord.TotalAmount row) = 5000%Z.
Proof.
  destruct (SalesRecord._save_sale_to_database
              (SalesRecord.widgets SalesRecord.free_sample_form)
              SalesRecord.free_sample_sale)
    as [row |] eqn:E; [| vm_compute in E; discriminate].
  destruct (free_sample_is_stored_at_full_price SalesRecord.read_int
              SalesRecord.all_digits SalesRecord.free_sample_form
              SalesRecord.free_sample_sale row) as (_ & _ & H).
  - vm_compute. reflexivity.
  - reflexivity.
  - exact E.
  - exists row. split; [reflexivity |]. rewrite H. vm_compute. reflexivity.
Defined.

Lemma fallback_products_weigh_nothing_witness :
  SalesRecord._calculate_totals SalesRecord.read_int SalesRecord.all_digits
    (SalesRecord.widgets SalesRecord.sample_form) = 0%Z.
Proof.
  apply fallback_products_weigh_nothing. vm_compute. by eexists.
Defined.

Lemma credit_note_price_shown_is_not_the_price_used_witness :
  SalesRecord._update_pricing SalesRecord.read_int
    (SalesRecord.widgets SalesRecord.sample_form) = Some 9000%Z /\
  forall d,
    SalesEntry._calculate_financial_totals SalesRecord.read_int SalesRecord.all_digits
      (SalesRecord.widgets SalesRecord.sample_form) = PyExn.Ok d ->
    SalesEntry.total d = (- 24000)%Z.
Proof.
  apply (credit_note_price_shown_is_not_the_price_used SalesRecord.read_int
           SalesRecord.all_digits (SalesRecord.widgets SalesRecord.sample_form) 8500%Z);
    try reflexivity; discriminate.
Defined.

(** ** A validated search *)
Section SearchWindowFacts.
Import PyStr PyDate QueryBuilder InputValidation SearchWindow.
Variable str_strip : string -> string.
Variable str_upper : string -> string.
Variable int_parses : string -> bool.
Variable strptime_parses : string -> bool.
Variable reply_yes : Z -> bool.

Lemma validated_window self :
  _validate_search_criteria str_strip str_upper int_parses strptime_parses reply_yes self = true ->
  gtb (start_date_filter self) (end_date_filter self) = false /\
  selected_branches self <> [] /\
  (truthy (str_strip (document_input self)) = true ->
   validate_input str_upper int_parses strptime_parses
     (str_strip (document_input self)) "number" = true).
Proof.
  unfold _validate_search_criteria.
  destruct (gtb _ _); [done |]. destruct (_ && negb (reply_yes _)); [done |].
  destruct (selected_branches self); [done |]. cbn [nonempty negb].
  destruct (truthy (str_strip (document_input self))); [| done].
  by destruct (validate_input _ _ _ _ _).
Qed.

Lemma validate_input_number value :
  truthy value = true ->
  validate_input str_upper int_parses strptime_parses value "number" = true ->
  int_parses value = true /\
  forall keyword, keyword ∈ dangerous_keywords ->
    contains keyword (str_upper value) = false.
Proof.
  unfold validate_input. intros -> H. cbn [negb] in H.
  destruct (existsb _ dangerous_keywords) eqn:E; [done |].
  split; [exact H |]. intros keyword Hk.
  apply not_true_iff_false. intros Hc. apply not_true_iff_false in E. apply E.
  apply existsb_exists. exists keyword. split; [| done].
  by apply list_elem_of_In.
Qed.

(** X21: a search that passes [_validate_search_criteria] never runs the
    unfiltered query: the text handed to [cursor.execute] always starts
    its WHERE clause with the date condition and the branch condition,
    bound to the two dates (one when they coincide) and to the selected
    branches, of which there is at least one; and a document number
    that [str.strip] does not leave empty parses, once stripped, as an
    integer and holds no keyword of the list.  This holds whatever
    [str.strip] removes. *)
Theorem validated_search_is_filtered self sql params :
  _execute_search str_strip str_upper int_parses strptime_parses reply_yes self
    = Some (sql, params) ->
  let s := start_date_filter self in
  let e := end_date_filter self in
  let n := length (selected_branches self) in
  gtb s e = false /\ (0 < n)%nat /\
  (exists more_conditions more_params,
     sql = base_query +:+ " WHERE "
           +:+ join " AND "
                 ((if decide (s = e) then "Fecha = %s"
                   else "Fecha BETWEEN %s AND %s")
                  :: ("PuntoVenta IN (" +:+ placeholders n +:+ ")")
                  :: more_conditions)
           +:+ " ORDER BY Fecha DESC, VentaID DESC" /\
     params = (if decide (s = e) then [PDate s] else [PDate s; PDate e])
              ++ map PStr (selected_branches self) ++ more_params) /\
  (truthy (str_strip (document_input self)) = true ->
   int_parses (str_strip (document_input self)) = true /\
   forall keyword, keyword ∈ dangerous_keywords ->
     contains keyword (str_upper (str_strip (document_input self))) = false).
Proof.
  intros H s e n. unfold _execute_search in H.
  destruct (_validate_search_criteria _ _ _ _ _ self) eqn:Hv; [| done].
  cbn [negb] in H. injection H as <- <-.
  destruct (validated_window self Hv) as (Hd & Hb & Hn).
  split; [exact Hd |].
  assert (Hlen : (0 < n)%nat).
  { unfold n. destruct (selected_branches self); [done | cbn; lia]. }
  split; [exact Hlen |]. split.
  - unfold build_search_query, where_clause. cbn [fst snd].
    rewrite parameters_listed, conditions_shape.
    unfold conditions_of_shape, shape_of, date_mode_of, search_filters.
    cbn [sh_dates sh_branches sh_doc_types sh_doc_types_todo sh_products
         sh_products_todo sh_doc_number start_date end_date branches
         document_types products document_number].
    fold s e n. rewrite (proj2 (Nat.ltb_lt 0 n) Hlen).
    eexists _, _. split.
    + destruct (decide (s = e)); cbn [app nonempty]; reflexivity.
    + destruct (decide (s = e)); cbn [app]; reflexivity.
  - intros Ht. exact (validate_input_number _ Ht (Hn Ht)).
Qed.

End SearchWindowFacts.

Lemma validated_search_is_filtered_witness :
  PyDate.gtb (SearchWindow.start_date_filter SearchWindow.sample_window)
    (SearchWindow.end_date_filter SearchWindow.sample_window) = false /\
  (0 < length (SearchWindow.selected_branches SearchWindow.sample_window))%nat.
Proof.
  destruct (SearchWindow._execute_search PyStr.strip PyStr.upper
              SearchWindow.digits_only (fun _ => false) (fun _ => true)
              SearchWindow.sample_window)
    as [[sql params] |] eqn:E; [| vm_compute in E; discriminate].
  destruct (validated_search_is_filtered _ _ _ _ _ _ _ _ E) as (H1 & H2 & _).
  split; [exact H1 | exact H2].
Defined.

(** ** The leaders of the insights *)
Section InsightsFacts.
Import PyStr Processor.DailySummary Insights.
Local Open Scope Q_scope.

Section SortingFacts.
Context {A K : Type} (key : A -> K) (lt : K -> K -> bool).
Hypothesis lt_asym : forall a b, lt a b = true -> lt b a = false.
Hypothesis ge_trans : forall a b c, lt a b = false -> lt b c = false -> lt a c = false.

Lemma insert_desc_perm x l : insert_desc key lt x l ≡ₚ x :: l.
Proof.
  induction l as [| y l IH]; [done |]. cbn [insert_desc].
  destruct (lt (key x) (key y)); [| done].
  rewrite IH. apply Permutation_swap.
Qed.

Lemma sorted_desc_perm l : sorted_desc key lt l ≡ₚ l.
Proof.
  induction l as [| x l IH]; [done |]. cbn [sorted_desc foldr].
  fold (sorted_desc key lt l). by rewrite insert_desc_perm, IH.
Qed.

Lemma insert_desc_sorted x l :
  StronglySorted (before key lt) l -> StronglySorted (before key lt) (insert_desc key lt x l).
Proof.
  induction 1 as [| y l Hl IH Hy]; cbn [insert_desc].
  - repeat constructor.
  - destruct (lt (key x) (key y)) eqn:E.
    + constructor; [exact IH |].
      rewrite insert_desc_perm. constructor; [| exact Hy].
      unfold before. by apply lt_asym.
    + constructor; [by constructor |]. constructor; [exact E |].
      eapply Forall_impl; [exact Hy |]. intros z Hz. unfold before in *.
      by apply (ge_trans _ (key y)).
Qed.

Lemma sorted_desc_sorted l : StronglySorted (before key lt) (sorted_desc key lt l).
Proof.
  induction l as [| x l IH]; [constructor |]. cbn [sorted_desc foldr].
  by apply insert_desc_sorted.
Qed.

Lemma sorted_take_drop n l x y :
  StronglySorted (before key lt) l -> x ∈ take n l -> y ∈ drop n l -> before key lt x y.
Proof.
  intros Hs. revert n. induction Hs as [| z l Hl IH Hz]; intros n Hx Hy.
  - rewrite take_nil in Hx. by apply elem_of_nil in Hx.
  - destruct n as [| n]; [by apply elem_of_nil in Hx |].
    cbn [take drop] in *. apply elem_of_cons in Hx as [-> | Hx].
    + rewrite Forall_forall in Hz. apply Hz.
      rewrite <- (take_drop n l). apply elem_of_app. by right.
    + by apply (IH n).
Qed.

End SortingFacts.

Lemma key_determines_value {V} (data : list (string * V)) k v v' :
  NoDup (map fst data) -> (k, v) ∈ data -> (k, v') ∈ data -> v = v'.
Proof.
  induction data as [| [k0 v0] data IH]; intros Hnd H1 H2;
    [by apply elem_of_nil in H1 |].
  cbn [map fst] in Hnd. apply NoDup_cons in Hnd as [Hk Hnd].
  apply elem_of_cons in H1 as [E1 | H1]; apply elem_of_cons in H2 as [E2 | H2].
  - congruence.
  - injection E1 as -> ->. exfalso. apply Hk.
    by apply (list_elem_of_fmap_2 fst _ (k0, v')).
  - injection E2 as -> ->. exfalso. apply Hk.
    by apply (list_elem_of_fmap_2 fst _ (k0, v)).
  - by apply IH.
Qed.

(** The first [n] names of the sorted items lead the items left out. *)
Lemma first_names_lead {V K} (key : string * V -> K) (lt : K -> K -> bool)
    n (l data : list (string * V)) p q vp vq :
  (forall a b, lt a b = true -> lt b a = false) ->
  (forall a b c, lt a b = false -> lt b c = false -> lt a c = false) ->
  NoDup (map fst data) -> (forall x, x ∈ l -> x ∈ data) ->
  p ∈ map fst (take n (sorted_desc key lt l)) -> (p, vp) ∈ data ->
  (q, vq) ∈ l -> q ∉ map fst (take n (sorted_desc key lt l)) ->
  lt (key (p, vp)) (key (q, vq)) = false.
Proof.
  intros Hasym Htrans Hnd Hsub Hp Hdata Hq Hnot.
  pose proof (sorted_desc_perm key lt l) as Hperm.
  pose proof (sorted_desc_sorted key lt Hasym Htrans l) as Hsorted.
  set (s := sorted_desc key lt l) in *.
  apply list_elem_of_fmap in Hp as ([p' vp'] & Ep & Hp). cbn in Ep. subst p'.
  assert (Hin : (p, vp') ∈ s).
  { rewrite <- (take_drop n s). apply elem_of_app. by left. }
  assert (vp' = vp) as ->.
  { apply (key_determines_value data p); [done | | done].
    apply Hsub. by rewrite <- Hperm. }
  apply (sorted_take_drop key lt n s _ _ Hsorted Hp).
  assert (Hqs : (q, vq) ∈ s) by (by rewrite Hperm).
  rewrite <- (take_drop n s) in Hqs. apply elem_of_app in Hqs as [Hqs | Hqs]; [| done].
  exfalso. apply Hnot. by apply (list_elem_of_fmap_2 fst _ (q, vq)).
Qed.

Lemma valid_products_in data x : x ∈ valid_products data -> x ∈ data.
Proof.
  unfold valid_products. intros H. apply list_elem_of_In in H.
  apply filter_In in H as [H _]. by apply list_elem_of_In.
Qed.

(** X22: the revenue leaders and the volume leaders are the first three
    (all of them when there are fewer) of the products whose name does
    not start with "Total", and they do lead: a product left out of the
    revenue leaders has a gross total no larger than that of any of
    them, a product left out of the volume leaders a quantity no larger
    than that of any of them. *)
Theorem leaders_are_the_largest float_sum data :
  NoDup (map fst data) ->
  let found := get_business_insights float_sum data in
  let valid := valid_products data in
  length (revenue_leaders found) = Nat.min 3 (length valid) /\
  length (volume_leaders found) = Nat.min 3 (length valid) /\
  (forall p q ep eq,
     p ∈ revenue_leaders found -> (p, ep) ∈ data ->
     (q, eq) ∈ valid -> q ∉ revenue_leaders found ->
     total_bruto eq <= total_bruto ep) /\
  (forall p q ep eq,
     p ∈ volume_leaders found -> (p, ep) ∈ data ->
     (q, eq) ∈ valid -> q ∉ volume_leaders found ->
     (cantidad eq <= cantidad ep)%Z).
Proof.
  intros Hnd found valid. unfold found, get_business_insights. fold valid.
  destruct valid as [| item rest] eqn:Ev.
  - cbn. repeat split; intros p q ep eq Hp; by apply elem_of_nil in Hp.
  - rewrite <- Ev. cbn [revenue_leaders volume_leaders].
    rewrite !length_map, !length_take.
    rewrite (Permutation_length
               (sorted_desc_perm (fun kv : string * entry => total_bruto kv.2) Qlt_bool valid)).
    rewrite (Permutation_length
               (sorted_desc_perm (fun kv : string * entry => cantidad kv.2) Z.ltb valid)).
    split; [done |]. split; [done |]. split.
    + intros p q ep eq Hp Hdata Hq Hnot.
      assert (H : Qlt_bool (total_bruto ep) (total_bruto eq) = false).
      { apply (first_names_lead (fun kv : string * entry => total_bruto kv.2) Qlt_bool
                 3 valid data p q ep eq); try done.
        - unfold Qlt_bool. intros a b H. apply negb_true_iff in H.
          apply negb_false_iff. apply Qle_bool_iff.
          apply not_true_iff_false in H. rewrite Qle_bool_iff in H. lra.
        - unfold Qlt_bool. intros a b c H1 H2.
          apply negb_false_iff in H1, H2. apply negb_false_iff.
          rewrite Qle_bool_iff in *. lra.
        - intros x Hx. apply valid_products_in. unfold valid in Hx. exact Hx. }
      unfold Qlt_bool in H. apply negb_false_iff in H. by apply Qle_bool_iff.
    + intros p q ep eq Hp Hdata Hq Hnot.
      assert (H : (cantidad ep <? cantidad eq)%Z = false).
      { apply (first_names_lead (fun kv : string * entry => cantidad kv.2) Z.ltb
                 3 valid data p q ep eq); try done.
        - intros a b H. apply Z.ltb_lt in H. apply Z.ltb_ge. lia.
        - intros a b c H1 H2. apply Z.ltb_ge in H1, H2. apply Z.ltb_ge. lia.
        - intros x Hx. apply valid_products_in. unfold valid in Hx. exact Hx. }
      by apply Z.ltb_ge in H.
Qed.

End InsightsFacts.

Lemma leaders_are_the_largest_witness :
  Insights.revenue_leaders
    (Insights.get_business_insights (fun _ => 0%Q) Insights.sample_summary)
  = ["Pellet Bolsa 15 Kg (Retiro)"; "Pellet Bolsa 15 Kg (Despacho)"; "Astillas"] /\
  length
    (Insights.volume_leaders
       (Insights.get_business_insights (fun _ => 0%Q) Insights.sample_summary))
  = Nat.min 3 (length (Insights.valid_products Insights.sample_summary)).
Proof.
  split; [reflexivity |].
  apply (leaders_are_the_largest (fun _ => 0%Q) Insights.sample_summary).
  cbn. repeat (apply NoDup_cons; split; [| ]); try apply NoDup_nil_2;
    intros H; repeat (apply elem_of_cons in H as [H | H]; [discriminate |]);
    by apply elem_of_nil in H.
Defined.

Lemma summary_report_never_valid_witness :
  exists found,
    Integrity.data_quality_validation (fun _ => true) (fun _ => ""%string)
      Insights.sample_summary = Some found /\
    Integrity.is_valid found = false.
Proof.
  apply (summary_report_never_valid (fun _ => true) (fun _ => ""%string)
           Insights.sample_summary).
  discriminate.
Defined.

(** ** The indicators of a daily summary *)
Section KpiFacts.
Import PyStr PyExn PyDecimal Processor Processor.DailySummary SummaryVocabulary Kpi.
Local Open Scope Z_scope.

Lemma totals_step_units data acc :
  (fold_left totals_step data acc).1.2 = acc.1.2 + sum_cantidad data.
Proof.
  revert acc. induction data as [| item data IH]; intros acc;
    [cbn; lia |].
  cbn [fold_left sum_cantidad foldr]. rewrite IH. fold (sum_cantidad data).
  cbn [totals_step fst snd]. lia.
Qed.

Lemma sum_cantidad_app s t : sum_cantidad (s ++ t) = sum_cantidad s + sum_cantidad t.
Proof.
  induction s as [| item s IH]; [done |].
  cbn [app sum_cantidad foldr]. fold (sum_cantidad (s ++ t)) (sum_cantidad s). lia.
Qed.

(** Writing a key moves the sum by the difference of the quantities. *)
Lemma sum_cantidad_set k e s :
  sum_cantidad (dict_set k e s)
  = sum_cantidad s + cantidad e
    - match dict_get k s with Some e0 => cantidad e0 | None => 0 end.
Proof.
  induction s as [| [k' e'] s IH]; [cbn; lia |].
  cbn [dict_set dict_get]. destruct (String.eqb k k').
  - cbn [sum_cantidad foldr snd]. lia.
  - cbn [sum_cantidad foldr snd]. fold (sum_cantidad (dict_set k e s)) (sum_cantidad s).
    lia.
Qed.

Lemma add_record_units cats s r s' :
  add_record cats s r = Ok s' ->
  exists v, record_values r = Some v /\ sum_cantidad s' = sum_cantidad s + v.1.1.
Proof.
  unfold add_record, record_values, int_of, decimal_of_str.
  destruct (raw_cantidad r) as [c |]; [| done].
  destruct (raw_total r) as [t |]; [| done].
  cbn [mbind result_bind bind]. intros [= <-]. eexists. split; [reflexivity |].
  rewrite sum_cantidad_set. cbn [fst snd accumulate cantidad].
  destruct (dict_get (producto r) s); cbn; lia.
Qed.

Lemma fold_add_shift l a : fold_left Z.add l a = a + fold_left Z.add l 0.
Proof.
  revert a. induction l as [| x l IH]; intros a; [cbn; lia |].
  cbn [fold_left]. rewrite (IH (a + x)), (IH (0 + x)). lia.
Qed.

Lemma add_records_units cats raw s s' :
  add_records cats s raw = Ok s' -> sum_cantidad s' = sum_cantidad s + raw_units raw.
Proof.
  revert s. induction raw as [| r raw IH]; intros s E.
  - cbn in E. injection E as <-. unfold raw_units. cbn. lia.
  - cbn [add_records] in E. destruct (add_record cats s r) as [s1 |] eqn:E1; [| done].
    cbn [mbind result_bind bind] in E. rewrite (IH _ E).
    destruct (add_record_units _ _ _ _ E1) as (v & Hv & ->).
    unfold raw_units. cbn [omap list_omap]. rewrite Hv. cbn [mbind option_bind].
    cbn [fold_left]. rewrite (fold_add_shift _ (0 + v.1.1)). lia.
Qed.

Lemma all_financial_metrics_units rate s s' :
  all_financial_metrics rate s = Ok s' -> sum_cantidad s' = sum_cantidad s.
Proof.
  revert s'. induction s as [| [k e] s IH]; intros s' E.
  - cbn in E. by injection E as <-.
  - cbn [all_financial_metrics] in E.
    destruct (financial_metrics rate e) as [e' |] eqn:Ee; [| done].
    cbn [mbind result_bind bind] in E.
    destruct (all_financial_metrics rate s) as [s1 |]; [| done].
    cbn [mbind result_bind bind] in E. injection E as <-.
    destruct (financial_metrics_ok _ _ _ Ee) as (_ & Hc & _).
    cbn [sum_cantidad foldr snd]. fold (sum_cantidad s1) (sum_cantidad s).
    rewrite Hc, (IH s1 eq_refl). reflexivity.
Qed.

Lemma add_category_units rate name unit0 names s s' :
  add_category rate name unit0 names s = Ok s' -> dict_get name s = None ->
  sum_cantidad s' = sum_cantidad s + Z.max 0 (cantidad (category_total unit0 names s)).
Proof.
  unfold add_category. intros E Hname.
  destruct (0 <? cantidad (category_total unit0 names s)) eqn:Epos.
  - apply Z.ltb_lt in Epos.
    destruct (financial_metrics rate _) as [t |] eqn:Et; [| done].
    cbn [mbind result_bind bind] in E. injection E as <-.
    destruct (financial_metrics_ok _ _ _ Et) as (_ & Hc & _).
    rewrite sum_cantidad_set, Hname, Hc. lia.
  - apply Z.ltb_ge in Epos. injection E as <-. lia.
Qed.

(** The quantity of a category total, read from the raw records. *)
Lemma category_total_raw cats rate raw s1 s2 s unit0 names :
  add_records cats [] raw = Ok s1 -> all_financial_metrics rate s1 = Ok s2 ->
  (forall p, p ∈ names -> dict_get p s = dict_get p s2) ->
  cantidad (category_total unit0 names s) = category_cantidad names raw.
Proof.
  intros E1 E2 Hsame.
  destruct (category_total_fold names s (new_entry (Dec 0) unit0)) as [Hc _].
  fold (category_total unit0 names s) in Hc. rewrite Hc.
  unfold category_cantidad. cbn [new_entry cantidad]. f_equal.
  apply map_ext_in. intros p Hp. apply list_elem_of_In in Hp.
  rewrite (Hsame p Hp).
  pose proof (product_entry_after_metrics _ _ _ _ _ p E1 E2) as G.
  destruct (dict_get p s2) as [e |]; [by destruct G as (-> & _) |].
  unfold product_cantidad. by rewrite G.
Qed.

Lemma no_entry_without_record cats rate raw s1 s2 name :
  add_records cats [] raw = Ok s1 -> all_financial_metrics rate s1 = Ok s2 ->
  (forall r, r ∈ raw -> producto r <> name) -> dict_get name s2 = None.
Proof.
  intros E1 E2 Hno.
  pose proof (add_records_get _ _ _ _ name E1) as G1.
  rewrite (no_record_no_values _ _ Hno) in G1. cbn [dict_get] in G1.
  pose proof (all_financial_metrics_get _ _ _ name E2) as G2.
  by rewrite G1 in G2.
Qed.

(** X24: the indicators of a daily summary count the category totals
    as if they were products: when every record converts, the exchange
    rate is not zero and no record is named like a category total,
    [calculate_kpi_metrics] applied to the result of
    [process_daily_sales_summary] returns, and its [total_units_sold] is
    the sum of the quantities of the records plus the pellet total and
    the Vacam total (each when positive), so that every pellet unit is
    counted twice. *)
Theorem kpi_units_count_category_totals (F : Type) (float_of : Q -> F) self raw :
  Forall (fun r => is_Some (record_values r)) raw ->
  ~ (exchange_rate self == 0)%Q ->
  (forall r, r ∈ raw ->
     producto r <> "Total Pellet"%string /\ producto r <> "Total Vacam"%string) ->
  "Total Pellet"%string ∉ VACAM_PRODUCTS (product_categories self) ->
  exists k,
    calculate_kpi_metrics F float_of self (process_daily_sales_summary self raw)
      = Some k /\
    total_units_sold F k
    = raw_units raw
      + Z.max 0 (category_cantidad (PELLET_PRODUCTS (product_categories self)) raw)
      + Z.max 0 (category_cantidad (VACAM_PRODUCTS (product_categories self)) raw).
Proof.
  intros Hall Hrate Hnames Hvacam.
  destruct (process_daily_success self raw Hall Hrate) as (s1 & s2 & s3 & E1 & E2 & E3 & E4).
  set (data := process_daily_sales_summary self raw) in *.
  assert (Hp : dict_get "Total Pellet" s2 = None).
  { apply (no_entry_without_record _ _ _ _ _ _ E1 E2). intros r Hr.
    by destruct (Hnames r Hr). }
  assert (Hv : dict_get "Total Vacam" s3 = None).
  { rewrite (add_category_get _ _ _ _ _ _ "Total Vacam" E3 ltac:(done)).
    apply (no_entry_without_record _ _ _ _ _ _ E1 E2). intros r Hr.
    by destruct (Hnames r Hr). }
  assert (Hsum : sum_cantidad data
                 = raw_units raw
                   + Z.max 0 (category_cantidad
                                (PELLET_PRODUCTS (product_categories self)) raw)
                   + Z.max 0 (category_cantidad
                                (VACAM_PRODUCTS (product_categories self)) raw)).
  { rewrite (add_category_units _ _ _ _ _ _ E4 Hv).
    rewrite (add_category_units _ _ _ _ _ _ E3 Hp).
    rewrite (all_financial_metrics_units _ _ _ E2).
    rewrite (add_records_units _ _ _ _ E1).
    rewrite (category_total_raw _ _ _ _ _ s2 "bolsas" _ E1 E2 ltac:(done)).
    rewrite (category_total_raw _ _ _ _ _ s3 "total" _ E1 E2).
    - cbn [sum_cantidad foldr]. lia.
    - intros p Hin. apply (add_category_get _ _ _ _ _ _ p E3).
      intros ->. by apply Hvacam. }
  unfold calculate_kpi_metrics.
  set (totals := fold_left totals_step data (0%Q, 0, 0%Q)).
  assert (Hu : totals.1.2 = sum_cantidad data).
  { unfold totals. rewrite totals_step_units. cbn [fst snd]. lia. }
  assert (Hdiv : exists usd, div totals.1.1 (exchange_rate self) = Ok usd).
  { unfold div. destruct (Qeq_bool (exchange_rate self) 0) eqn:Er; [| by eexists].
    exfalso. apply Hrate. by apply Qeq_bool_iff. }
  assert (Hunit : exists per_unit,
    (if 0 <? totals.1.2
     then q ← div totals.1.1 (inject_Z totals.1.2); Ok (Some (float_of q))
     else Ok None) = Ok per_unit).
  { destruct (0 <? totals.1.2) eqn:Epos; [| by eexists].
    apply Z.ltb_lt in Epos. unfold div.
    destruct (Qeq_bool (inject_Z totals.1.2) 0) eqn:Ez; [| by eexists].
    exfalso. apply Qeq_bool_iff in Ez. unfold Qeq in Ez. cbn in Ez. lia. }
  assert (Hton : exists per_ton,
    (if negb (Qle_bool totals.2 0)
     then q ← div totals.1.1 totals.2; Ok (Some (float_of q))
     else Ok None) = Ok per_ton).
  { destruct (Qle_bool totals.2 0) eqn:Epos; [by eexists |]. cbn [negb].
    unfold div. destruct (Qeq_bool totals.2 0) eqn:Ez; [| by eexists].
    exfalso. apply Qeq_bool_iff in Ez. apply not_true_iff_false in Epos.
    apply Epos. apply Qle_bool_iff. rewrite Ez. apply Qle_refl. }
  destruct Hdiv as [usd Hdiv], Hunit as [per_unit Hunit], Hton as [per_ton Hton].
  rewrite Hdiv. cbn [mbind result_bind bind] in *.
  rewrite Hunit. cbn [mbind result_bind bind] in *.
  rewrite Hton. cbn [mbind result_bind bind] in *.
  eexists. split; [reflexivity |]. cbn [total_units_sold]. by rewrite Hu.
Qed.

End KpiFacts.

Lemma kpi_units_count_category_totals_witness :
  let self := Processor.mkprocessor 945 ∅ ∅ Processor.demo_categories in
  exists k,
    Kpi.calculate_kpi_metrics Q (fun q => q) self
      (Processor.DailySummary.process_daily_sales_summary self
         Processor.DailySummary.sample_records) = Some k /\
    Kpi.total_units_sold Q k = 11%Z.
Proof.
  intros self.
  destruct (kpi_units_count_category_totals Q (fun q => q) self
              Processor.DailySummary.sample_records) as (k & Hk & Hu).
  - unfold Processor.DailySummary.sample_records.
    repeat (apply Forall_cons; split); [| | | apply Forall_nil; exact I]; by eexists.
  - by compute.
  - intros r Hr. unfold Processor.DailySummary.sample_records in Hr.
    repeat (apply elem_of_cons in Hr as [-> | Hr]; [split; discriminate |]).
    by apply elem_of_nil in Hr.
  - vm_compute. intros H.
    repeat (apply elem_of_cons in H as [H | H]; [discriminate |]).
    by apply elem_of_nil in H.
  - exists k. split; [exact Hk |]. rewrite Hu. reflexivity.
Defined.
